(** * The control-loop engine of 2d-drone-sim

    A shallow embedding of the simulation core of the repository:

    - [PIDController.ts]     : the reusable PID controller     (module [PID]);
    - [CartPole.tsx]         : the cart-pole simulator          (module [CartPole]);
    - [types.ts]             : the drone's state and parameters (module [Types]);
    - [DorneSim.tsx]         : the drone with disturbances and
                               cascaded PID control             (module [Drone]);
    - [DisturbanceConfig.ts] : the plain drone [DroneSimu.tsx]
                               appended to that file            (module [DroneSimu]).

    Every definition is written once, over an interface [Number] of the
    operations the TypeScript code applies to its [number]s, and is read at
    two instances:

    - [R]: the real numbers.  Arithmetic is exact; this is the reading in
      which the general theorems are proved.  Division is the total
      division of [R]; no theorem below relies on its value at 0.
    - [float]: IEEE 754 binary64, the [number] of the JavaScript runtime.
      It is used to evaluate the code at concrete inputs, in particular
      where a division by zero produces an infinity or a NaN and where a
      sum is rounded.  [Math.sin] and [Math.cos], whose values the
      language leaves to the runtime, are arguments of this reading. *)

From Stdlib Require Import Reals Lra Lia ZArith QArith Qreals Floats Bool.
From Stdlib Require Import List String.
Import ListNotations.

Set Implicit Arguments.

(** ** Numbers *)

(** The operations of a JavaScript [number] that the engine uses.  [lit]
    reads a decimal literal of the source. *)
Class Number (num : Type) : Type := {
  lit : Q -> num;
  nadd : num -> num -> num;
  nsub : num -> num -> num;
  nmul : num -> num -> num;
  ndiv : num -> num -> num;
  nneg : num -> num;
  Math_min : num -> num -> num;
  Math_max : num -> num -> num;
  Math_abs : num -> num;
  ngt : num -> num -> bool;
  nseq : num -> num -> bool
}.

(** [Math.PI], [Math.sin], [Math.cos] and the remainder operator [%]. *)
Class Trig (num : Type) : Type := {
  Math_PI : num;
  Math_sin : num -> num;
  Math_cos : num -> num;
  nrem : num -> num -> num
}.

Declare Scope num_scope.
Delimit Scope num_scope with num.
Infix "+" := nadd : num_scope.
Infix "-" := nsub : num_scope.
Infix "*" := nmul : num_scope.
Infix "/" := ndiv : num_scope.
Notation "- x" := (nneg x) : num_scope.
Infix ">?" := ngt (at level 70, no associativity) : num_scope.
Infix "===" := nseq (at level 70, no associativity) : num_scope.
Infix "%%" := nrem (at level 40, left associativity) : num_scope.
Notation "# q" := (lit q%Q) (at level 1, format "# q") : num_scope.

(** *** The real numbers *)

Module RealNumber.

Open Scope R_scope.

Definition gtb (a b : R) : bool := if Rlt_dec b a then true else false.
Definition eqb (a b : R) : bool := if Req_dec_T a b then true else false.

(** [Math.trunc]: the integer part, rounding towards zero. *)
Definition trunc (a : R) : Z :=
  if Rle_dec 0 a then Int_part a else (- Int_part (- a))%Z.

(** [a % b]: the remainder of the truncated division, with the sign of
    the dividend. *)
Definition rem (a b : R) : R := a - b * IZR (trunc (a / b)).

End RealNumber.

#[export] Instance RNumber : Number R := {
  lit := Q2R;
  nadd := Rplus;
  nsub := Rminus;
  nmul := Rmult;
  ndiv := Rdiv;
  nneg := Ropp;
  Math_min := Rmin;
  Math_max := Rmax;
  Math_abs := Rabs;
  ngt := RealNumber.gtb;
  nseq := RealNumber.eqb
}.

#[export] Instance RTrig : Trig R := {
  Math_PI := PI;
  Math_sin := sin;
  Math_cos := cos;
  nrem := RealNumber.rem
}.

(** *** IEEE 754 binary64 *)

Module Binary64.

Open Scope float_scope.

Definition of_Z (z : Z) : float :=
  match z with
  | Z0 => 0
  | Zpos _ => PrimFloat.of_uint63 (Uint63.of_Z z)
  | Zneg p => - PrimFloat.of_uint63 (Uint63.of_Z (Zpos p))
  end.

(** A decimal literal [n/d] with [n] and [d] below 2^53: both convert
    exactly and the division rounds to the nearest binary64 value, which
    is the value the literal denotes in JavaScript. *)
Definition of_Q (q : Q) : float := of_Z (Qnum q) / of_Z (Zpos (Qden q)).

(** [Math.max] and [Math.min]: NaN if either argument is NaN, and -0 is
    below +0. *)
Definition max (a b : float) : float :=
  if is_nan a || is_nan b then nan
  else if a <? b then b
  else if b <? a then a
  else if get_sign a then b else a.

Definition min (a b : float) : float :=
  if is_nan a || is_nan b then nan
  else if a <? b then a
  else if b <? a then b
  else if get_sign a then a else b.

(** [Number.isFinite]. *)
Definition isFinite (a : float) : bool := negb (is_nan a || is_infinity a).

(** The value of [Math.PI]. *)
Definition PI : float := 0x1.921fb54442d18p+1.

(** [a % b]: the remainder of the truncated division, computed exactly
    on the integers [ma * 2^ea] and [mb * 2^eb] that the two numbers
    are; it has the sign of the dividend and is always a binary64 value.
    NaN when [a] is infinite or [b] is zero; [a] itself when [a] is a
    zero or [b] is infinite. *)
Definition rem (a b : float) : float :=
  match Prim2SF a, Prim2SF b with
  | S754_nan, _ | _, S754_nan => nan
  | S754_infinity _, _ => nan
  | _, S754_zero _ => nan
  | S754_zero _, _ => a
  | S754_finite _ _ _, S754_infinity _ => a
  | S754_finite sa ma ea, S754_finite _ mb eb =>
      let e := Z.min ea eb in
      let r := Z.rem (Zpos ma * 2 ^ (ea - e)) (Zpos mb * 2 ^ (eb - e)) in
      SF2Prim (binary_normalize prec emax (if sa then (- r)%Z else r) e sa)
  end.

End Binary64.

#[export] Instance FNumber : Number float := {
  lit := Binary64.of_Q;
  nadd := PrimFloat.add;
  nsub := PrimFloat.sub;
  nmul := PrimFloat.mul;
  ndiv := PrimFloat.div;
  nneg := PrimFloat.opp;
  Math_min := Binary64.min;
  Math_max := Binary64.max;
  Math_abs := PrimFloat.abs;
  ngt := fun a b => PrimFloat.ltb b a;
  nseq := PrimFloat.eqb
}.

(** [Math.PI] and [%] in binary64.  The language does not fix the values
    of [Math.sin] and [Math.cos] (they are implementation-approximated),
    so the binary64 reading takes the two functions of the runtime as
    arguments. *)
Definition FTrig (sin cos : float -> float) : Trig float := {|
  Math_PI := Binary64.PI;
  Math_sin := sin;
  Math_cos := cos;
  nrem := Binary64.rem
|}.

(** ** PIDController.ts *)

Module PID.
Section Controller.

Context {num : Type} {N : Number num}.
Open Scope num_scope.

(** The private fields of the class. *)
Record PIDController : Type := mkPID {
  prevError : num;
  integral : num;
  lastTime : option num;
  kp : num;
  ki : num;
  kd : num;
  outputMin : num;
  outputMax : num
}.

(** The constructor, at explicit output bounds (every instance of the
    repository is built with both). *)
Definition new (kp ki kd outputMin outputMax : num) : PIDController :=
  mkPID #0 #0 None kp ki kd outputMin outputMax.

(** [update(setpoint, measured, dt)]: the returned output and the
    controller after the call. *)
Definition update (this : PIDController) (setpoint measured dt : num)
  : num * PIDController :=
  let error := setpoint - measured in
  let integral1 := integral this + error * dt in
  let maxIntegral := (outputMax this - kp this * error) / ki this in
  let minIntegral := (outputMin this - kp this * error) / ki this in
  let integral2 := Math_min (Math_max integral1 minIntegral) maxIntegral in
  let derivative := (error - prevError this) / dt in
  let output :=
    kp this * error + ki this * integral2 + kd this * derivative in
  let output := Math_min (Math_max output (outputMin this)) (outputMax this) in
  (output,
   mkPID error integral2 (lastTime this)
         (kp this) (ki this) (kd this) (outputMin this) (outputMax this)).

Definition reset (this : PIDController) : PIDController :=
  mkPID #0 #0 None
        (kp this) (ki this) (kd this) (outputMin this) (outputMax this).

Definition setGains (this : PIDController) (kp' ki' kd' : num)
  : PIDController :=
  mkPID (prevError this) (integral this) (lastTime this)
        kp' ki' kd' (outputMin this) (outputMax this).

End Controller.
Arguments PIDController : clear implicits.
End PID.

(** ** CartPole.tsx *)

Module CartPole.
Section Simulator.

Context {num : Type} {N : Number num} {T : Trig num}.
Open Scope num_scope.

Record CartPoleState : Type := mkState {
  x : num;
  theta : num;
  dx : num;
  dtheta : num;
  score : num
}.

Record PIDController : Type := mkController {
  target : num;
  kp : num;
  ki : num;
  kd : num;
  integral : num;
  lastError : num
}.

Definition initialState : CartPoleState := mkState #0 #0.1 #0 #0 #0.

Definition initialController : PIDController :=
  mkController #0 #30 #0.1 #10 #0 #0.

Definition gravity : num := #9.81.
Definition cartMass : num := #1.0.
Definition poleMass : num := #0.1.
Definition totalMass : num := cartMass + poleMass.
Definition poleLength : num := #0.5.
Definition dt : num := #0.02.
Definition maxForce : num := #15.0.

(** [calculatePIDControl]: the controller object is updated in place;
    the function returns the bounded force and that object. *)
Definition calculatePIDControl (state : CartPoleState)
    (controller : PIDController) : num * PIDController :=
  let error := theta state - target controller in
  let integral' := integral controller + error * dt in
  let derivative := (error - lastError controller) / dt in
  let output :=
    kp controller * error + ki controller * integral' +
    kd controller * derivative in
  (Math_max (- maxForce) (Math_min maxForce output),
   mkController (target controller) (kp controller) (ki controller)
                (kd controller) integral' error).

(** The last two statements of [updatePhysics]: the new angle brought
    back between -pi and pi. *)
Definition normalizeAngle (newTheta : num) : num :=
  let normalizedTheta :=
    ((newTheta %% (#2 * Math_PI)) + #2 * Math_PI) %% (#2 * Math_PI) in
  if normalizedTheta >? Math_PI
  then normalizedTheta - #2 * Math_PI
  else normalizedTheta.

Definition updatePhysics (currentState : CartPoleState)
    (appliedForce : num) : CartPoleState :=
  let x := x currentState in
  let theta := theta currentState in
  let dx := dx currentState in
  let dtheta := dtheta currentState in
  let cosTheta := Math_cos theta in
  let sinTheta := Math_sin theta in
  let poleForce := poleMass * poleLength * dtheta * dtheta * sinTheta in
  let temp := totalMass - poleMass * cosTheta * cosTheta in
  let ddtheta :=
    (gravity * sinTheta * totalMass - (appliedForce + poleForce) * cosTheta)
    / (poleLength * temp) in
  let ddx :=
    (appliedForce + poleForce + poleMass * poleLength * ddtheta * cosTheta -
     poleMass * poleLength * dtheta * dtheta * sinTheta) / totalMass in
  let newX := x + dx * dt in
  let newTheta := theta + dtheta * dt in
  let newDx := dx + ddx * dt in
  let newDtheta := dtheta + ddtheta * dt in
  let finalTheta := normalizeAngle newTheta in
  mkState newX finalTheta newDx newDtheta (score currentState + #1).

(** The React state the animation loop reads and writes. *)
Record Run : Type := mkRun {
  state : CartPoleState;
  pidController : PIDController;
  isRunning : bool
}.

(** The failure condition of the loop. *)
Definition failed (newState : CartPoleState) : bool :=
  (Math_abs (x newState) >? #2.4) ||
  (Math_abs (theta newState) >? Math_PI * #0.5).

(** The force of a firing, [currentForce]: the slider's or the keys'
    force, or the controller's output under the autopilot (with the
    controller after that call). *)
Definition currentForce (force : num) (isAutoPilot : bool) (r : Run)
  : num * PIDController :=
  if isAutoPilot
  then calculatePIDControl (state r) (pidController r)
  else (force, pidController r).

(** One firing of the interval: the updater passed to [setState],
    together with its [setIsRunning(false)]. *)
Definition tick (force : num) (isAutoPilot : bool) (r : Run) : Run :=
  let current := state r in
  let '(currentForce, controller) := currentForce force isAutoPilot r in
  let newState := updatePhysics current currentForce in
  if failed newState
  then mkRun current controller false
  else mkRun newState controller (isRunning r).

(** The interval exists only while [isRunning]. *)
Definition interval (force : num) (isAutoPilot : bool) (r : Run) : Run :=
  if isRunning r then tick force isAutoPilot r else r.

(** [n] firings of the interval. *)
Fixpoint run (n : nat) (force : num) (isAutoPilot : bool) (r : Run) : Run :=
  match n with
  | O => r
  | S n' => run n' force isAutoPilot (interval force isAutoPilot r)
  end.

(** [n] successive calls of [calculatePIDControl] on the same measured
    state. *)
Fixpoint holdPID (n : nat) (state : CartPoleState)
    (controller : PIDController) : PIDController :=
  match n with
  | O => controller
  | S n' => holdPID n' state (snd (calculatePIDControl state controller))
  end.

End Simulator.
Arguments CartPoleState : clear implicits.
Arguments PIDController : clear implicits.
Arguments Run : clear implicits.
End CartPole.

(** ** types.ts *)

Module Types.
Section Interfaces.

Context {num : Type}.

Record Position : Type := mkPosition { x : num; y : num }.

(** [Velocity] has the members of [Position]: to TypeScript they are one
    type. *)
Definition Velocity : Type := Position.

Record PhysicsState : Type := mkPhysicsState {
  position : Position;
  velocity : Velocity;
  rotation : num;
  angularVelocity : num
}.

Record PhysicsParams : Type := mkPhysicsParams {
  GRAVITY : num;
  MASS : num;
  MOMENT_OF_INERTIA : num;
  DRAG_COEFFICIENT : num;
  ANGULAR_DRAG_COEFFICIENT : num;
  THRUST_DISTANCE : num;
  CENTER_OF_MASS_OFFSET : num;
  LEFT_THRUST_EFFICIENCY : num;
  RIGHT_THRUST_EFFICIENCY : num
}.

End Interfaces.
Arguments Position : clear implicits.
Arguments Velocity : clear implicits.
Arguments PhysicsState : clear implicits.
Arguments PhysicsParams : clear implicits.
End Types.

(** ** DisturbanceConfig.ts: the configuration interfaces *)

Module WindDisturbance.
Record t (num : Type) : Type := make {
  enabled : bool;
  baseSpeed : num;
  gustFrequency : num;
  gustMagnitude : num;
  turbulenceIntensity : num
}.
End WindDisturbance.

Module ThrustNoise.
Record t (num : Type) : Type := make {
  enabled : bool;
  magnitude : num;
  frequency : num
}.
End ThrustNoise.

Module DisturbanceConfig.
Record t (num : Type) : Type := make {
  wind : WindDisturbance.t num;
  thrust : ThrustNoise.t num
}.
End DisturbanceConfig.

(** ** types.ts: the configuration of the controllers *)

Module PIDConfig.
Record Gains (num : Type) : Type := mkGains { kp : num; ki : num; kd : num }.
Record PositionGains (num : Type) : Type := mkPositionGains {
  horizontal : Gains num;
  vertical : Gains num
}.
Record t (num : Type) : Type := make {
  enabled : bool;
  attitude : Gains num;
  position : PositionGains num
}.
End PIDConfig.

(** ** A state monad for the mutable cells of a component *)

Module StateMonad.
Section Monad.

Variable S : Type.

Definition M (A : Type) : Type := S -> A * S.

Definition ret {A : Type} (a : A) : M A := fun s => (a, s).

Definition bind {A B : Type} (c : M A) (k : A -> M B) : M B :=
  fun s => let (a, s') := c s in k a s'.

Definition get : M S := fun s => (s, s).

Definition modify (f : S -> S) : M unit := fun s => (tt, f s).

End Monad.
Arguments ret {S A} a.
Arguments bind {S A B} c k.
Arguments get {S}.
Arguments modify {S} f.
End StateMonad.

Declare Scope monad_scope.
Delimit Scope monad_scope with monad.
Notation "x <- c ;; k" := (StateMonad.bind c (fun x => k))
  (at level 61, c at next level, right associativity) : monad_scope.
Notation "c ;; k" := (StateMonad.bind c (fun _ => k))
  (at level 61, right associativity) : monad_scope.

(** ** DorneSim.tsx *)

Module Drone.
Import Types StateMonad.
Section Simulator.

Context {num : Type} {N : Number num} {T : Trig num}.
Open Scope num_scope.
Open Scope monad_scope.

Definition DEFAULT_PHYSICS_PARAMS : PhysicsParams num :=
  mkPhysicsParams #9.8 #1.0 #0.1 #0.1 #0.5 #0.4 #0.0 #1.0 #1.0.

Definition DEFAULT_DISTURBANCE_CONFIG : DisturbanceConfig.t num :=
  DisturbanceConfig.make
    (WindDisturbance.make true #0.0 #0.0 #0.0 #0.0)
    (ThrustNoise.make true #0.00 #10).

Definition DEFAULT_PID_CONFIG : PIDConfig.t num :=
  PIDConfig.make true
    (PIDConfig.mkGains #8.0 #0.5 #0.0)
    (PIDConfig.mkPositionGains
       (PIDConfig.mkGains #1.0 #0.05 #0.0)
       (PIDConfig.mkGains #1.5 #0.05 #0.0)).

(** The state the component holds with [useState]. *)
Record ReactState : Type := mkReactState {
  physicsState : PhysicsState num;
  leftThrust : num;
  rightThrust : num;
  disturbanceConfig : DisturbanceConfig.t num;
  pidConfig : PIDConfig.t num
}.

Record WindState : Type := mkWindState { time : num; currentGust : num }.

(** The mutable cells a frame reads and writes: the [useRef] objects, and
    the generator behind [Math.random], given as the sequence of values
    it returns and the number of values taken so far. *)
Record Store : Type := mkStore {
  lastTimeRef : num;
  windStateRef : WindState;
  attitudePIDRef : PID.PIDController num;
  horizontalPositionPIDRef : PID.PIDController num;
  verticalPositionPIDRef : PID.PIDController num;
  random : nat -> num;
  drawn : nat
}.

Definition initialState : ReactState :=
  mkReactState
    (mkPhysicsState (mkPosition #100 #150) (mkPosition #0 #0) #0 #0)
    #4.9 #4.9 DEFAULT_DISTURBANCE_CONFIG DEFAULT_PID_CONFIG.

Definition initialStore (now : num) (random : nat -> num) : Store :=
  mkStore now (mkWindState #0 #0)
    (PID.new #8.0 #0.5 #0.0 (- #1) #1)
    (PID.new #1.0 #0.05 #0.0 ((- Math_PI) / #6) (Math_PI / #6))
    (PID.new #1.5 #0.05 #0.0 (- #2) #2)
    random 0.

Definition Math_random : M Store num :=
  fun s =>
    (random s (drawn s),
     mkStore (lastTimeRef s) (windStateRef s) (attitudePIDRef s)
             (horizontalPositionPIDRef s) (verticalPositionPIDRef s)
             (random s) (S (drawn s))).

Definition setWindState (w : WindState) : M Store unit :=
  modify (fun s =>
    mkStore (lastTimeRef s) w (attitudePIDRef s)
            (horizontalPositionPIDRef s) (verticalPositionPIDRef s)
            (random s) (drawn s)).

Definition setLastTime (t : num) : M Store unit :=
  modify (fun s =>
    mkStore t (windStateRef s) (attitudePIDRef s)
            (horizontalPositionPIDRef s) (verticalPositionPIDRef s)
            (random s) (drawn s)).

Definition setAttitudePID (c : PID.PIDController num) : M Store unit :=
  modify (fun s =>
    mkStore (lastTimeRef s) (windStateRef s) c
            (horizontalPositionPIDRef s) (verticalPositionPIDRef s)
            (random s) (drawn s)).

Definition setHorizontalPositionPID (c : PID.PIDController num)
  : M Store unit :=
  modify (fun s =>
    mkStore (lastTimeRef s) (windStateRef s) (attitudePIDRef s)
            c (verticalPositionPIDRef s) (random s) (drawn s)).

Definition setVerticalPositionPID (c : PID.PIDController num)
  : M Store unit :=
  modify (fun s =>
    mkStore (lastTimeRef s) (windStateRef s) (attitudePIDRef s)
            (horizontalPositionPIDRef s) c (random s) (drawn s)).

(** [ref.current.update(setpoint, measured, dt)] on each of the three
    controllers. *)
Definition attitudePID_update (setpoint measured dt : num) : M Store num :=
  s <- get ;;
  let (output, c) := PID.update (attitudePIDRef s) setpoint measured dt in
  setAttitudePID c ;; ret output.

Definition horizontalPositionPID_update (setpoint measured dt : num)
  : M Store num :=
  s <- get ;;
  let (output, c) :=
    PID.update (horizontalPositionPIDRef s) setpoint measured dt in
  setHorizontalPositionPID c ;; ret output.

Definition verticalPositionPID_update (setpoint measured dt : num)
  : M Store num :=
  s <- get ;;
  let (output, c) :=
    PID.update (verticalPositionPIDRef s) setpoint measured dt in
  setVerticalPositionPID c ;; ret output.

Record ThrustFactors : Type := mkThrustFactors { left : num; right : num }.

Record Disturbances : Type := mkDisturbances {
  windForce : num;
  thrustNoise : ThrustFactors
}.

Definition calculateDisturbances (disturbanceConfig : DisturbanceConfig.t num)
    (deltaTime : num) : M Store Disturbances :=
  let wind := DisturbanceConfig.wind disturbanceConfig in
  let thrust := DisturbanceConfig.thrust disturbanceConfig in
  windForce <-
    (if WindDisturbance.enabled wind then
       s <- get ;;
       let w := windStateRef s in
       let time' := time w + deltaTime in
       setWindState (mkWindState time' (currentGust w)) ;;
       let windForce := WindDisturbance.baseSpeed wind in
       let gustPhase :=
         #2 * Math_PI * WindDisturbance.gustFrequency wind * time' in
       let gustEffect :=
         Math_sin gustPhase * WindDisturbance.gustMagnitude wind in
       u <- Math_random ;;
       let turbulence :=
         (u - #0.5) * #2 * WindDisturbance.turbulenceIntensity wind in
       ret (windForce + (gustEffect + turbulence))
     else ret #0) ;;
  thrustNoise <-
    (if ThrustNoise.enabled thrust then
       u1 <- Math_random ;;
       let noiseLeft := #1 + (u1 - #0.5) * #2 * ThrustNoise.magnitude thrust in
       u2 <- Math_random ;;
       let noiseRight := #1 + (u2 - #0.5) * #2 * ThrustNoise.magnitude thrust in
       ret (mkThrustFactors noiseLeft noiseRight)
     else ret (mkThrustFactors #1 #1)) ;;
  ret (mkDisturbances windForce thrustNoise).

(** The effect that pushes the gains of [pidConfig] into the
    controllers. *)
Definition updateGains (pidConfig : PIDConfig.t num) : M Store unit :=
  s <- get ;;
  let a := PIDConfig.attitude pidConfig in
  let h := PIDConfig.horizontal (PIDConfig.position pidConfig) in
  let v := PIDConfig.vertical (PIDConfig.position pidConfig) in
  setAttitudePID
    (PID.setGains (attitudePIDRef s)
       (PIDConfig.kp a) (PIDConfig.ki a) (PIDConfig.kd a)) ;;
  setHorizontalPositionPID
    (PID.setGains (horizontalPositionPIDRef s)
       (PIDConfig.kp h) (PIDConfig.ki h) (PIDConfig.kd h)) ;;
  setVerticalPositionPID
    (PID.setGains (verticalPositionPIDRef s)
       (PIDConfig.kp v) (PIDConfig.ki v) (PIDConfig.kd v)).

(** The effect that resets the controllers when the PID system is
    switched off. *)
Definition resetControllers (pidConfig : PIDConfig.t num) : M Store unit :=
  if PIDConfig.enabled pidConfig then ret tt
  else
    s <- get ;;
    setAttitudePID (PID.reset (attitudePIDRef s)) ;;
    setHorizontalPositionPID (PID.reset (horizontalPositionPIDRef s)) ;;
    setVerticalPositionPID (PID.reset (verticalPositionPIDRef s)).

(** [updatePhysics] is given in three parts, cut where its own comments
    cut it: the thrust commanded by the controllers, the integration of
    the motion, and the handling of the walls. *)

(** The thrust of each rotor: the output of the cascade when the PID
    system is enabled, the sliders' values otherwise. *)
Definition commandThrust (st : ReactState) (dt : num) : M Store (num * num) :=
  let physicsState := physicsState st in
  if PIDConfig.enabled (pidConfig st) then
    let targetX := #300 in
    let targetY := #150 in
    verticalControl <-
      verticalPositionPID_update targetY (y (position physicsState)) dt ;;
    horizontalControl <-
      horizontalPositionPID_update targetX (x (position physicsState)) dt ;;
    let targetRotation := - horizontalControl in
    attitudeControl <-
      attitudePID_update targetRotation (rotation physicsState) dt ;;
    let baseThrust := #4.9 in
    let currentLeftThrust := baseThrust + verticalControl + attitudeControl in
    let currentRightThrust := baseThrust + verticalControl - attitudeControl in
    ret (Math_min (Math_max currentLeftThrust #0) #100,
         Math_min (Math_max currentRightThrust #0) #100)
  else ret (leftThrust st, rightThrust st).

(** The [new...] constants of [updatePhysics]. *)
Record Motion : Type := mkMotion {
  newAngularVelocity : num;
  newRotation : num;
  newVelocityX : num;
  newVelocityY : num;
  newPositionX : num;
  newPositionY : num
}.

Definition integrate (params : PhysicsParams num)
    (physicsState : PhysicsState num)
    (currentLeftThrust currentRightThrust : num)
    (disturbances : Disturbances) (dt : num) : Motion :=
  let windForce := windForce disturbances in
  let thrustNoise := thrustNoise disturbances in
  let effectiveLeftThrust :=
    currentLeftThrust * LEFT_THRUST_EFFICIENCY params * left thrustNoise in
  let effectiveRightThrust :=
    currentRightThrust * RIGHT_THRUST_EFFICIENCY params * right thrustNoise in
  let totalThrust := effectiveLeftThrust + effectiveRightThrust in
  let torque :=
    effectiveRightThrust *
      (THRUST_DISTANCE params + CENTER_OF_MASS_OFFSET params) -
    effectiveLeftThrust *
      (THRUST_DISTANCE params - CENTER_OF_MASS_OFFSET params) in
  let angularAcceleration :=
    (torque - ANGULAR_DRAG_COEFFICIENT params * angularVelocity physicsState)
    / MOMENT_OF_INERTIA params in
  let newAngularVelocity :=
    angularVelocity physicsState + angularAcceleration * dt in
  let newRotation := rotation physicsState + newAngularVelocity * dt in
  let thrustForceY := totalThrust * Math_cos (rotation physicsState) in
  let thrustForceX :=
    totalThrust * Math_sin (rotation physicsState) + windForce in
  let gravityForce := MASS params * GRAVITY params in
  let dragForceY :=
    DRAG_COEFFICIENT params * y (velocity physicsState) *
    Math_abs (y (velocity physicsState)) in
  let dragForceX :=
    DRAG_COEFFICIENT params * x (velocity physicsState) *
    Math_abs (x (velocity physicsState)) in
  let verticalAcceleration :=
    (thrustForceY - gravityForce - dragForceY) / MASS params in
  let horizontalAcceleration := (thrustForceX - dragForceX) / MASS params in
  let newVelocityY := y (velocity physicsState) + verticalAcceleration * dt in
  let newVelocityX :=
    x (velocity physicsState) + horizontalAcceleration * dt in
  let newPositionY := y (position physicsState) - newVelocityY * dt in
  let newPositionX := x (position physicsState) + newVelocityX * dt in
  mkMotion newAngularVelocity newRotation newVelocityX newVelocityY
           newPositionX newPositionY.

(** The walls: the state handed to [setPhysicsState]. *)
Definition boundary (m : Motion) : PhysicsState num :=
  let finalPositionY := Math_min (Math_max (newPositionY m) #10) #290 in
  let finalPositionX := Math_min (Math_max (newPositionX m) #10) #590 in
  let finalVelocityY :=
    if (finalPositionY === #10) || (finalPositionY === #290)
    then #0 else newVelocityY m in
  let finalVelocityX :=
    if (finalPositionX === #10) || (finalPositionX === #590)
    then #0 else newVelocityX m in
  mkPhysicsState (mkPosition finalPositionX finalPositionY)
                 (mkPosition finalVelocityX finalVelocityY)
                 (newRotation m) (newAngularVelocity m).

(** The motion a frame integrates, before the walls. *)
Definition motion (st : ReactState) (deltaTime : num) : M Store Motion :=
  let dt := deltaTime / #100 in
  let params := DEFAULT_PHYSICS_PARAMS in
  thrusts <- commandThrust st dt ;;
  disturbances <- calculateDisturbances (disturbanceConfig st) deltaTime ;;
  ret (integrate params (physicsState st) (fst thrusts) (snd thrusts)
                 disturbances dt).

Definition updatePhysics (st : ReactState) (deltaTime : num)
  : M Store (PhysicsState num) :=
  m <- motion st deltaTime ;;
  ret (boundary m).

(** One animation frame at clock reading [currentTime]: the component's
    state after [setPhysicsState]. *)
Definition animate (st : ReactState) (currentTime : num)
  : M Store ReactState :=
  s <- get ;;
  let deltaTime := currentTime - lastTimeRef s in
  setLastTime currentTime ;;
  p <- updatePhysics st deltaTime ;;
  ret (mkReactState p (leftThrust st) (rightThrust st)
                    (disturbanceConfig st) (pidConfig st)).

End Simulator.
Arguments ReactState : clear implicits.
Arguments WindState : clear implicits.
Arguments Store : clear implicits.
Arguments ThrustFactors : clear implicits.
Arguments Disturbances : clear implicits.
Arguments Motion : clear implicits.
End Drone.

(** ** DisturbanceConfig.ts: the plain simulator [DroneSimu.tsx] *)

Module DroneSimu.
Import Types.
Section Simulator.

Context {num : Type} {N : Number num} {T : Trig num}.
Open Scope num_scope.

(** This file declares [PhysicsParams] without the offset and
    efficiency members. *)
Record PhysicsParams : Type := mkPhysicsParams {
  GRAVITY : num;
  MASS : num;
  MOMENT_OF_INERTIA : num;
  DRAG_COEFFICIENT : num;
  ANGULAR_DRAG_COEFFICIENT : num;
  THRUST_DISTANCE : num
}.

Definition PHYSICS_PARAMS : PhysicsParams :=
  mkPhysicsParams #9.8 #1.0 #0.1 #0.1 #0.5 #0.4.

Record ReactState : Type := mkReactState {
  physicsState : PhysicsState num;
  leftThrust : num;
  rightThrust : num
}.

Definition initialState : ReactState :=
  mkReactState
    (mkPhysicsState (mkPosition #150 #150) (mkPosition #0 #0) #0 #0)
    #4.9 #4.9.

Record Motion : Type := mkMotion {
  newAngularVelocity : num;
  newRotation : num;
  newVelocityX : num;
  newVelocityY : num;
  newPositionX : num;
  newPositionY : num
}.

(** [updatePhysics] up to the walls. *)
Definition motion (st : ReactState) (deltaTime : num) : Motion :=
  let physicsState := physicsState st in
  let dt := deltaTime / #100 in
  let totalThrust := leftThrust st + rightThrust st in
  let torque :=
    (rightThrust st - leftThrust st) * THRUST_DISTANCE PHYSICS_PARAMS in
  let angularAcceleration :=
    (torque -
     ANGULAR_DRAG_COEFFICIENT PHYSICS_PARAMS * angularVelocity physicsState)
    / MOMENT_OF_INERTIA PHYSICS_PARAMS in
  let newAngularVelocity :=
    angularVelocity physicsState + angularAcceleration * dt in
  let newRotation := rotation physicsState + newAngularVelocity * dt in
  let thrustForceY := totalThrust * Math_cos (rotation physicsState) in
  let thrustForceX := totalThrust * Math_sin (rotation physicsState) in
  let gravityForce := MASS PHYSICS_PARAMS * GRAVITY PHYSICS_PARAMS in
  let verticalDragForce :=
    DRAG_COEFFICIENT PHYSICS_PARAMS * y (velocity physicsState) *
    Math_abs (y (velocity physicsState)) in
  let verticalAcceleration :=
    (thrustForceY - gravityForce - verticalDragForce) / MASS PHYSICS_PARAMS in
  let horizontalDragForce :=
    DRAG_COEFFICIENT PHYSICS_PARAMS * x (velocity physicsState) *
    Math_abs (x (velocity physicsState)) in
  let horizontalAcceleration :=
    (thrustForceX - horizontalDragForce) / MASS PHYSICS_PARAMS in
  let newVelocityY := y (velocity physicsState) + verticalAcceleration * dt in
  let newVelocityX :=
    x (velocity physicsState) + horizontalAcceleration * dt in
  let newPositionY := y (position physicsState) - newVelocityY * dt in
  let newPositionX := x (position physicsState) + newVelocityX * dt in
  mkMotion newAngularVelocity newRotation newVelocityX newVelocityY
           newPositionX newPositionY.

(** The walls: the state handed to [setPhysicsState]. *)
Definition boundary (m : Motion) : PhysicsState num :=
  let finalPositionY := Math_min (Math_max (newPositionY m) #10) #290 in
  let finalPositionX := Math_min (Math_max (newPositionX m) #10) #590 in
  let finalVelocityY :=
    if (finalPositionY === #10) || (finalPositionY === #290)
    then #0 else newVelocityY m in
  let finalVelocityX :=
    if (finalPositionX === #10) || (finalPositionX === #590)
    then #0 else newVelocityX m in
  mkPhysicsState (mkPosition finalPositionX finalPositionY)
                 (mkPosition finalVelocityX finalVelocityY)
                 (newRotation m) (newAngularVelocity m).

Definition updatePhysics (st : ReactState) (deltaTime : num)
  : PhysicsState num :=
  boundary (motion st deltaTime).

End Simulator.
Arguments PhysicsParams : clear implicits.
Arguments ReactState : clear implicits.
Arguments Motion : clear implicits.
End DroneSimu.

(** ** PIDController.ts: sequences of method calls *)

Module PIDCalls.
Section Calls.

Context {num : Type} {N : Number num}.

(** A call of one of the three public methods. *)
Inductive Call : Type :=
| Update (setpoint measured dt : num)
| Reset
| SetGains (kp ki kd : num).

Definition call (this : PID.PIDController num) (c : Call)
  : PID.PIDController num :=
  match c with
  | Update setpoint measured dt => snd (PID.update this setpoint measured dt)
  | Reset => PID.reset this
  | SetGains kp ki kd => PID.setGains this kp ki kd
  end.

(** The controller after a sequence of calls, the first call first. *)
Definition calls (cs : list Call) (this : PID.PIDController num)
  : PID.PIDController num :=
  fold_left call cs this.

End Calls.
Arguments Call : clear implicits.
End PIDCalls.

(** ** CartPole.tsx: the component and its event handlers *)

Module CartPoleUI.
Import CartPole.
Section Component.

Context {num : Type} {N : Number num} {T : Trig num}.
Open Scope num_scope.

(** The five [useState] cells of [CartPoleSimulator]: [state],
    [pidController] and [isRunning] (the [Run] of the loop), [force] and
    [isAutoPilot]. *)
Record Component : Type := mkComponent {
  simulation : Run num;
  force : num;
  isAutoPilot : bool
}.

Definition initialComponent : Component :=
  mkComponent (mkRun initialState initialController false) #0 false.

(** The names [updateGain] accepts. *)
Inductive GainName : Type := Gkp | Gki | Gkd.

(** [handleKeyDown]: the two tests on [e.key], in order. *)
Definition handleKeyDown (key : string) (c : Component) : Component :=
  let c1 :=
    if String.eqb key "ArrowLeft"
    then mkComponent (simulation c) (- maxForce) (isAutoPilot c)
    else c in
  if String.eqb key "ArrowRight"
  then mkComponent (simulation c1) maxForce (isAutoPilot c1)
  else c1.

Definition handleKeyUp (c : Component) : Component :=
  mkComponent (simulation c) #0 (isAutoPilot c).

(** [updateGain(type, value)]. *)
Definition updateGain (type : GainName) (value : num) (c : Component)
  : Component :=
  let prev := pidController (simulation c) in
  let controller :=
    match type with
    | Gkp => mkController (target prev) value (ki prev) (kd prev)
                          (integral prev) (lastError prev)
    | Gki => mkController (target prev) (kp prev) value (kd prev)
                          (integral prev) (lastError prev)
    | Gkd => mkController (target prev) (kp prev) (ki prev) value
                          (integral prev) (lastError prev)
    end in
  mkComponent
    (mkRun (state (simulation c)) controller (isRunning (simulation c)))
    (force c) (isAutoPilot c).

(** The click handler of the reset button. *)
Definition onReset (c : Component) : Component :=
  let prev := pidController (simulation c) in
  mkComponent
    (mkRun (mkState #0 #0.1 #0 #0 #0)
           (mkController (target prev) (kp prev) (ki prev) (kd prev) #0 #0)
           true)
    (force c) (isAutoPilot c).

(** The click handler of the start/stop button. *)
Definition onToggleRunning (c : Component) : Component :=
  mkComponent
    (mkRun (state (simulation c)) (pidController (simulation c))
           (negb (isRunning (simulation c))))
    (force c) (isAutoPilot c).

(** The click handler of the autopilot button. *)
Definition onToggleAutoPilot (c : Component) : Component :=
  mkComponent (simulation c) (force c) (negb (isAutoPilot c)).

(** What can happen to the component. *)
Inductive Event : Type :=
| KeyDown (key : string)
| KeyUp
| Interval
| ClickReset
| ClickStartStop
| ClickAutoPilot
| ChangeGain (type : GainName) (value : num).

(** The key listeners are attached only while the autopilot is off; the
    interval fires only while the simulation is running. *)
Definition handle (c : Component) (e : Event) : Component :=
  match e with
  | KeyDown key => if isAutoPilot c then c else handleKeyDown key c
  | KeyUp => if isAutoPilot c then c else handleKeyUp c
  | Interval =>
      mkComponent (interval (force c) (isAutoPilot c) (simulation c))
                  (force c) (isAutoPilot c)
  | ClickReset => onReset c
  | ClickStartStop => onToggleRunning c
  | ClickAutoPilot => onToggleAutoPilot c
  | ChangeGain type value => updateGain type value c
  end.

(** The component after a sequence of events, the first event first. *)
Definition handleAll (es : list Event) (c : Component) : Component :=
  fold_left handle es c.

End Component.
Arguments Component : clear implicits.
Arguments Event : clear implicits.
End CartPoleUI.

(** ** DorneSim.tsx: successive animation frames *)

Module DroneLoop.
Import StateMonad Drone.
Section Frames.

Context {num : Type} {N : Number num} {T : Trig num}.
Open Scope monad_scope.

(** The frames [animate] runs at the clock readings [times], each on the
    state the one before has set. *)
Fixpoint frames (times : list num) (st : ReactState num)
  : M (Store num) (ReactState num) :=
  match times with
  | [] => ret st
  | currentTime :: later =>
      st' <- animate st currentTime ;;
      frames later st'
  end.

(** A click on the checkbox of the PID system: [setPidConfig] with
    [enabled] flipped.  The component renders again and the two effects
    that depend on [pidConfig] run: the gains are pushed into the
    controllers, and the controllers are reset if the system is now off.
    The animation effect does not depend on [pidConfig]: the frame that
    is already requested is the [animate] of the render before, whose
    [updatePhysics] reads the configuration before the click.  The state
    that frame sets renders again, and from then on the frames read the
    new configuration. *)
Definition togglePID (st : ReactState num) (currentTime : num)
  : M (Store num) (ReactState num) :=
  let prev := pidConfig st in
  let pidConfig' :=
    PIDConfig.make (negb (PIDConfig.enabled prev))
                   (PIDConfig.attitude prev) (PIDConfig.position prev) in
  updateGains pidConfig' ;;
  resetControllers pidConfig' ;;
  st' <- animate st currentTime ;;
  ret (mkReactState (physicsState st') (leftThrust st') (rightThrust st')
                    (disturbanceConfig st') pidConfig').

End Frames.
End DroneLoop.

(** ** The accelerations of the cart-pole *)

(** The expressions [ddtheta] and [ddx] of the cart-pole's
    [updatePhysics], read at [R] with the constants of the file
    evaluated (gravity 9.81, total mass 1.1, pole mass times pole length
    0.05, pole length 0.5), as functions of the angle [th], the angular
    velocity [w] and the applied force [F]. *)
Module Accelerations.

Open Scope R_scope.

Definition ddthetaR (th w F : R) : R :=
  (9.81 * sin th * 1.1 - (F + 0.05 * w * w * sin th) * cos th) /
  (0.5 * (1.1 - 0.1 * cos th * cos th)).

Definition ddxR (th w F : R) : R :=
  (F + 0.05 * w * w * sin th + 0.05 * ddthetaR th w F * cos th -
   0.05 * w * w * sin th) / 1.1.

End Accelerations.

(** ** The invariant of the cart-pole component *)

(** What every event preserves, at [R]: the state shown passes the
    failure test, and the manual force is one of the three values the key
    handlers set. *)
Module ComponentInvariant.

Open Scope R_scope.

Definition Inv (c : CartPoleUI.Component R) : Prop :=
  CartPole.failed (CartPole.state (CartPoleUI.simulation c)) = false /\
  (CartPoleUI.force c = -15 \/ CartPoleUI.force c = 0 \/
   CartPoleUI.force c = 15).

End ComponentInvariant.

(** ** A grid of angles *)

(** The integers k from -3141 to 3141: the angles k/1000 of the interval
    from -pi to pi on which the normalization is evaluated in binary64. *)
Module AngleGrid.

Definition grid : list Z :=
  map (fun n => (Z.of_nat n - 3141)%Z) (seq 0 (Z.to_nat 6283)).

End AngleGrid.

(** ** The walls on one axis *)

(** The expressions [boundary] evaluates on one axis with bounds [lo] and
    [hi], read at [R]: the position it sets from the new position [p], and
    the velocity it sets from [p] and the new velocity [v]. *)
Module Wall.

Open Scope R_scope.

Definition finalPosition (p lo hi : R) : R := Rmin (Rmax p lo) hi.

Definition finalVelocity (p v lo hi : R) : R :=
  if RealNumber.eqb (finalPosition p lo hi) lo
     || RealNumber.eqb (finalPosition p lo hi) hi
  then 0 else v.

End Wall.

(** ** A configuration the sliders reach: the attitude Ki at 0 *)

Module KiZero.

Open Scope num_scope.

(** The attitude controller of [DorneSim.tsx] (output bounds -1 and 1,
    proportional gain 8) after [setGains] with the Ki slider at its
    minimum, 0. *)
Definition attitude : PID.PIDController float :=
  PID.setGains (PID.new #8.0 #0.5 #0.0 (- #1) #1) #8.0 #0 #0.0.

(** The clamped proportional term
    [clamp(kp (setpoint - measured), outputMin, outputMax)]. *)
Definition proportional (c : PID.PIDController float)
    (setpoint measured : float) : float :=
  Math_min (Math_max (PID.kp c * (setpoint - measured)) (PID.outputMin c))
           (PID.outputMax c).

(** The store of [DorneSim.tsx] at start, with that attitude
    controller. *)
Definition store : Drone.Store float :=
  Drone.mkStore #0 (Drone.mkWindState #0 #0)
    attitude
    (PID.new #1.0 #0.05 #0.0 ((- Binary64.PI) / #6) (Binary64.PI / #6))
    (PID.new #1.5 #0.05 #0.0 (- #2) #2)
    (fun _ => #0.5) 0.

(** The component's state at start. *)
Definition start : Drone.ReactState float :=
  Drone.mkReactState
    (Types.mkPhysicsState (Types.mkPosition #100 #150)
                          (Types.mkPosition #0 #0) #0 #0)
    #4.9 #4.9
    (DisturbanceConfig.make
       (WindDisturbance.make true #0.0 #0.0 #0.0 #0.0)
       (ThrustNoise.make true #0.00 #10))
    (PIDConfig.make true
       (PIDConfig.mkGains #8.0 #0 #0.0)
       (PIDConfig.mkPositionGains
          (PIDConfig.mkGains #1.0 #0.05 #0.0)
          (PIDConfig.mkGains #1.5 #0.05 #0.0))).

End KiZero.

(** * Properties *)

Unset Implicit Arguments.

(** ** The real-number reading of the operations *)

Module RealFacts.

Open Scope R_scope.

(** Unfolds the operations of [Number] and [Trig] at [R]. *)
Ltac at_R :=
  cbv [lit nadd nsub nmul ndiv nneg Math_min Math_max Math_abs ngt nseq
       RNumber Math_PI Math_sin Math_cos nrem RTrig
       Q2R Qnum Qden] in *.

Lemma gtb_true (a b : R) : RealNumber.gtb a b = true <-> b < a.
Proof.
  unfold RealNumber.gtb. destruct (Rlt_dec b a); split; intros; auto.
  discriminate.
Qed.

Lemma gtb_false (a b : R) : RealNumber.gtb a b = false <-> a <= b.
Proof.
  unfold RealNumber.gtb. destruct (Rlt_dec b a); split; intros; auto;
    try discriminate; lra.
Qed.

Lemma eqb_true (a b : R) : RealNumber.eqb a b = true <-> a = b.
Proof.
  unfold RealNumber.eqb. destruct (Req_dec_T a b); split; intros; auto.
  discriminate.
Qed.

Lemma eqb_false (a b : R) : RealNumber.eqb a b = false <-> a <> b.
Proof.
  unfold RealNumber.eqb. destruct (Req_dec_T a b); split; intros; auto;
    try discriminate; contradiction.
Qed.

(** Clamping, as the code writes it with [Math.min] and [Math.max]. *)
Lemma clamp_range (v lo hi : R) :
  lo <= hi -> lo <= Rmin (Rmax v lo) hi <= hi.
Proof.
  intros H. unfold Rmin, Rmax.
  destruct (Rle_dec v lo); destruct (Rle_dec _ hi); lra.
Qed.

Lemma clamp_above (v lo hi : R) : lo <= hi -> hi < v -> Rmin (Rmax v lo) hi = hi.
Proof.
  intros H1 H2. unfold Rmin, Rmax.
  destruct (Rle_dec v lo); destruct (Rle_dec _ hi); lra.
Qed.

Lemma clamp_below (v lo hi : R) : lo <= hi -> v < lo -> Rmin (Rmax v lo) hi = lo.
Proof.
  intros H1 H2. unfold Rmin, Rmax.
  destruct (Rle_dec v lo); destruct (Rle_dec _ hi); lra.
Qed.

Lemma clamp_inside (v lo hi : R) : lo <= v <= hi -> Rmin (Rmax v lo) hi = v.
Proof.
  intros H. unfold Rmin, Rmax.
  destruct (Rle_dec v lo); destruct (Rle_dec _ hi); lra.
Qed.

(** *** Truncation and remainder *)

Lemma Int_part_bounds (a : R) : IZR (Int_part a) <= a < IZR (Int_part a) + 1.
Proof. destruct (base_Int_part a). lra. Qed.

Lemma Int_part_unit (a : R) : 0 <= a < 1 -> Int_part a = 0%Z.
Proof. intros H. symmetry. apply Int_part_spec. simpl. lra. Qed.

Lemma Int_part_one (a : R) : 1 <= a < 2 -> Int_part a = 1%Z.
Proof. intros H. symmetry. apply Int_part_spec. simpl. lra. Qed.

Lemma trunc_small (a : R) : -1 < a < 1 -> RealNumber.trunc a = 0%Z.
Proof.
  intros H. unfold RealNumber.trunc. destruct (Rle_dec 0 a).
  - apply Int_part_unit. lra.
  - rewrite Int_part_unit; [reflexivity | lra].
Qed.

Lemma div_bounds (a b lo hi : R) :
  0 < b -> lo * b <= a < hi * b -> lo <= a / b < hi.
Proof.
  intros Hb [H1 H2]. split.
  - apply Rmult_le_reg_r with b; [assumption |].
    unfold Rdiv. rewrite Rmult_assoc, Rinv_l; lra.
  - apply Rmult_lt_reg_r with b; [assumption |].
    unfold Rdiv. rewrite Rmult_assoc, Rinv_l; lra.
Qed.

Lemma div_open_bounds (a b lo hi : R) :
  0 < b -> lo * b < a < hi * b -> lo < a / b < hi.
Proof.
  intros Hb [H1 H2]. split; apply Rmult_lt_reg_r with b; try assumption;
    unfold Rdiv; rewrite Rmult_assoc, Rinv_l; lra.
Qed.

Lemma mul_div (a b : R) : 0 < b -> b * (a / b) = a.
Proof. intros. field. lra. Qed.

(** The remainder differs from the dividend by a multiple of the
    divisor. *)
Lemma rem_multiple (a b : R) : exists k : Z, RealNumber.rem a b = a - b * IZR k.
Proof. exists (RealNumber.trunc (a / b)). reflexivity. Qed.

Lemma rem_nonneg (a b : R) : 0 < b -> 0 <= a -> 0 <= RealNumber.rem a b < b.
Proof.
  intros Hb Ha. unfold RealNumber.rem, RealNumber.trunc.
  assert (Hq : 0 <= a / b).
  { apply (div_bounds a b 0 (a / b + 1) Hb). rewrite Rmult_plus_distr_r.
    replace (a / b * b) with a by (field; lra). lra. }
  destruct (Rle_dec 0 (a / b)); [| contradiction].
  pose proof (Int_part_bounds (a / b)) as [H1 H2].
  pose proof (mul_div a b Hb) as Hm.
  split; nra.
Qed.

Lemma rem_nonpos (a b : R) : 0 < b -> a <= 0 -> - b < RealNumber.rem a b <= 0.
Proof.
  intros Hb Ha. unfold RealNumber.rem, RealNumber.trunc.
  pose proof (mul_div a b Hb) as Hm.
  destruct (Rle_dec 0 (a / b)) as [Hq | Hq].
  - assert (a / b = 0) by nra.
    rewrite (Int_part_unit (a / b)) by lra.
    assert (a = 0) by nra. simpl. lra.
  - pose proof (Int_part_bounds (- (a / b))) as [H1 H2].
    rewrite opp_IZR. split; nra.
Qed.

Lemma rem_small (a b : R) : 0 < b -> - b < a < b -> RealNumber.rem a b = a.
Proof.
  intros Hb Ha. unfold RealNumber.rem.
  rewrite trunc_small; [simpl; lra |].
  apply div_open_bounds; lra.
Qed.

Lemma rem_shift (a b : R) : 0 < b -> 0 <= a < b -> RealNumber.rem (a + b) b = a.
Proof.
  intros Hb Ha. unfold RealNumber.rem, RealNumber.trunc.
  assert (Hq : 1 <= (a + b) / b < 2) by (apply div_bounds; lra).
  destruct (Rle_dec 0 ((a + b) / b)); [| lra].
  rewrite Int_part_one by assumption. simpl. lra.
Qed.

End RealFacts.

(** ** The cart-pole *)

Module CartPoleFacts.
Import CartPole RealFacts.

Open Scope R_scope.

Lemma two_PI_pos : 0 < 2 * PI.
Proof. pose proof PI_RGT_0. lra. Qed.

(** [normalizeAngle] at [R], with its constants evaluated. *)
Lemma normalizeAngle_R (a : R) :
  normalizeAngle a =
  let n := RealNumber.rem (RealNumber.rem a (2 * PI) + 2 * PI) (2 * PI) in
  if RealNumber.gtb n PI then n - 2 * PI else n.
Proof.
  unfold normalizeAngle. at_R. simpl.
  replace (2 * / 1 * PI) with (2 * PI) by lra. reflexivity.
Qed.

(** Before the final test the angle lies in [0, 2 pi). *)
Lemma normalized_range (a : R) :
  0 <= RealNumber.rem (RealNumber.rem a (2 * PI) + 2 * PI) (2 * PI) < 2 * PI.
Proof.
  pose proof two_PI_pos as Hp.
  apply rem_nonneg; [assumption |].
  destruct (Rle_dec 0 a) as [Ha | Ha].
  - pose proof (rem_nonneg a (2 * PI) Hp Ha). lra.
  - assert (Ha' : a <= 0) by lra.
    pose proof (rem_nonpos a (2 * PI) Hp Ha'). lra.
Qed.

Lemma normalizeAngle_range (a : R) : - PI < normalizeAngle a <= PI.
Proof.
  rewrite normalizeAngle_R. cbv zeta.
  pose proof (normalized_range a) as Hn.
  pose proof PI_RGT_0 as Hp.
  destruct (RealNumber.gtb _ PI) eqn:E.
  - apply gtb_true in E. lra.
  - apply gtb_false in E. lra.
Qed.

Lemma normalizeAngle_fixed (a : R) : - PI < a <= PI -> normalizeAngle a = a.
Proof.
  intros Ha. rewrite normalizeAngle_R. cbv zeta.
  pose proof PI_RGT_0 as Hp. pose proof two_PI_pos as Hp2.
  rewrite (rem_small a (2 * PI)) by lra.
  destruct (Rle_dec 0 a) as [H0 | H0].
  - rewrite rem_shift by lra.
    destruct (RealNumber.gtb a PI) eqn:E; [apply gtb_true in E; lra | reflexivity].
  - rewrite rem_small by lra.
    destruct (RealNumber.gtb (a + 2 * PI) PI) eqn:E.
    + lra.
    + apply gtb_false in E. lra.
Qed.

Lemma normalizeAngle_congruent (a : R) :
  exists k : Z, normalizeAngle a = a + 2 * PI * IZR k.
Proof.
  rewrite normalizeAngle_R. cbv zeta.
  destruct (rem_multiple a (2 * PI)) as [k1 H1].
  destruct (rem_multiple (RealNumber.rem a (2 * PI) + 2 * PI) (2 * PI))
    as [k2 H2].
  rewrite H2, H1.
  destruct (RealNumber.gtb _ PI).
  - exists (- k1 - k2)%Z. rewrite !minus_IZR, opp_IZR. lra.
  - exists (1 - k1 - k2)%Z. rewrite !minus_IZR. lra.
Qed.

Lemma cos_sqr_le_1 (a : R) : cos a * cos a <= 1.
Proof. pose proof (COS_bound a). nra. Qed.

End CartPoleFacts.

(** ** The normalization of the angle in binary64 *)

Module AngleRounding.

Open Scope float_scope.

Lemma grid_complete (k : Z) :
  (-3141 <= k <= 3141)%Z -> In k AngleGrid.grid.
Proof.
  intros Hk. unfold AngleGrid.grid. apply in_map_iff.
  exists (Z.to_nat (k + 3141)). split; [cbv beta; lia |].
  apply in_seq. lia.
Qed.

(** What the normalization is checked for at the angle [a]: the result
    [b] is above -pi and at most pi, it is within 2^-50 of [a], and it is
    normalized to itself. *)
Lemma grid_checked (sin cos : float -> float) :
  forallb
    (fun k =>
       let normalizeAngle := CartPole.normalizeAngle (T := FTrig sin cos) in
       let a := Binary64.of_Z k / 1000 in
       let b := normalizeAngle a in
       (- Binary64.PI <? b) && (b <=? Binary64.PI) &&
       (abs (b - a) <=? 0x1p-50) && Leibniz.eqb (normalizeAngle b) b)
    AngleGrid.grid = true.
Proof. vm_compute. reflexivity. Qed.

End AngleRounding.




(** C2. For every state and applied force, one call of [updatePhysics]
    computes the angular acceleration of the pole as
    [g sin(th) (M+m) - (F + m l w^2 sin(th)) cos(th)] / [l (M+m - m cos(th)^2)]
    and the acceleration of the cart with the pole-force term both added
    and subtracted; it advances position and angle by the velocities
    before the update times dt, the velocities by these accelerations
    times dt, wraps the new angle into (-pi, pi] (changing it by a
    multiple of 2 pi) and adds exactly 1 to the score. *)
Theorem C2_cartpole_updatePhysics :
  forall (s : CartPole.CartPoleState R) (F : R),
    let g := 9.81%R in
    let M := 1%R in
    let m := 0.1%R in
    let l := 0.5%R in
    let dt := 0.02%R in
    let th := CartPole.theta s in
    let w := CartPole.dtheta s in
    let poleForce := (m * l * w * w * sin th)%R in
    let ddtheta :=
      ((g * sin th * (M + m) - (F + poleForce) * cos th) /
       (l * (M + m - m * (cos th * cos th))))%R in
    let ddx :=
      ((F + poleForce + m * l * ddtheta * cos th - m * l * w * w * sin th) /
       (M + m))%R in
    let s' := CartPole.updatePhysics s F in
    CartPole.x s' = (CartPole.x s + CartPole.dx s * dt)%R /\
    CartPole.theta s' = CartPole.normalizeAngle (th + w * dt)%R /\
    (- PI < CartPole.theta s' <= PI)%R /\
    (exists k : Z, CartPole.theta s' = (th + w * dt + 2 * PI * IZR k)%R) /\
    CartPole.dx s' = (CartPole.dx s + ddx * dt)%R /\
    CartPole.dtheta s' = (w + ddtheta * dt)%R /\
    CartPole.score s' = (CartPole.score s + 1)%R.
Proof.
  intros s F g M m l dt th w poleForce ddtheta ddx s'.
  subst s'. unfold CartPole.updatePhysics.
  cbn [CartPole.x CartPole.theta CartPole.dx CartPole.dtheta CartPole.score].
  assert (Hdt : CartPole.dt = dt).
  { unfold CartPole.dt, dt. RealFacts.at_R. lra. }
  rewrite !Hdt.
  refine (conj _ (conj _ (conj _ (conj _ (conj _ (conj _ _)))))).
  - reflexivity.
  - reflexivity.
  - apply CartPoleFacts.normalizeAngle_range.
  - apply CartPoleFacts.normalizeAngle_congruent.
  - pose proof (CartPoleFacts.cos_sqr_le_1 (CartPole.theta s)) as Hc.
    unfold CartPole.gravity, CartPole.totalMass, CartPole.poleMass,
      CartPole.cartMass, CartPole.poleLength.
    subst g M m l dt ddx ddtheta poleForce th w. RealFacts.at_R.
    set (c := cos (CartPole.theta s)) in *.
    field. lra.
  - pose proof (CartPoleFacts.cos_sqr_le_1 (CartPole.theta s)) as Hc.
    unfold CartPole.gravity, CartPole.totalMass, CartPole.poleMass,
      CartPole.cartMass, CartPole.poleLength.
    subst g M m l dt ddx ddtheta poleForce th w. RealFacts.at_R.
    set (c := cos (CartPole.theta s)) in *.
    field. lra.
  - RealFacts.at_R. lra.
Qed.

Module CartPoleLoop.
Import CartPole RealFacts.

Open Scope R_scope.

Lemma failed_true (s : CartPoleState R) :
  failed s = true <-> Rabs (x s) > 2.4 \/ Rabs (theta s) > PI / 2.
Proof.
  unfold failed. rewrite orb_true_iff. at_R.
  rewrite !gtb_true. split; (intros [H | H]; [left | right]; lra).
Qed.

Lemma failed_false (s : CartPoleState R) :
  failed s = false <-> ~ (Rabs (x s) > 2.4 \/ Rabs (theta s) > PI / 2).
Proof.
  rewrite <- failed_true. destruct (failed s); split; intros H;
    try reflexivity; try discriminate; try (intros H'; discriminate).
  exfalso. apply H. reflexivity.
Qed.

Lemma tick_failed (force : R) (isAutoPilot : bool) (r : Run R) :
  failed (updatePhysics (state r) (fst (currentForce force isAutoPilot r)))
    = true ->
  state (tick force isAutoPilot r) = state r /\
  isRunning (tick force isAutoPilot r) = false.
Proof.
  unfold tick. destruct (currentForce force isAutoPilot r) as [f c].
  cbn [fst]. intros ->. split; reflexivity.
Qed.

Lemma tick_continues (force : R) (isAutoPilot : bool) (r : Run R) :
  failed (updatePhysics (state r) (fst (currentForce force isAutoPilot r)))
    = false ->
  state (tick force isAutoPilot r) =
    updatePhysics (state r) (fst (currentForce force isAutoPilot r)) /\
  isRunning (tick force isAutoPilot r) = isRunning r.
Proof.
  unfold tick. destruct (currentForce force isAutoPilot r) as [f c].
  cbn [fst]. intros ->. split; reflexivity.
Qed.

(** A halted run does not move. *)
Lemma run_halted (n : nat) (force : R) (isAutoPilot : bool) (r : Run R) :
  isRunning r = false -> run n force isAutoPilot r = r.
Proof.
  intros H. induction n as [| n IH]; [reflexivity |].
  cbn [run]. unfold interval. rewrite H. exact IH.
Qed.

End CartPoleLoop.

(** C4. For every firing of the cart-pole interval: if the newly computed
    state has |x| > 2.4 or |theta| > pi/2, the run halts and the state
    that is kept is the previous one (so the new state, with its
    incremented score, is dropped, and the state stays the same through
    every later firing); otherwise the new state is kept and the run
    goes on as it was. *)
Theorem C4_failure_keeps_previous_state :
  forall (force : R) (isAutoPilot : bool) (r : CartPole.Run R),
    let newState :=
      CartPole.updatePhysics (CartPole.state r)
        (fst (CartPole.currentForce force isAutoPilot r)) in
    let r' := CartPole.tick force isAutoPilot r in
    (((Rabs (CartPole.x newState) > 2.4)%R \/
      (Rabs (CartPole.theta newState) > PI / 2)%R) ->
     CartPole.state r' = CartPole.state r /\
     CartPole.isRunning r' = false /\
     forall n : nat,
       CartPole.state (CartPole.run n force isAutoPilot r') = CartPole.state r) /\
    (~ ((Rabs (CartPole.x newState) > 2.4)%R \/
        (Rabs (CartPole.theta newState) > PI / 2)%R) ->
     CartPole.state r' = newState /\
     CartPole.isRunning r' = CartPole.isRunning r).
Proof.
  intros force isAutoPilot r newState r'. split.
  - intros H. apply CartPoleLoop.failed_true in H.
    destruct (CartPoleLoop.tick_failed force isAutoPilot r H) as [Hs Hr].
    fold r' in Hs, Hr. split; [exact Hs | split; [exact Hr |]].
    intros n. rewrite CartPoleLoop.run_halted by exact Hr. exact Hs.
  - intros H. apply CartPoleLoop.failed_false in H.
    exact (CartPoleLoop.tick_continues force isAutoPilot r H).
Qed.

(** Two firings without the autopilot and with no force: from x = 2.4
    moving right at 1 the new position 2.42 is out of bounds, and the
    state is kept; from the initial state the new state is taken. *)
Lemma C4_failure_witness :
  (let r := CartPole.mkRun (CartPole.mkState 2.4 0 1 0 7)%R
                           CartPole.initialController true in
   CartPole.state (CartPole.tick 0%R false r) = CartPole.state r /\
   CartPole.isRunning (CartPole.tick 0%R false r) = false) /\
  (let r := CartPole.mkRun CartPole.initialState
                           CartPole.initialController true in
   CartPole.score (CartPole.state (CartPole.tick 0%R false r)) = (0 + 1)%R /\
   CartPole.isRunning (CartPole.tick 0%R false r) = true).
Proof.
  split.
  - intros r.
    assert (H : (Rabs (CartPole.x (CartPole.updatePhysics (CartPole.state r)
                   (fst (CartPole.currentForce 0%R false r)))) > 2.4)%R).
    { cbn. unfold CartPole.dt. RealFacts.at_R.
      rewrite Rabs_pos_eq; lra. }
    destruct (proj1 (C4_failure_keeps_previous_state 0%R false r) (or_introl H))
      as [Hs [Hr _]].
    split; assumption.
  - intros r.
    assert (H : ~ ((Rabs (CartPole.x (CartPole.updatePhysics (CartPole.state r)
                      (fst (CartPole.currentForce 0%R false r)))) > 2.4)%R \/
                   (Rabs (CartPole.theta (CartPole.updatePhysics (CartPole.state r)
                      (fst (CartPole.currentForce 0%R false r)))) > PI / 2)%R)).
    { cbn. unfold CartPole.dt. RealFacts.at_R.
      replace (1 * / 10 + 0 * / 1 * (2 * / 100))%R with 0.1%R by lra.
      replace (0 * / 1 + 0 * / 1 * (2 * / 100))%R with 0%R by lra.
      pose proof PI2_1.
      rewrite Rabs_R0.
      intros [H1 | H1]; [lra |].
      revert H1.
      change (~ (Rabs (CartPole.normalizeAngle 0.1%R) > PI / 2)%R).
      rewrite CartPoleFacts.normalizeAngle_fixed by lra.
      rewrite Rabs_pos_eq; lra. }
    destruct (proj2 (C4_failure_keeps_previous_state 0%R false r) H)
      as [Hs Hr].
    rewrite Hs, Hr. split; [| reflexivity].
    cbn. RealFacts.at_R. lra.
Defined.

Module CartPolePID.
Import CartPole RealFacts.

Open Scope R_scope.

Lemma dt_R : (dt : R) = 0.02.
Proof. unfold dt. at_R. lra. Qed.

Lemma maxForce_R : (maxForce : R) = 15.
Proof. unfold maxForce. at_R. lra. Qed.

(** One call leaves target and gains alone and adds [error * dt] to the
    integral. *)
Lemma calculatePIDControl_controller (s : CartPoleState R) (c : PIDController R) :
  snd (calculatePIDControl s c) =
  mkController (target c) (kp c) (ki c) (kd c)
               (integral c + (theta s - target c) * 0.02)
               (theta s - target c).
Proof.
  unfold calculatePIDControl. cbn [snd]. rewrite dt_R. reflexivity.
Qed.

Lemma holdPID_target (n : nat) (s : CartPoleState R) (c : PIDController R) :
  target (holdPID n s c) = target c.
Proof.
  revert c. induction n as [| n IH]; intros c; [reflexivity |].
  cbn [holdPID]. rewrite IH, calculatePIDControl_controller. reflexivity.
Qed.

(** Under a constant error the integral grows linearly. *)
Lemma holdPID_integral (n : nat) (s : CartPoleState R) (c : PIDController R) :
  integral (holdPID n s c) =
  integral c + INR n * ((theta s - target c) * 0.02).
Proof.
  revert c. induction n as [| n IH]; intros c.
  - cbn [holdPID INR]. lra.
  - cbn [holdPID]. rewrite IH, calculatePIDControl_controller.
    cbn [integral target]. rewrite S_INR. lra.
Qed.

(** A linear sequence with a nonzero step leaves every bound. *)
Lemma linear_unbounded (i d B : R) :
  d <> 0 -> exists n : nat, Rabs (i + INR n * d) > B.
Proof.
  intros Hd.
  assert (Hpos : 0 < Rabs d) by (apply Rabs_pos_lt; exact Hd).
  destruct (INR_unbounded ((Rabs B + Rabs i) / Rabs d)) as [n Hn].
  exists n.
  assert (Hnd : Rabs B + Rabs i < INR n * Rabs d).
  { apply Rmult_lt_compat_r with (r := Rabs d) in Hn; [| exact Hpos].
    unfold Rdiv in Hn. rewrite Rmult_assoc, Rinv_l in Hn; lra. }
  assert (Hn0 : 0 <= INR n) by apply pos_INR.
  pose proof (Rabs_triang_inv (INR n * d) (- i)) as Ht.
  replace (INR n * d - - i) with (i + INR n * d) in Ht by lra.
  rewrite Rabs_Ropp, Rabs_mult, (Rabs_pos_eq (INR n)) in Ht by exact Hn0.
  pose proof (Rle_abs B). lra.
Qed.

Lemma output_bounded (v : R) : -15 <= Rmax (- 15) (Rmin 15 v) <= 15.
Proof.
  unfold Rmax, Rmin. destruct (Rle_dec 15 v); destruct (Rle_dec (-15) _); lra.
Qed.

End CartPolePID.

(** C10. The autopilot controller of the cart-pole takes
    error = measured angle - target, the opposite sign of the
    [setpoint - measured] of [PIDController.update]; it adds error * dt to
    its integral with no clamping, so that under a constant nonzero error
    the stored integral grows linearly and exceeds every bound; only the
    returned output is bounded, clamped into [-15, 15]. *)
Theorem C10_cartpole_pid_integral_unclamped :
  forall (s : CartPole.CartPoleState R) (c : CartPole.PIDController R),
    let error := (CartPole.theta s - CartPole.target c)%R in
    let r := CartPole.calculatePIDControl s c in
    CartPole.lastError (snd r) = error /\
    (forall (p : PID.PIDController R) (dt : R),
       PID.prevError
         (snd (PID.update p (CartPole.target c) (CartPole.theta s) dt)) =
       (- error)%R) /\
    CartPole.integral (snd r) = (CartPole.integral c + error * 0.02)%R /\
    (forall n : nat,
       CartPole.integral (CartPole.holdPID n s c) =
       (CartPole.integral c + INR n * (error * 0.02))%R) /\
    (error <> 0%R ->
     forall B : R, exists n : nat,
       (Rabs (CartPole.integral (CartPole.holdPID n s c)) > B)%R) /\
    fst r =
      Rmax (- 15)
        (Rmin 15
           (CartPole.kp c * error +
            CartPole.ki c * (CartPole.integral c + error * 0.02) +
            CartPole.kd c * ((error - CartPole.lastError c) / 0.02)))%R /\
    (- 15 <= fst r <= 15)%R.
Proof.
  intros s c error r.
  assert (Hr : fst r =
      Rmax (- 15)
        (Rmin 15
           (CartPole.kp c * error +
            CartPole.ki c * (CartPole.integral c + error * 0.02) +
            CartPole.kd c * ((error - CartPole.lastError c) / 0.02)))%R).
  { subst r. unfold CartPole.calculatePIDControl. cbn [fst].
    rewrite CartPolePID.dt_R, CartPolePID.maxForce_R. reflexivity. }
  refine (conj _ (conj _ (conj _ (conj _ (conj _ (conj Hr _)))))).
  - subst r. rewrite CartPolePID.calculatePIDControl_controller. reflexivity.
  - intros p dt. unfold PID.update. cbn [snd PID.prevError].
    RealFacts.at_R. subst error. lra.
  - subst r. rewrite CartPolePID.calculatePIDControl_controller. reflexivity.
  - intros n. apply CartPolePID.holdPID_integral.
  - intros He B.
    destruct (CartPolePID.linear_unbounded (CartPole.integral c)
                (error * 0.02) B) as [n Hn]; [lra |].
    exists n. rewrite CartPolePID.holdPID_integral. exact Hn.
  - rewrite Hr. apply CartPolePID.output_bounded.
Qed.

(** With the pole held at its initial tilt of 0.1 rad against the target
    0, the integral of the initial controller exceeds every bound. *)
Lemma C10_integral_unbounded_witness :
  (0.1 - 0 <> 0)%R /\
  forall B : R, exists n : nat,
    (Rabs (CartPole.integral
             (CartPole.holdPID n CartPole.initialState
                               CartPole.initialController)) > B)%R.
Proof.
  assert (H : (0.1 - 0 <> 0)%R) by lra.
  split; [exact H |].
  refine (proj1 (proj2 (proj2 (proj2 (proj2
    (C10_cartpole_pid_integral_unclamped CartPole.initialState
       CartPole.initialController))))) _).
  cbn. RealFacts.at_R. lra.
Defined.

(** ** The PID controller class *)

(** C8. [reset()] sets the integral and the last error to zero and leaves
    the gains and the output bounds as they are; [setGains] replaces the
    three gains and leaves integral, last error and bounds as they are;
    hence after [reset()] a call of [update] returns what the same call
    returns on a controller newly constructed with the same gains and
    bounds (for any arithmetic of the numbers). *)
Theorem C8_reset_and_setGains_frame :
  forall (num : Type) (N : Number num) (c : PID.PIDController num)
         (kp' ki' kd' setpoint measured dt : num),
    (PID.integral (PID.reset c) = lit 0 /\
     PID.prevError (PID.reset c) = lit 0 /\
     PID.lastTime (PID.reset c) = None /\
     PID.kp (PID.reset c) = PID.kp c /\
     PID.ki (PID.reset c) = PID.ki c /\
     PID.kd (PID.reset c) = PID.kd c /\
     PID.outputMin (PID.reset c) = PID.outputMin c /\
     PID.outputMax (PID.reset c) = PID.outputMax c) /\
    (PID.kp (PID.setGains c kp' ki' kd') = kp' /\
     PID.ki (PID.setGains c kp' ki' kd') = ki' /\
     PID.kd (PID.setGains c kp' ki' kd') = kd' /\
     PID.integral (PID.setGains c kp' ki' kd') = PID.integral c /\
     PID.prevError (PID.setGains c kp' ki' kd') = PID.prevError c /\
     PID.lastTime (PID.setGains c kp' ki' kd') = PID.lastTime c /\
     PID.outputMin (PID.setGains c kp' ki' kd') = PID.outputMin c /\
     PID.outputMax (PID.setGains c kp' ki' kd') = PID.outputMax c) /\
    PID.update (PID.reset c) setpoint measured dt =
    PID.update
      (PID.new (PID.kp c) (PID.ki c) (PID.kd c)
               (PID.outputMin c) (PID.outputMax c))
      setpoint measured dt.
Proof.
  intros num N c kp' ki' kd' setpoint measured dt.
  split; [| split].
  - unfold PID.reset. cbn. repeat split.
  - unfold PID.setGains. cbn. repeat split.
  - reflexivity.
Qed.

(** ** The drone *)

Module DroneFacts.
Import Types StateMonad Drone RealFacts.

Open Scope R_scope.

(** Runs the state monad in a goal. *)
Ltac run_monad :=
  cbv [bind ret get modify Math_random setWindState setLastTime
       setAttitudePID setHorizontalPositionPID setVerticalPositionPID
       attitudePID_update horizontalPositionPID_update
       verticalPositionPID_update].

(** What [calculateDisturbances] returns and stores, by cases on the two
    switches. *)
Lemma calculateDisturbances_wind_on (cfg : DisturbanceConfig.t R)
    (deltaTime : R) (s : Store R) :
  WindDisturbance.enabled (DisturbanceConfig.wind cfg) = true ->
  let wind := DisturbanceConfig.wind cfg in
  let r := calculateDisturbances cfg deltaTime s in
  let clock := time (windStateRef s) + deltaTime in
  time (windStateRef (snd r)) = clock /\
  windForce (fst r) =
    WindDisturbance.baseSpeed wind +
    WindDisturbance.gustMagnitude wind *
      sin (2 * PI * WindDisturbance.gustFrequency wind * clock) +
    (random s (drawn s) - 0.5) * 2 * WindDisturbance.turbulenceIntensity wind.
Proof.
  intros Hw. unfold calculateDisturbances. rewrite Hw. run_monad.
  destruct (ThrustNoise.enabled (DisturbanceConfig.thrust cfg)); cbn;
    at_R; (split; [reflexivity |]);
    replace (2 * / 1 * PI) with (2 * PI) by lra; lra.
Qed.

Lemma calculateDisturbances_wind_off (cfg : DisturbanceConfig.t R)
    (deltaTime : R) (s : Store R) :
  WindDisturbance.enabled (DisturbanceConfig.wind cfg) = false ->
  let r := calculateDisturbances cfg deltaTime s in
  windStateRef (snd r) = windStateRef s /\ windForce (fst r) = 0.
Proof.
  intros Hw. unfold calculateDisturbances. rewrite Hw. run_monad.
  destruct (ThrustNoise.enabled (DisturbanceConfig.thrust cfg)); cbn;
    at_R; (split; [reflexivity | lra]).
Qed.

Lemma calculateDisturbances_noise_off (cfg : DisturbanceConfig.t R)
    (deltaTime : R) (s : Store R) :
  ThrustNoise.enabled (DisturbanceConfig.thrust cfg) = false ->
  let r := calculateDisturbances cfg deltaTime s in
  left (thrustNoise (fst r)) = 1 /\ right (thrustNoise (fst r)) = 1.
Proof.
  intros Ht. unfold calculateDisturbances. rewrite Ht. run_monad.
  destruct (WindDisturbance.enabled (DisturbanceConfig.wind cfg)); cbn;
    at_R; (split; lra).
Qed.

Lemma calculateDisturbances_noise_on (cfg : DisturbanceConfig.t R)
    (deltaTime : R) (s : Store R) :
  ThrustNoise.enabled (DisturbanceConfig.thrust cfg) = true ->
  let thrust := DisturbanceConfig.thrust cfg in
  let r := calculateDisturbances cfg deltaTime s in
  let k := if WindDisturbance.enabled (DisturbanceConfig.wind cfg)
           then S (drawn s) else drawn s in
  left (thrustNoise (fst r)) =
    1 + (random s k - 0.5) * 2 * ThrustNoise.magnitude thrust /\
  right (thrustNoise (fst r)) =
    1 + (random s (S k) - 0.5) * 2 * ThrustNoise.magnitude thrust.
Proof.
  intros Ht. unfold calculateDisturbances. rewrite Ht. run_monad.
  destruct (WindDisturbance.enabled (DisturbanceConfig.wind cfg)); cbn;
    at_R; (split; lra).
Qed.

End DroneFacts.

Module WallFacts.
Import Types RealFacts.

Open Scope R_scope.

(** What the walls do on one axis: [final] is the position and [v'] the
    velocity that the code derives from the new position [p] and the
    new velocity [v]. *)
Lemma axis (p v lo hi : R) :
  lo <= hi ->
  let final := Rmin (Rmax p lo) hi in
  let v' := if RealNumber.eqb final lo || RealNumber.eqb final hi
            then 0 else v in
  lo <= final <= hi /\
  (p > hi -> final = hi /\ v' = 0) /\
  (p < lo -> final = lo /\ v' = 0) /\
  (lo < p < hi -> final = p /\ v' = v).
Proof.
  intros Hle final v'. split; [apply clamp_range; exact Hle |].
  split; [| split].
  - intros Hp. assert (Hf : final = hi) by (apply clamp_above; lra).
    split; [exact Hf |]. subst v'. rewrite Hf.
    rewrite (proj2 (eqb_true hi hi) eq_refl), orb_true_r. reflexivity.
  - intros Hp. assert (Hf : final = lo) by (apply clamp_below; lra).
    split; [exact Hf |]. subst v'. rewrite Hf.
    rewrite (proj2 (eqb_true lo lo) eq_refl). reflexivity.
  - intros Hp. assert (Hf : final = p) by (apply clamp_inside; lra).
    split; [exact Hf |]. subst v'. rewrite Hf.
    rewrite (proj2 (eqb_false p lo)) by lra.
    rewrite (proj2 (eqb_false p hi)) by lra. reflexivity.
Qed.

Lemma lit_10 : Q2R 10 = 10.
Proof. unfold Q2R. simpl. lra. Qed.

Lemma lit_290 : Q2R 290 = 290.
Proof. unfold Q2R. simpl. lra. Qed.

Lemma lit_590 : Q2R 590 = 590.
Proof. unfold Q2R. simpl. lra. Qed.

Lemma lit_0 : Q2R 0 = 0.
Proof. unfold Q2R. simpl. lra. Qed.

End WallFacts.

Module DroneWalls.
Import Types StateMonad RealFacts WallFacts Wall.

Open Scope R_scope.

Ltac ops_at_R :=
  cbv [lit nadd nsub nmul ndiv nneg Math_min Math_max Math_abs ngt nseq
       RNumber Math_PI Math_sin Math_cos nrem RTrig] in *.

Lemma boundary_R (m : Drone.Motion R) :
  Drone.boundary m =
  mkPhysicsState
    (mkPosition (finalPosition (Drone.newPositionX m) 10 590)
                (finalPosition (Drone.newPositionY m) 10 290))
    (mkPosition
       (finalVelocity (Drone.newPositionX m) (Drone.newVelocityX m) 10 590)
       (finalVelocity (Drone.newPositionY m) (Drone.newVelocityY m) 10 290))
    (Drone.newRotation m) (Drone.newAngularVelocity m).
Proof.
  unfold Drone.boundary, finalVelocity, finalPosition. ops_at_R.
  rewrite lit_10, lit_290, lit_590, lit_0. reflexivity.
Qed.

Lemma simu_boundary_R (m : DroneSimu.Motion R) :
  DroneSimu.boundary m =
  mkPhysicsState
    (mkPosition (finalPosition (DroneSimu.newPositionX m) 10 590)
                (finalPosition (DroneSimu.newPositionY m) 10 290))
    (mkPosition
       (finalVelocity (DroneSimu.newPositionX m) (DroneSimu.newVelocityX m)
                      10 590)
       (finalVelocity (DroneSimu.newPositionY m) (DroneSimu.newVelocityY m)
                      10 290))
    (DroneSimu.newRotation m) (DroneSimu.newAngularVelocity m).
Proof.
  unfold DroneSimu.boundary, finalVelocity, finalPosition. ops_at_R.
  rewrite lit_10, lit_290, lit_590, lit_0. reflexivity.
Qed.

(** The state a frame sets is the walls applied to its motion. *)
Lemma updatePhysics_boundary (st : Drone.ReactState R) (deltaTime : R)
    (s : Drone.Store R) :
  fst (Drone.updatePhysics st deltaTime s) =
  Drone.boundary (fst (Drone.motion st deltaTime s)).
Proof.
  unfold Drone.updatePhysics, bind, ret.
  destruct (Drone.motion st deltaTime s) as [m s']. reflexivity.
Qed.

End DroneWalls.

Module DroneMotion.
Import Types StateMonad RealFacts.

Open Scope R_scope.

(** The thrusts and the disturbances of a frame, in the order the frame
    computes them: the controllers run first, on the step
    [deltaTime / 100]; the disturbances are then drawn for [deltaTime]. *)
Lemma motion_integrate (st : Drone.ReactState R) (deltaTime : R)
    (s : Drone.Store R) :
  let dt := deltaTime / 100 in
  let c := Drone.commandThrust st dt s in
  let d := Drone.calculateDisturbances (Drone.disturbanceConfig st)
             deltaTime (snd c) in
  fst (Drone.motion st deltaTime s) =
  Drone.integrate Drone.DEFAULT_PHYSICS_PARAMS (Drone.physicsState st)
    (fst (fst c)) (snd (fst c)) (fst d) dt.
Proof.
  cbv zeta. unfold Drone.motion, bind, ret.
  replace (@ndiv R RNumber deltaTime (@lit R RNumber 100))
    with (deltaTime / 100) by (at_R; lra).
  destruct (Drone.commandThrust st (deltaTime / 100) s) as [thrusts s1].
  cbn [fst snd].
  destruct (Drone.calculateDisturbances (Drone.disturbanceConfig st)
              deltaTime s1) as [d s2].
  reflexivity.
Qed.

(** The velocities and the rotation that [integrate] returns. *)
Lemma integrate_velocity (params : PhysicsParams R) (ps : PhysicsState R)
    (l r : R) (d : Drone.Disturbances R) (dt : R) :
  let total :=
    l * LEFT_THRUST_EFFICIENCY params * Drone.left (Drone.thrustNoise d) +
    r * RIGHT_THRUST_EFFICIENCY params * Drone.right (Drone.thrustNoise d) in
  let m := Drone.integrate params ps l r d dt in
  Drone.newVelocityY m =
    y (velocity ps) +
    (total * cos (rotation ps) - MASS params * GRAVITY params -
     DRAG_COEFFICIENT params * y (velocity ps) * Rabs (y (velocity ps)))
    / MASS params * dt /\
  Drone.newVelocityX m =
    x (velocity ps) +
    (total * sin (rotation ps) + Drone.windForce d -
     DRAG_COEFFICIENT params * x (velocity ps) * Rabs (x (velocity ps)))
    / MASS params * dt /\
  Drone.newRotation m = rotation ps + Drone.newAngularVelocity m * dt /\
  Drone.newPositionY m = y (position ps) - Drone.newVelocityY m * dt /\
  Drone.newPositionX m = x (position ps) + Drone.newVelocityX m * dt.
Proof.
  cbv zeta. unfold Drone.integrate.
  cbn [Drone.newVelocityY Drone.newVelocityX Drone.newRotation
       Drone.newAngularVelocity Drone.newPositionX Drone.newPositionY].
  repeat split.
Qed.

Lemma default_params_R :
  MASS (Drone.DEFAULT_PHYSICS_PARAMS (num := R)) = 1 /\
  GRAVITY (Drone.DEFAULT_PHYSICS_PARAMS (num := R)) = 9.8 /\
  DRAG_COEFFICIENT (Drone.DEFAULT_PHYSICS_PARAMS (num := R)) = 0.1 /\
  LEFT_THRUST_EFFICIENCY (Drone.DEFAULT_PHYSICS_PARAMS (num := R)) = 1 /\
  RIGHT_THRUST_EFFICIENCY (Drone.DEFAULT_PHYSICS_PARAMS (num := R)) = 1.
Proof.
  unfold Drone.DEFAULT_PHYSICS_PARAMS. cbn. at_R. repeat split; lra.
Qed.

Lemma simu_params_R :
  DroneSimu.MASS (DroneSimu.PHYSICS_PARAMS (num := R)) = 1 /\
  DroneSimu.GRAVITY (DroneSimu.PHYSICS_PARAMS (num := R)) = 9.8 /\
  DroneSimu.DRAG_COEFFICIENT (DroneSimu.PHYSICS_PARAMS (num := R)) = 0.1.
Proof.
  unfold DroneSimu.PHYSICS_PARAMS. cbn. at_R. repeat split; lra.
Qed.

End DroneMotion.

(** C9. In every frame of the drone, in [DorneSim.tsx] and in the plain
    simulator alike, the thrust is resolved into its components with the
    rotation the state had before the frame, and the drag is computed
    from the velocities it had before the frame, although the new angular
    velocity and the new rotation are computed first; the new rotation is
    only stored, and it gives the thrust its direction in the next
    frame. *)
Theorem C9_thrust_resolved_with_previous_rotation :
  forall (st : Drone.ReactState R) (deltaTime deltaTime1 : R)
         (s : Drone.Store R)
         (st0 : DroneSimu.ReactState R) (deltaTime0 deltaTime2 : R),
    let vX := fun (ps : Types.PhysicsState R) (total wind dt : R) =>
      (Types.x (Types.velocity ps) +
       (total * sin (Types.rotation ps) + wind -
        0.1 * Types.x (Types.velocity ps) * Rabs (Types.x (Types.velocity ps)))
       / 1 * dt)%R in
    let vY := fun (ps : Types.PhysicsState R) (total dt : R) =>
      (Types.y (Types.velocity ps) +
       (total * cos (Types.rotation ps) - 1 * 9.8 -
        0.1 * Types.y (Types.velocity ps) * Rabs (Types.y (Types.velocity ps)))
       / 1 * dt)%R in
    let thrust := fun (st : Drone.ReactState R) (deltaTime : R)
                      (s : Drone.Store R) =>
      let c := Drone.commandThrust st (deltaTime / 100)%R s in
      let d := fst (Drone.calculateDisturbances (Drone.disturbanceConfig st)
                      deltaTime (snd c)) in
      ((fst (fst c) * 1 * Drone.left (Drone.thrustNoise d) +
        snd (fst c) * 1 * Drone.right (Drone.thrustNoise d))%R,
       Drone.windForce d) in
    let ps := Drone.physicsState st in
    let m := fst (Drone.motion st deltaTime s) in
    let p := fst (Drone.updatePhysics st deltaTime s) in
    let s1 := snd (Drone.updatePhysics st deltaTime s) in
    let st1 := Drone.mkReactState p (Drone.leftThrust st) (Drone.rightThrust st)
                 (Drone.disturbanceConfig st) (Drone.pidConfig st) in
    let m1 := fst (Drone.motion st1 deltaTime1 s1) in
    let ps0 := DroneSimu.physicsState st0 in
    let total0 := (DroneSimu.leftThrust st0 + DroneSimu.rightThrust st0)%R in
    let m0 := DroneSimu.motion st0 deltaTime0 in
    let p0 := DroneSimu.updatePhysics st0 deltaTime0 in
    let st2 := DroneSimu.mkReactState p0 (DroneSimu.leftThrust st0)
                 (DroneSimu.rightThrust st0) in
    let m2 := DroneSimu.motion st2 deltaTime2 in
    (Drone.newVelocityX m =
       vX ps (fst (thrust st deltaTime s)) (snd (thrust st deltaTime s))
          (deltaTime / 100)%R /\
     Drone.newVelocityY m = vY ps (fst (thrust st deltaTime s)) (deltaTime / 100)%R /\
     Drone.newRotation m =
       (Types.rotation ps + Drone.newAngularVelocity m * (deltaTime / 100))%R /\
     Types.rotation p = Drone.newRotation m /\
     Drone.newVelocityX m1 =
       vX p (fst (thrust st1 deltaTime1 s1)) (snd (thrust st1 deltaTime1 s1))
          (deltaTime1 / 100)%R /\
     Drone.newVelocityY m1 =
       vY p (fst (thrust st1 deltaTime1 s1)) (deltaTime1 / 100)%R) /\
    (DroneSimu.newVelocityX m0 = vX ps0 total0 0%R (deltaTime0 / 100)%R /\
     DroneSimu.newVelocityY m0 = vY ps0 total0 (deltaTime0 / 100)%R /\
     DroneSimu.newRotation m0 =
       (Types.rotation ps0 +
        DroneSimu.newAngularVelocity m0 * (deltaTime0 / 100))%R /\
     Types.rotation p0 = DroneSimu.newRotation m0 /\
     DroneSimu.newVelocityX m2 = vX p0 total0 0%R (deltaTime2 / 100)%R /\
     DroneSimu.newVelocityY m2 = vY p0 total0 (deltaTime2 / 100)%R).
Proof.
  intros st deltaTime deltaTime1 s st0 deltaTime0 deltaTime2
         vX vY thrust ps m p s1 st1 m1 ps0 total0 m0 p0 st2 m2.
  destruct DroneMotion.default_params_R as [HM [HG [HD [HL HR]]]].
  destruct DroneMotion.simu_params_R as [HM0 [HG0 HD0]].
  assert (Drone_frame : forall (st : Drone.ReactState R) (deltaTime : R)
                               (s : Drone.Store R),
    let m := fst (Drone.motion st deltaTime s) in
    Drone.newVelocityX m =
      vX (Drone.physicsState st) (fst (thrust st deltaTime s))
         (snd (thrust st deltaTime s)) (deltaTime / 100)%R /\
    Drone.newVelocityY m =
      vY (Drone.physicsState st) (fst (thrust st deltaTime s))
         (deltaTime / 100)%R /\
    Drone.newRotation m =
      (Types.rotation (Drone.physicsState st) +
       Drone.newAngularVelocity m * (deltaTime / 100))%R).
  { intros st' dT s'. cbv zeta.
    rewrite DroneMotion.motion_integrate.
    destruct (DroneMotion.integrate_velocity Drone.DEFAULT_PHYSICS_PARAMS
                (Drone.physicsState st')
                (fst (fst (Drone.commandThrust st' (dT / 100)%R s')))
                (snd (fst (Drone.commandThrust st' (dT / 100)%R s')))
                (fst (Drone.calculateDisturbances (Drone.disturbanceConfig st')
                        dT (snd (Drone.commandThrust st' (dT / 100)%R s'))))
                (dT / 100)%R) as [HY [HX [HRot _]]].
    rewrite HM, HD, HL, HR in HY, HX. rewrite HG in HY.
    subst vX vY thrust. cbn [fst snd].
    split; [exact HX | split; [exact HY | exact HRot]]. }
  assert (Simu_frame : forall (st : DroneSimu.ReactState R) (deltaTime : R),
    let m := DroneSimu.motion st deltaTime in
    DroneSimu.newVelocityX m =
      vX (DroneSimu.physicsState st)
         (DroneSimu.leftThrust st + DroneSimu.rightThrust st)%R 0%R
         (deltaTime / 100)%R /\
    DroneSimu.newVelocityY m =
      vY (DroneSimu.physicsState st)
         (DroneSimu.leftThrust st + DroneSimu.rightThrust st)%R
         (deltaTime / 100)%R /\
    DroneSimu.newRotation m =
      (Types.rotation (DroneSimu.physicsState st) +
       DroneSimu.newAngularVelocity m * (deltaTime / 100))%R).
  { intros st' dT. cbv zeta. unfold DroneSimu.motion.
    cbn [DroneSimu.newVelocityY DroneSimu.newVelocityX DroneSimu.newRotation
         DroneSimu.newAngularVelocity].
    rewrite HM0, HG0, HD0. subst vX vY. cbv beta.
    replace (@ndiv R RNumber dT (@lit R RNumber 100))
      with (dT / 100)%R by (RealFacts.at_R; lra).
    RealFacts.at_R. repeat split; lra. }
  assert (Hp : Types.rotation p = Drone.newRotation m).
  { subst p m. rewrite DroneWalls.updatePhysics_boundary, DroneWalls.boundary_R.
    reflexivity. }
  assert (Hp0 : Types.rotation p0 = DroneSimu.newRotation m0).
  { subst p0 m0. unfold DroneSimu.updatePhysics.
    rewrite DroneWalls.simu_boundary_R. reflexivity. }
  split.
  - destruct (Drone_frame st deltaTime s) as [H1 [H2 H3]].
    destruct (Drone_frame st1 deltaTime1 s1) as [H4 [H5 _]].
    refine (conj H1 (conj H2 (conj H3 (conj Hp (conj H4 H5))))).
  - destruct (Simu_frame st0 deltaTime0) as [H1 [H2 H3]].
    destruct (Simu_frame st2 deltaTime2) as [H4 [H5 _]].
    refine (conj H1 (conj H2 (conj H3 (conj Hp0 (conj H4 H5))))).
Qed.

(** With the right rotor alone at 10 N, from rest and level, a frame of
    10 ms of the plain simulator turns the drone to 0.4 rad, yet the new
    horizontal velocity is 0: the thrust was resolved at rotation 0, not
    at 0.4, whose sine is not 0. *)
Lemma C9_thrust_direction_witness :
  let st0 := DroneSimu.mkReactState
               (Types.mkPhysicsState (Types.mkPosition 150 150)%R
                                     (Types.mkPosition 0 0)%R 0%R 0%R)
               0%R 10%R in
  let m0 := DroneSimu.motion st0 10%R in
  DroneSimu.newRotation m0 = 0.4%R /\
  DroneSimu.newVelocityX m0 = 0%R /\
  sin 0.4 <> 0%R.
Proof.
  intros st0 m0.
  pose proof (proj2 (C9_thrust_resolved_with_previous_rotation
                       Drone.initialState 16%R 16%R
                       (Drone.initialStore 0%R (fun _ => 0.5%R))
                       st0 10%R 10%R)) as [HX [_ [HR _]]].
  cbv zeta in HX, HR. fold st0 in HX, HR. fold m0 in HX, HR.
  split; [| split].
  - rewrite HR. subst m0 st0. cbn. RealFacts.at_R. lra.
  - rewrite HX. subst st0. cbn [DroneSimu.physicsState Types.velocity
      Types.rotation Types.x DroneSimu.leftThrust DroneSimu.rightThrust].
    rewrite sin_0, Rabs_R0. lra.
  - pose proof PI2_1. apply Rgt_not_eq. apply sin_gt_0; lra.
Defined.

(** ** The PID controller at an integral gain of zero, in binary64 *)

(** C1, evaluated. [update] has no case for ki = 0: it divides by ki in
    every call.  On the attitude controller with ki = 0, a target
    rotation of -0.5 rad against a rotation of 0 and a step of 0.16, both
    limits of the integral are +infinity, the stored integral is
    +infinity, not the accumulated -0.08, and the output is NaN.  Within
    the output range (target -0.0625) the limits are -infinity and
    +infinity and the integral is the accumulated one; at the edge of the
    range (target 0.125, where kp * error = outputMax) the upper limit is
    0/0 and the integral is NaN. *)
Theorem C1_ki_zero_integral_not_finite :
  let saturated := PID.update KiZero.attitude (lit (-0.5)) (lit 0) (lit 0.16) in
  let inside := PID.update KiZero.attitude (lit (-0.0625)) (lit 0) (lit 0.16) in
  let edge := PID.update KiZero.attitude (lit 0.125) (lit 0) (lit 0.16) in
  (PID.integral (snd saturated) = infinity /\
   Binary64.isFinite (PID.integral (snd saturated)) = false /\
   PrimFloat.is_nan (fst saturated) = true) /\
  (PID.integral (snd inside) =
     PrimFloat.add (lit 0) (PrimFloat.mul (lit (-0.0625)) (lit 0.16)) /\
   Binary64.isFinite (PID.integral (snd inside)) = true) /\
  (PrimFloat.is_nan (PID.integral (snd edge)) = true /\
   PrimFloat.is_nan (fst edge) = true).
Proof. vm_compute. repeat split. Qed.

(** C5, evaluated. With ki = 0 and kd = 0 the same call returns NaN
    where the clamped proportional term is -1; inside the output range it
    returns the proportional term -0.5. *)
Theorem C5_ki_kd_zero_output_nan :
  let c := KiZero.attitude in
  (PID.ki c = lit 0 /\ PID.kd c = lit 0) /\
  (PrimFloat.is_nan (fst (PID.update c (lit (-0.5)) (lit 0) (lit 0.16))) = true /\
   KiZero.proportional c (lit (-0.5)) (lit 0) = (-1)%float) /\
  (fst (PID.update c (lit (-0.0625)) (lit 0) (lit 0.16)) = (-0.5)%float /\
   KiZero.proportional c (lit (-0.0625)) (lit 0) = (-0.5)%float).
Proof. vm_compute. repeat split. Qed.

(** The first frame of the drone from its initial state, with the
    attitude Ki slider at 0 and 16 ms elapsed: both commanded thrusts are
    NaN. *)
Lemma ki_zero_first_frame_thrust_nan :
  let thrusts :=
    fst (Drone.commandThrust KiZero.start (ndiv (lit 16) (lit 100))
           KiZero.store) in
  PrimFloat.is_nan (fst thrusts) = true /\
  PrimFloat.is_nan (snd thrusts) = true.
Proof. vm_compute. split; reflexivity. Qed.

(** ** NaN in binary64 *)

Module NaNFacts.
Import Types StateMonad.

Open Scope float_scope.

Lemma nan_eq (x : float) : Prim2SF x = S754_nan -> x = nan.
Proof. intros H. apply Prim2SF_inj. rewrite H. reflexivity. Qed.

Lemma mul_nan_l (x : float) : nan * x = nan.
Proof. apply nan_eq. rewrite mul_spec. reflexivity. Qed.

Lemma add_nan_l (x : float) : nan + x = nan.
Proof. apply nan_eq. rewrite add_spec. reflexivity. Qed.

Lemma add_nan_r (x : float) : x + nan = nan.
Proof.
  apply nan_eq. rewrite add_spec. cbn. destruct (Prim2SF x); reflexivity.
Qed.

Lemma sub_nan_l (x : float) : nan - x = nan.
Proof. apply nan_eq. rewrite sub_spec. reflexivity. Qed.

Lemma sub_nan_r (x : float) : x - nan = nan.
Proof.
  apply nan_eq. rewrite sub_spec. cbn. destruct (Prim2SF x); reflexivity.
Qed.

Lemma div_nan_l (x : float) : nan / x = nan.
Proof. apply nan_eq. rewrite div_spec. reflexivity. Qed.

(** With both thrusts NaN, the new velocities and the new positions are
    NaN, whatever [Math.sin] and [Math.cos] return and whatever the
    disturbances are. *)
Lemma integrate_nan (T : Trig float) (params : PhysicsParams float)
    (ps : PhysicsState float) (d : Drone.Disturbances float) (dt : float) :
  let m := Drone.integrate params ps nan nan d dt in
  Drone.newPositionX m = nan /\ Drone.newPositionY m = nan /\
  Drone.newVelocityX m = nan /\ Drone.newVelocityY m = nan.
Proof.
  cbv zeta. unfold Drone.integrate.
  cbn [Drone.newPositionX Drone.newPositionY Drone.newVelocityX
       Drone.newVelocityY].
  cbv [nadd nsub nmul ndiv FNumber].
  repeat first [ rewrite mul_nan_l | rewrite add_nan_l | rewrite sub_nan_l
               | rewrite div_nan_l | rewrite add_nan_r | rewrite sub_nan_r ].
  repeat split.
Qed.

(** A frame whose controllers command NaN sets a NaN position and a NaN
    velocity: the walls let NaN through. *)
Lemma frame_nan (T : Trig float) (st : Drone.ReactState float)
    (deltaTime : float) (s : Drone.Store float) :
  fst (Drone.commandThrust st (ndiv deltaTime (lit 100)) s) = (nan, nan) ->
  let p := fst (Drone.updatePhysics st deltaTime s) in
  position p = mkPosition nan nan /\ velocity p = mkPosition nan nan.
Proof.
  intros H. cbv zeta.
  unfold Drone.updatePhysics, Drone.motion, bind, ret.
  destruct (Drone.commandThrust st (ndiv deltaTime (lit 100)) s)
    as [thrusts s1].
  cbn [fst] in H. subst thrusts. cbn [fst snd].
  destruct (Drone.calculateDisturbances (Drone.disturbanceConfig st)
              deltaTime s1) as [d s2].
  cbn [fst].
  destruct (integrate_nan T Drone.DEFAULT_PHYSICS_PARAMS
              (Drone.physicsState st) d (ndiv deltaTime (lit 100)))
    as [HX [HY [HVX HVY]]].
  unfold Drone.boundary. cbn [position velocity].
  rewrite HX, HY, HVX, HVY. vm_compute. split; reflexivity.
Qed.

End NaNFacts.

(** C3, evaluated. The walls are [Math.min(Math.max(p, lo), hi)], which
    is NaN when the new position [p] is NaN, and [update] of the PID
    controller returns NaN when it divides zero by zero.  Whatever
    [Math.sin] and [Math.cos] return: the first frame of the drone from
    its initial state with the attitude Ki slider at 0 and 16 ms elapsed
    sets a position and a velocity that are NaN on both axes; and so does
    a frame of the default configuration with no time elapsed
    (deltaTime = 0).  A NaN position is neither at least 10 nor at most
    590: it is not in the rectangle. *)
Theorem C3_nan_position_passes_the_walls :
  forall sin cos : float -> float,
    let within := fun (lo hi q : float) =>
      ((lo <=? q) && (q <=? hi))%float in
    let nowhere := fun p : Types.PhysicsState float =>
      Types.position p = Types.mkPosition nan nan /\
      Types.velocity p = Types.mkPosition nan nan /\
      within 10%float 590%float (Types.x (Types.position p)) = false /\
      within 10%float 290%float (Types.y (Types.position p)) = false in
    nowhere (fst (Drone.updatePhysics (T := FTrig sin cos)
                    KiZero.start (lit 16) KiZero.store)) /\
    nowhere (fst (Drone.updatePhysics (T := FTrig sin cos)
                    Drone.initialState (lit 0)
                    (Drone.initialStore (T := FTrig sin cos)
                       (lit 0) (fun _ => lit 0.5)))).
Proof.
  intros sin cos within nowhere.
  assert (H : forall p : Types.PhysicsState float,
             Types.position p = Types.mkPosition nan nan /\
             Types.velocity p = Types.mkPosition nan nan -> nowhere p).
  { intros p [Hp Hv]. subst nowhere within. cbv beta.
    rewrite Hp, Hv. repeat split. }
  split; apply H; apply NaNFacts.frame_nan; vm_compute; reflexivity.
Qed.

(** ** The order of binary64 *)

Module FloatOrder.
Import Types StateMonad.

Open Scope float_scope.

Lemma compare_antisym (a b : spec_float) (c : comparison) :
  SFcompare a b = Some c -> SFcompare b a = Some (CompOpp c).
Proof.
  destruct a as [sa | sa | | sa ma ea], b as [sb | sb | | sb mb eb];
    cbn; try discriminate;
    try (destruct sa; try destruct sb; intros H; injection H as <-; reflexivity);
    try (destruct sb; intros H; injection H as <-; reflexivity);
    try (intros H; injection H as <-; reflexivity).
  destruct sa, sb; intros H; injection H as <-; try reflexivity;
    rewrite (Z.compare_antisym ea eb); destruct (Z.compare ea eb); cbn;
    try reflexivity;
    change (Pos.compare_cont Eq mb ma) with (Pos.compare mb ma);
    change (Pos.compare_cont Eq ma mb) with (Pos.compare ma mb);
    rewrite (Pos.compare_antisym ma mb); rewrite ?CompOpp_involutive;
    reflexivity.
Qed.

Lemma not_nan (x : float) : is_nan x = false -> Prim2SF x <> S754_nan.
Proof.
  unfold is_nan. rewrite FloatAxioms.eqb_spec. intros H E. rewrite E in H. discriminate.
Qed.

Lemma compare_total (a b : spec_float) :
  a <> S754_nan -> b <> S754_nan -> exists c, SFcompare a b = Some c.
Proof.
  intros Ha Hb.
  destruct a as [sa | sa | | sa ma ea], b as [sb | sb | | sb mb eb];
    try congruence; cbn; eexists; reflexivity.
Qed.

Lemma trichotomy (p c : float) :
  is_nan p = false -> is_nan c = false ->
  ((p <? c) = true /\ (c <? p) = false /\ (p <=? c) = true /\
   (c <=? p) = false /\ (p =? c) = false) \/
  ((p <? c) = false /\ (c <? p) = false /\ (p <=? c) = true /\
   (c <=? p) = true /\ (p =? c) = true) \/
  ((p <? c) = false /\ (c <? p) = true /\ (p <=? c) = false /\
   (c <=? p) = true /\ (p =? c) = false).
Proof.
  intros Hp Hc. apply not_nan in Hp. apply not_nan in Hc.
  destruct (compare_total _ _ Hp Hc) as [k Hk].
  pose proof (compare_antisym _ _ _ Hk) as Hk'.
  rewrite !FloatAxioms.ltb_spec, !FloatAxioms.leb_spec, FloatAxioms.eqb_spec.
  unfold SFltb, SFleb, SFeqb. rewrite Hk, Hk'.
  destruct k; cbn; [right; left | left | right; right]; repeat split.
Qed.

(** A number above the positive constant [hi] is above the positive
    constant [lo] of smaller exponent. *)
Lemma above (lo hi p : float) (mlo mhi : positive) (elo ehi : Z) :
  Prim2SF lo = S754_finite false mlo elo ->
  Prim2SF hi = S754_finite false mhi ehi ->
  (elo < ehi)%Z ->
  (hi <? p) = true -> (lo <? p) = true.
Proof.
  intros Hlo Hhi He. rewrite !FloatAxioms.ltb_spec, Hlo, Hhi. unfold SFltb.
  destruct (Prim2SF p) as [s | s | | s m e]; cbn; try discriminate;
    destruct s; try discriminate; try reflexivity.
  destruct (Z.compare_spec ehi e); destruct (Z.compare_spec elo e);
    try lia; try discriminate; reflexivity.
Qed.

Lemma max_cases (p c : float) :
  is_nan p = false -> is_nan c = false ->
  Binary64.max p c = c /\ (p <=? c) = true \/ Binary64.max p c = p /\ (c <=? p) = true.
Proof.
  intros Hp Hc. unfold Binary64.max. rewrite Hp, Hc. cbn [orb].
  destruct (trichotomy p c Hp Hc)
    as [(A1 & A2 & A3 & A4 & A5) | [(A1 & A2 & A3 & A4 & A5)
                                   | (A1 & A2 & A3 & A4 & A5)]];
    rewrite A1; try rewrite A2; try destruct (get_sign p); auto.
Qed.

Lemma min_cases (p c : float) :
  is_nan p = false -> is_nan c = false ->
  Binary64.min p c = p /\ (p <=? c) = true \/ Binary64.min p c = c /\ (c <=? p) = true.
Proof.
  intros Hp Hc. unfold Binary64.min. rewrite Hp, Hc. cbn [orb].
  destruct (trichotomy p c Hp Hc)
    as [(A1 & A2 & A3 & A4 & A5) | [(A1 & A2 & A3 & A4 & A5)
                                   | (A1 & A2 & A3 & A4 & A5)]];
    rewrite A1; try rewrite A2; try destruct (get_sign p); auto.
Qed.

Lemma compare_refl (a : spec_float) :
  a <> S754_nan -> SFcompare a a = Some Eq.
Proof.
  intros Ha. destruct a as [s | s | | s m e]; try congruence;
    try (destruct s; reflexivity).
  cbn. rewrite Z.compare_refl, Pos.compare_cont_refl. destruct s; reflexivity.
Qed.

Lemma is_nan_false (x : float) : Prim2SF x <> S754_nan -> is_nan x = false.
Proof.
  intros H. unfold is_nan. rewrite FloatAxioms.eqb_spec. unfold SFeqb.
  rewrite (compare_refl _ H). reflexivity.
Qed.

Lemma ltb_not_nan (a b : float) :
  (a <? b) = true -> is_nan a = false /\ is_nan b = false.
Proof.
  rewrite FloatAxioms.ltb_spec. unfold SFltb. intros H.
  split; apply is_nan_false; intros E; rewrite E in H;
    [| destruct (Prim2SF a)]; discriminate.
Qed.

Lemma max_above (p c : float) : (c <? p) = true -> Binary64.max p c = p.
Proof.
  intros H. destruct (ltb_not_nan _ _ H) as [Hc Hp].
  unfold Binary64.max. rewrite Hp, Hc. cbn [orb].
  destruct (trichotomy p c Hp Hc)
    as [(A1 & A2 & A3 & A4 & A5) | [(A1 & A2 & A3 & A4 & A5)
                                   | (A1 & A2 & A3 & A4 & A5)]]; try congruence.
  rewrite A1, A2. reflexivity.
Qed.

Lemma min_above (p c : float) : (c <? p) = true -> Binary64.min p c = c.
Proof.
  intros H. destruct (ltb_not_nan _ _ H) as [Hc Hp].
  unfold Binary64.min. rewrite Hp, Hc. cbn [orb].
  destruct (trichotomy p c Hp Hc)
    as [(A1 & A2 & A3 & A4 & A5) | [(A1 & A2 & A3 & A4 & A5)
                                   | (A1 & A2 & A3 & A4 & A5)]]; try congruence.
  rewrite A1, A2. reflexivity.
Qed.

Lemma max_below (p c : float) : (p <? c) = true -> Binary64.max p c = c.
Proof.
  intros H. destruct (ltb_not_nan _ _ H) as [Hp Hc].
  unfold Binary64.max. rewrite Hp, Hc, H. reflexivity.
Qed.

(** One axis of the walls, between 10 and [hi]. *)
Lemma axis64 (hi p v : float) (mhi : positive) (ehi : Z) :
  Prim2SF hi = S754_finite false mhi ehi -> (-49 < ehi)%Z ->
  Binary64.min 10 hi = 10 -> (10 <=? hi) = true -> (hi <=? hi) = true ->
  (hi =? hi) = true ->
  is_nan p = false ->
  let final := Binary64.min (Binary64.max p 10) hi in
  let v' := if (final =? 10) || (final =? hi) then 0 else v in
  ((10 <=? final) = true /\ (final <=? hi) = true) /\
  ((hi <? p) = true -> final = hi /\ v' = 0) /\
  ((p <? 10) = true -> final = 10 /\ v' = 0).
Proof.
  intros Hhi He Hmin Hle Hrefl Heq Hp final v'.
  assert (Hnhi : is_nan hi = false).
  { apply is_nan_false. rewrite Hhi. discriminate. }
  split; [| split].
  - subst final.
    destruct (max_cases p 10 Hp eq_refl) as [[E L] | [E L]]; rewrite E.
    + rewrite Hmin. split; [reflexivity | exact Hle].
    + destruct (min_cases p hi Hp Hnhi) as [[E' L'] | [E' L']]; rewrite E'.
      * split; assumption.
      * split; assumption.
  - intros H.
    assert (H10 : (10 <? p) = true).
    { apply (above 10 hi p 5629499534213120 mhi (-49) ehi);
        [reflexivity | exact Hhi | exact He | exact H]. }
    assert (Hf : final = hi).
    { subst final. rewrite (max_above p 10 H10). apply min_above. exact H. }
    split; [exact Hf |]. subst v'. rewrite Hf, Heq, orb_true_r. reflexivity.
  - intros H.
    assert (Hf : final = 10).
    { subst final. rewrite (max_below p 10 H). exact Hmin. }
    split; [exact Hf |]. subst v'. rewrite Hf. reflexivity.
Qed.

(** A NaN position passes the walls. *)
Lemma axis64_nan (hi p : float) :
  is_nan p = true -> is_nan (Binary64.min (Binary64.max p 10) hi) = true.
Proof.
  intros H. unfold Binary64.max. rewrite H. reflexivity.
Qed.

(** [boundary] in binary64, with its constants evaluated. *)
Lemma boundary64 (m : Drone.Motion float) :
  Drone.boundary m =
  let fx := Binary64.min (Binary64.max (Drone.newPositionX m) 10) 590 in
  let fy := Binary64.min (Binary64.max (Drone.newPositionY m) 10) 290 in
  mkPhysicsState
    (mkPosition fx fy)
    (mkPosition
       (if (fx =? 10) || (fx =? 590) then 0 else Drone.newVelocityX m)
       (if (fy =? 10) || (fy =? 290) then 0 else Drone.newVelocityY m))
    (Drone.newRotation m) (Drone.newAngularVelocity m).
Proof. reflexivity. Qed.

Lemma simu_boundary64 (m : DroneSimu.Motion float) :
  DroneSimu.boundary m =
  let fx := Binary64.min (Binary64.max (DroneSimu.newPositionX m) 10) 590 in
  let fy := Binary64.min (Binary64.max (DroneSimu.newPositionY m) 10) 290 in
  mkPhysicsState
    (mkPosition fx fy)
    (mkPosition
       (if (fx =? 10) || (fx =? 590) then 0 else DroneSimu.newVelocityX m)
       (if (fy =? 10) || (fy =? 290) then 0 else DroneSimu.newVelocityY m))
    (DroneSimu.newRotation m) (DroneSimu.newAngularVelocity m).
Proof. reflexivity. Qed.

Lemma updatePhysics_boundary64 (T : Trig float) (st : Drone.ReactState float)
    (deltaTime : float) (s : Drone.Store float) :
  fst (Drone.updatePhysics st deltaTime s) =
  Drone.boundary (fst (Drone.motion st deltaTime s)).
Proof.
  unfold Drone.updatePhysics, bind, ret.
  destruct (Drone.motion st deltaTime s) as [m s']. reflexivity.
Qed.

Lemma axis_590 (p v : float) :
  is_nan p = false ->
  let final := Binary64.min (Binary64.max p 10) 590 in
  let v' := if (final =? 10) || (final =? 590) then 0 else v in
  ((10 <=? final) = true /\ (final <=? 590) = true) /\
  ((590 <? p) = true -> final = 590 /\ v' = 0) /\
  ((p <? 10) = true -> final = 10 /\ v' = 0).
Proof.
  apply (axis64 590 p v 5189694883102720 (-43)); reflexivity.
Qed.

Lemma axis_290 (p v : float) :
  is_nan p = false ->
  let final := Binary64.min (Binary64.max p 10) 290 in
  let v' := if (final =? 10) || (final =? 290) then 0 else v in
  ((10 <=? final) = true /\ (final <=? 290) = true) /\
  ((290 <? p) = true -> final = 290 /\ v' = 0) /\
  ((p <? 10) = true -> final = 10 /\ v' = 0).
Proof.
  apply (axis64 290 p v 5101733952880640 (-44)); reflexivity.
Qed.

End FloatOrder.

(** X28. The walls in binary64.  In every frame of the drone, in
    [DorneSim.tsx] and in the plain simulator alike, whatever [Math.sin]
    and [Math.cos] return: when the new position computed on an axis is a
    number (it may be infinite), the position set on that axis is at
    least 10 and at most the upper bound of the axis; when the new
    position is above the upper bound or below 10, the position set is
    exactly that bound and the velocity set on the axis is exactly 0.
    When the new position is NaN, the position set is NaN: NaN is the
    only way out of the rectangle. *)
Theorem walls_hold_in_binary64_unless_nan :
  forall (sin cos : float -> float)
         (st : Drone.ReactState float) (deltaTime : float)
         (s : Drone.Store float)
         (st0 : DroneSimu.ReactState float) (deltaTime0 : float),
    let wall := fun (hi unclamped final velocity : float) =>
      (is_nan unclamped = false ->
       ((10 <=? final) = true /\ (final <=? hi) = true) /\
       ((hi <? unclamped) = true -> final = hi /\ velocity = 0) /\
       ((unclamped <? 10) = true -> final = 10 /\ velocity = 0))%float /\
      (is_nan unclamped = true -> is_nan final = true) in
    let m := fst (Drone.motion (T := FTrig sin cos) st deltaTime s) in
    let p := fst (Drone.updatePhysics (T := FTrig sin cos) st deltaTime s) in
    let m0 := DroneSimu.motion (T := FTrig sin cos) st0 deltaTime0 in
    let p0 := DroneSimu.updatePhysics (T := FTrig sin cos) st0 deltaTime0 in
    wall 590%float (Drone.newPositionX m)
         (Types.x (Types.position p)) (Types.x (Types.velocity p)) /\
    wall 290%float (Drone.newPositionY m)
         (Types.y (Types.position p)) (Types.y (Types.velocity p)) /\
    wall 590%float (DroneSimu.newPositionX m0)
         (Types.x (Types.position p0)) (Types.x (Types.velocity p0)) /\
    wall 290%float (DroneSimu.newPositionY m0)
         (Types.y (Types.position p0)) (Types.y (Types.velocity p0)).
Proof.
  intros sin cos st deltaTime s st0 deltaTime0 wall m p m0 p0.
  subst p p0 wall. cbv beta.
  rewrite FloatOrder.updatePhysics_boundary64. fold m.
  unfold DroneSimu.updatePhysics. fold m0.
  rewrite FloatOrder.boundary64, FloatOrder.simu_boundary64. cbv zeta.
  cbn [Types.x Types.y Types.position Types.velocity].
  refine (conj (conj _ _) (conj (conj _ _) (conj (conj _ _) (conj _ _))));
    first [ apply FloatOrder.axis_590 | apply FloatOrder.axis_290
          | apply FloatOrder.axis64_nan ].
Qed.

(** The wall scenario in binary64: at x = 589 and moving right at 10,
    level, with the controllers and the disturbances switched off, a
    frame of 16 ms computes a new position above 590; the position set is
    exactly 590 and the velocity set is exactly 0.  (At rotation 0 every
    runtime has [Math.sin] return 0 and [Math.cos] return 1; they are
    given here as the identity and the constant 1.) *)
Lemma walls_binary64_witness :
  let sin := fun a : float => a in
  let cos := fun _ : float => 1%float in
  let off := DisturbanceConfig.make
               (WindDisturbance.make false (lit 0) (lit 0) (lit 0) (lit 0))
               (ThrustNoise.make false (lit 0) (lit 10)) in
  let manual := PIDConfig.make false
                  (PIDConfig.mkGains (lit 8) (lit 0.5) (lit 0))
                  (PIDConfig.mkPositionGains
                     (PIDConfig.mkGains (lit 1) (lit 0.05) (lit 0))
                     (PIDConfig.mkGains (lit 1.5) (lit 0.05) (lit 0))) in
  let st := Drone.mkReactState
              (Types.mkPhysicsState
                 (Types.mkPosition (lit 589) (lit 150))
                 (Types.mkPosition (lit 10) (lit 0)) (lit 0) (lit 0))
              (lit 4.9) (lit 4.9) off manual in
  let s := Drone.initialStore (T := FTrig sin cos) (lit 0) (fun _ => lit 0.5) in
  let m := fst (Drone.motion (T := FTrig sin cos) st (lit 16) s) in
  let p := fst (Drone.updatePhysics (T := FTrig sin cos) st (lit 16) s) in
  is_nan (Drone.newPositionX m) = false /\
  (590 <? Drone.newPositionX m)%float = true /\
  Types.x (Types.position p) = 590%float /\
  Types.x (Types.velocity p) = 0%float.
Proof.
  intros sin cos off manual st s m p.
  assert (Hn : is_nan (Drone.newPositionX m) = false)
    by (vm_compute; reflexivity).
  assert (H : (590 <? Drone.newPositionX m)%float = true)
    by (vm_compute; reflexivity).
  split; [exact Hn |]. split; [exact H |].
  exact (proj1 (proj2 (proj1 (proj1
    (walls_hold_in_binary64_unless_nan sin cos st (lit 16) s
       DroneSimu.initialState (lit 16))) Hn)) H).
Defined.

(** ** Further properties of the engine *)

Module FrameFacts.
Import Types StateMonad RealFacts.

Open Scope R_scope.

(** The controllers leave the wind clock alone. *)
Lemma commandThrust_windStateRef (st : Drone.ReactState R) (dt : R)
    (s : Drone.Store R) :
  Drone.windStateRef (snd (Drone.commandThrust st dt s)) = Drone.windStateRef s.
Proof.
  unfold Drone.commandThrust.
  destruct (PIDConfig.enabled (Drone.pidConfig st)); [| reflexivity].
  DroneFacts.run_monad. cbn [Drone.verticalPositionPIDRef
    Drone.horizontalPositionPIDRef Drone.attitudePIDRef].
  repeat match goal with
         | |- context [PID.update ?c ?a ?b ?d] =>
             destruct (PID.update c a b d); cbn
         end.
  reflexivity.
Qed.

(** The store after a frame is the store after its disturbances. *)
Lemma updatePhysics_store (st : Drone.ReactState R) (deltaTime : R)
    (s : Drone.Store R) :
  snd (Drone.updatePhysics st deltaTime s) =
  snd (Drone.calculateDisturbances (Drone.disturbanceConfig st) deltaTime
         (snd (Drone.commandThrust st (deltaTime / 100) s))).
Proof.
  unfold Drone.updatePhysics, Drone.motion, bind, ret.
  replace (@ndiv R RNumber deltaTime (@lit R RNumber 100))
    with (deltaTime / 100) by (at_R; lra).
  destruct (Drone.commandThrust st (deltaTime / 100) s) as [thrusts s1].
  cbn [snd].
  destruct (Drone.calculateDisturbances (Drone.disturbanceConfig st)
              deltaTime s1) as [d s2].
  reflexivity.
Qed.

(** The controllers take no value of [Math.random]. *)
Lemma commandThrust_random (st : Drone.ReactState R) (dt : R)
    (s : Drone.Store R) :
  Drone.random (snd (Drone.commandThrust st dt s)) = Drone.random s /\
  Drone.drawn (snd (Drone.commandThrust st dt s)) = Drone.drawn s.
Proof.
  unfold Drone.commandThrust.
  destruct (PIDConfig.enabled (Drone.pidConfig st)); [| split; reflexivity].
  DroneFacts.run_monad. cbn [Drone.verticalPositionPIDRef
    Drone.horizontalPositionPIDRef Drone.attitudePIDRef].
  repeat match goal with
         | |- context [PID.update ?c ?a ?b ?d] =>
             destruct (PID.update c a b d); cbn
         end.
  split; reflexivity.
Qed.

End FrameFacts.

(** C7, as the code has it. On every frame with the wind sub-model
    enabled, the wind clock advances by exactly the frame's [deltaTime],
    the elapsed milliseconds that [updatePhysics] hands to
    [calculateDisturbances]: that is 100 dt for the step
    dt = deltaTime / 100 with which the same frame integrates the motion.
    The wind force the frame integrates is
    baseSpeed + gustMagnitude sin(2 pi gustFrequency clock) + turbulence,
    with turbulence = (u - 0.5) 2 turbulenceIntensity for the next value
    u of [Math.random]; with the wind sub-model disabled the wind force
    is 0 (and the clock stands); with the thrust-noise sub-model disabled
    both noise factors are 1. *)
Theorem C7_disturbances_of_a_frame :
  forall (st : Drone.ReactState R) (deltaTime : R) (s : Drone.Store R),
    let cfg := Drone.disturbanceConfig st in
    let wind := DisturbanceConfig.wind cfg in
    let thrust := DisturbanceConfig.thrust cfg in
    let dt := (deltaTime / 100)%R in
    let c := Drone.commandThrust st dt s in
    let d := fst (Drone.calculateDisturbances cfg deltaTime (snd c)) in
    let s' := snd (Drone.updatePhysics st deltaTime s) in
    let clock := Drone.time (Drone.windStateRef s') in
    let u := Drone.random s (Drone.drawn s) in
    let turbulence :=
      ((u - 0.5) * 2 * WindDisturbance.turbulenceIntensity wind)%R in
    fst (Drone.motion st deltaTime s) =
      Drone.integrate Drone.DEFAULT_PHYSICS_PARAMS (Drone.physicsState st)
        (fst (fst c)) (snd (fst c)) d dt /\
    (WindDisturbance.enabled wind = true ->
     clock = (Drone.time (Drone.windStateRef s) + deltaTime)%R /\
     clock = (Drone.time (Drone.windStateRef s) + 100 * dt)%R /\
     Drone.windForce d =
       (WindDisturbance.baseSpeed wind +
        WindDisturbance.gustMagnitude wind *
          sin (2 * PI * WindDisturbance.gustFrequency wind * clock) +
        turbulence)%R) /\
    (WindDisturbance.enabled wind = false ->
     Drone.windForce d = 0%R /\
     clock = Drone.time (Drone.windStateRef s)) /\
    (ThrustNoise.enabled thrust = false ->
     Drone.left (Drone.thrustNoise d) = 1%R /\
     Drone.right (Drone.thrustNoise d) = 1%R).
Proof.
  intros st deltaTime s cfg wind thrust dt c d s' clock u turbulence.
  assert (Hs : s' = snd (Drone.calculateDisturbances cfg deltaTime (snd c))).
  { subst s' c cfg dt. apply FrameFacts.updatePhysics_store. }
  assert (Hc : Drone.windStateRef (snd c) = Drone.windStateRef s).
  { subst c. apply FrameFacts.commandThrust_windStateRef. }
  destruct (FrameFacts.commandThrust_random st dt s) as [Hr Hd].
  fold c in Hr, Hd.
  split; [| split; [| split]].
  - subst d c cfg dt. apply DroneMotion.motion_integrate.
  - intros Hw.
    destruct (DroneFacts.calculateDisturbances_wind_on cfg deltaTime (snd c) Hw)
      as [H1 H2].
    assert (Hclock : clock = (Drone.time (Drone.windStateRef s) + deltaTime)%R).
    { subst clock. rewrite Hs, H1, Hc. reflexivity. }
    split; [exact Hclock |]. split; [rewrite Hclock; subst dt; lra |].
    subst d turbulence u wind. rewrite H2, Hc, Hr, Hd, Hclock. reflexivity.
  - intros Hw.
    destruct (DroneFacts.calculateDisturbances_wind_off cfg deltaTime (snd c) Hw)
      as [H1 H2].
    split; [exact H2 |]. subst clock. rewrite Hs, H1, Hc. reflexivity.
  - intros Ht.
    exact (DroneFacts.calculateDisturbances_noise_off cfg deltaTime (snd c) Ht).
Qed.

(** The first frame of the component after 16 ms, and a frame with both
    sub-models switched off. *)
Lemma C7_disturbances_witness :
  (let s := Drone.initialStore 0%R (fun _ => 0.5%R) in
   let s' := snd (Drone.updatePhysics Drone.initialState 16%R s) in
   Drone.time (Drone.windStateRef s') =
   (Drone.time (Drone.windStateRef s) + 16)%R) /\
  (let s := Drone.initialStore 0%R (fun _ => 0.5%R) in
   let off := DisturbanceConfig.make
                (WindDisturbance.make false 0.5 0.2 1 0.1)%R
                (ThrustNoise.make false 0.1 10)%R in
   let st := Drone.mkReactState (Drone.physicsState Drone.initialState)
               4.9%R 4.9%R off Drone.DEFAULT_PID_CONFIG in
   let c := Drone.commandThrust st (16 / 100)%R s in
   let d := fst (Drone.calculateDisturbances off 16%R (snd c)) in
   Drone.windForce d = 0%R /\
   Drone.left (Drone.thrustNoise d) = 1%R /\
   Drone.right (Drone.thrustNoise d) = 1%R).
Proof.
  split.
  - intros s s'.
    exact (proj1 (proj1 (proj2 (C7_disturbances_of_a_frame
                                  Drone.initialState 16%R s)) eq_refl)).
  - intros s off st c d.
    pose proof (proj2 (C7_disturbances_of_a_frame st 16%R s)) as [_ [Hw Ht]].
    split; [exact (proj1 (Hw eq_refl)) | exact (Ht eq_refl)].
Defined.

(** C7, a counterexample to the specification's wording.  In the first
    frame of the component after 16 ms the motion is integrated with
    dt = 0.16, and the wind clock, at 0 before the frame, reads 16 after
    it, not 0.16. *)
Lemma C7_wind_clock_not_advanced_by_dt :
  let s := Drone.initialStore 0%R (fun _ => 0.5%R) in
  let st := Drone.initialState (num := R) in
  let dt := (16 / 100)%R in
  let m := fst (Drone.motion st 16%R s) in
  let s' := snd (Drone.updatePhysics st 16%R s) in
  WindDisturbance.enabled
    (DisturbanceConfig.wind (Drone.disturbanceConfig st)) = true /\
  Drone.newRotation m =
    (Types.rotation (Drone.physicsState st) +
     Drone.newAngularVelocity m * dt)%R /\
  Drone.time (Drone.windStateRef s') = 16%R /\
  (Drone.time (Drone.windStateRef s) + dt)%R = 0.16%R /\
  Drone.time (Drone.windStateRef s') <>
    (Drone.time (Drone.windStateRef s) + dt)%R.
Proof.
  intros s st dt m s'.
  assert (H0 : Drone.time (Drone.windStateRef s) = 0%R).
  { cbn. RealFacts.at_R. lra. }
  assert (H16 : Drone.time (Drone.windStateRef s') = 16%R).
  { subst s'. rewrite FrameFacts.updatePhysics_store.
    destruct (DroneFacts.calculateDisturbances_wind_on
                (Drone.disturbanceConfig st) 16%R
                (snd (Drone.commandThrust st (16 / 100)%R s)) eq_refl)
      as [H _].
    rewrite H, FrameFacts.commandThrust_windStateRef, H0. lra. }
  split; [reflexivity |]. split.
  - subst m. rewrite DroneMotion.motion_integrate.
    exact (proj1 (proj2 (proj2
      (DroneMotion.integrate_velocity _ _ _ _ _ _)))).
  - split; [exact H16 |]. rewrite H16, H0. subst dt.
    split; [| intros H]; lra.
Qed.


(** X1. In a frame of [DorneSim.tsx] with the wind enabled, the wind clock
    advances by the frame's [deltaTime], while the rotation (like the rest
    of the motion) is integrated with the step [deltaTime / 100]. *)
Theorem wind_clock_advances_by_deltaTime :
  forall (st : Drone.ReactState R) (deltaTime : R) (s : Drone.Store R),
    WindDisturbance.enabled
      (DisturbanceConfig.wind (Drone.disturbanceConfig st)) = true ->
    let m := fst (Drone.motion st deltaTime s) in
    let s' := snd (Drone.updatePhysics st deltaTime s) in
    Drone.time (Drone.windStateRef s') =
      (Drone.time (Drone.windStateRef s) + deltaTime)%R /\
    Drone.newRotation m =
      (Types.rotation (Drone.physicsState st) +
       Drone.newAngularVelocity m * (deltaTime / 100))%R.
Proof.
  intros st deltaTime s Hw m s'. split.
  - subst s'. rewrite FrameFacts.updatePhysics_store.
    destruct (DroneFacts.calculateDisturbances_wind_on
                (Drone.disturbanceConfig st) deltaTime
                (snd (Drone.commandThrust st (deltaTime / 100)%R s)) Hw)
      as [H _].
    rewrite H, FrameFacts.commandThrust_windStateRef. reflexivity.
  - subst m. rewrite DroneMotion.motion_integrate.
    exact (proj1 (proj2 (proj2
      (DroneMotion.integrate_velocity _ _ _ _ _ _)))).
Qed.

(** The first frame of the component after 16 ms: the wind clock reads
    16. *)
Lemma wind_clock_witness :
  let s := Drone.initialStore 0%R (fun _ => 0.5%R) in
  Drone.time (Drone.windStateRef
                (snd (Drone.updatePhysics Drone.initialState 16%R s))) =
  (Drone.time (Drone.windStateRef s) + 16)%R.
Proof.
  intros s.
  exact (proj1 (wind_clock_advances_by_deltaTime
                  Drone.initialState 16%R s eq_refl)).
Defined.

(** X2. The denominator of the pole's angular acceleration,
    [poleLength * temp], is positive at every angle: the division in
    [updatePhysics] is never a division by zero. *)
Theorem cartpole_denominator_positive :
  forall theta : R,
    (0.5 <=
     CartPole.poleLength *
     (CartPole.totalMass - CartPole.poleMass * cos theta * cos theta))%R.
Proof.
  intros theta. pose proof (CartPoleFacts.cos_sqr_le_1 theta) as Hc.
  unfold CartPole.poleLength, CartPole.totalMass, CartPole.poleMass,
    CartPole.cartMass.
  RealFacts.at_R. nra.
Qed.

(** X3. With a positive integral gain, a nonzero step and
    [outputMin <= outputMax], [update]
    stores an integral for which [kp * error + ki * integral] lies within
    the output bounds, and its output lies within them too. *)
Theorem anti_windup_bounds :
  forall (c : PID.PIDController R) (setpoint measured dt : R),
    (0 < PID.ki c)%R ->
    dt <> 0%R ->
    (PID.outputMin c <= PID.outputMax c)%R ->
    let r := PID.update c setpoint measured dt in
    let error := (setpoint - measured)%R in
    (PID.outputMin c <=
       PID.kp c * error + PID.ki c * PID.integral (snd r) <=
     PID.outputMax c)%R /\
    (PID.outputMin c <= fst r <= PID.outputMax c)%R.
Proof.
  intros c setpoint measured dt Hki Hdt Hle r error.
  subst r. unfold PID.update. cbn [fst snd PID.integral].
  RealFacts.at_R. fold error.
  set (e := (PID.kp c * error)%R).
  set (i1 := (PID.integral c + error * dt)%R).
  assert (Hlim : ((PID.outputMin c - e) / PID.ki c <=
                  (PID.outputMax c - e) / PID.ki c)%R).
  { unfold Rdiv. apply Rmult_le_compat_r; [| lra].
    left. apply Rinv_0_lt_compat. exact Hki. }
  pose proof (RealFacts.clamp_range i1 _ _ Hlim) as [Hlo Hhi].
  set (i2 := Rmin (Rmax i1 ((PID.outputMin c - e) / PID.ki c))
                  ((PID.outputMax c - e) / PID.ki c)) in *.
  split.
  - apply Rmult_le_compat_l with (r := PID.ki c) in Hlo; [| lra].
    apply Rmult_le_compat_l with (r := PID.ki c) in Hhi; [| lra].
    replace (PID.ki c * ((PID.outputMin c - e) / PID.ki c))%R
      with (PID.outputMin c - e)%R in Hlo by (field; lra).
    replace (PID.ki c * ((PID.outputMax c - e) / PID.ki c))%R
      with (PID.outputMax c - e)%R in Hhi by (field; lra).
    lra.
  - apply RealFacts.clamp_range. exact Hle.
Qed.

(** The attitude controller of [DorneSim.tsx], as constructed. *)
Lemma anti_windup_witness :
  let c := PID.new 8%R 0.5%R 0%R (-1)%R 1%R in
  (-1 <= fst (PID.update c 0.5%R 0%R 0.16%R) <= 1)%R.
Proof.
  intros c.
  assert (Hki : (0 < PID.ki c)%R) by (cbn; lra).
  assert (Hdt : 0.16%R <> 0%R) by lra.
  assert (Hle : (PID.outputMin c <= PID.outputMax c)%R) by (cbn; lra).
  exact (proj2 (anti_windup_bounds c 0.5%R 0%R 0.16%R Hki Hdt Hle)).
Defined.

(** ** More on the PID controller class *)

Module PIDFacts.
Import PID PIDCalls.

(** No method writes the output bounds or [lastTime]. *)
Lemma call_frame {num : Type} {N : Number num}
    (this : PIDController num) (c : Call num) :
  outputMin (call this c) = outputMin this /\
  outputMax (call this c) = outputMax this /\
  (lastTime this = None -> lastTime (call this c) = None).
Proof.
  destruct c; cbn; repeat split; auto.
Qed.

Lemma calls_frame {num : Type} {N : Number num}
    (cs : list (Call num)) (this : PIDController num) :
  outputMin (calls cs this) = outputMin this /\
  outputMax (calls cs this) = outputMax this /\
  (lastTime this = None -> lastTime (calls cs this) = None).
Proof.
  revert this. induction cs as [| c cs IH]; intros this.
  - cbn. auto.
  - unfold calls. cbn [fold_left]. fold (calls cs (call this c)).
    destruct (IH (call this c)) as [H1 [H2 H3]].
    destruct (call_frame this c) as [F1 [F2 F3]].
    rewrite H1, H2, F1, F2. auto.
Qed.

Open Scope R_scope.

(** The integral [update] stores, at [R]. *)
Lemma update_integral_R (c : PIDController R) (setpoint measured dt : R) :
  integral (snd (update c setpoint measured dt)) =
  Rmin (Rmax (integral c + (setpoint - measured) * dt)
             ((outputMin c - kp c * (setpoint - measured)) / ki c))
       ((outputMax c - kp c * (setpoint - measured)) / ki c).
Proof. reflexivity. Qed.

(** The output [update] returns, at [R]. *)
Lemma update_output_R (c : PIDController R) (setpoint measured dt : R) :
  fst (update c setpoint measured dt) =
  Rmin (Rmax (kp c * (setpoint - measured) +
              ki c * integral (snd (update c setpoint measured dt)) +
              kd c * ((setpoint - measured - prevError c) / dt))
             (outputMin c))
       (outputMax c).
Proof. reflexivity. Qed.

(** Division by a negative gain reverses the order of the two limits. *)
Lemma limits_reversed (lo hi e k : R) :
  k < 0 -> lo <= hi -> (hi - e) / k <= (lo - e) / k.
Proof.
  intros Hk Hle. unfold Rdiv.
  apply Rmult_le_compat_neg_l with (r := / k) in Hle.
  - assert (H : / k * (hi - e) <= / k * (lo - e)) by lra. lra.
  - left. apply Rinv_lt_0_compat. exact Hk.
Qed.

End PIDFacts.

(** X4. Whatever the sequence of [update], [reset] and [setGains] calls on
    a newly constructed controller, its output bounds are the ones given
    to the constructor and its [lastTime] is still null: no method writes
    them (for any arithmetic of the numbers). *)
Theorem pid_bounds_never_change :
  forall (num : Type) (N : Number num) (kp ki kd outputMin outputMax : num)
         (cs : list (PIDCalls.Call num)),
    let c := PIDCalls.calls cs (PID.new kp ki kd outputMin outputMax) in
    PID.outputMin c = outputMin /\
    PID.outputMax c = outputMax /\
    PID.lastTime c = None.
Proof.
  intros num N kp ki kd outputMin outputMax cs c.
  destruct (PIDFacts.calls_frame cs (PID.new kp ki kd outputMin outputMax))
    as [H1 [H2 H3]].
  subst c. rewrite H1, H2. repeat split. apply H3. reflexivity.
Qed.

(** X5. With a positive integral gain, no derivative gain, a nonzero step
    and [outputMin <= outputMax], the output of [update] is exactly
    [kp * error + ki * integral] for the integral it stores: the
    anti-windup limits have already brought that sum within the bounds,
    and the final clamp of the output changes nothing. *)
Theorem pi_output_needs_no_clamp :
  forall (c : PID.PIDController R) (setpoint measured dt : R),
    (0 < PID.ki c)%R ->
    PID.kd c = 0%R ->
    dt <> 0%R ->
    (PID.outputMin c <= PID.outputMax c)%R ->
    let r := PID.update c setpoint measured dt in
    fst r =
      (PID.kp c * (setpoint - measured) + PID.ki c * PID.integral (snd r))%R.
Proof.
  intros c setpoint measured dt Hki Hkd Hdt Hle r. subst r.
  rewrite PIDFacts.update_output_R, Hkd.
  set (e := (PID.kp c * (setpoint - measured))%R).
  assert (Hlim : ((PID.outputMin c - e) / PID.ki c <=
                  (PID.outputMax c - e) / PID.ki c)%R).
  { unfold Rdiv. apply Rmult_le_compat_r; [| lra].
    left. apply Rinv_0_lt_compat. exact Hki. }
  rewrite PIDFacts.update_integral_R. fold e.
  pose proof (RealFacts.clamp_range
                (PID.integral c + (setpoint - measured) * dt)%R _ _ Hlim)
    as [Hlo Hhi].
  set (i2 := Rmin _ _) in *.
  apply Rmult_le_compat_l with (r := PID.ki c) in Hlo; [| lra].
  apply Rmult_le_compat_l with (r := PID.ki c) in Hhi; [| lra].
  replace (PID.ki c * ((PID.outputMin c - e) / PID.ki c))%R
    with (PID.outputMin c - e)%R in Hlo by (field; lra).
  replace (PID.ki c * ((PID.outputMax c - e) / PID.ki c))%R
    with (PID.outputMax c - e)%R in Hhi by (field; lra).
  rewrite RealFacts.clamp_inside; lra.
Qed.

(** The vertical position controller of [DorneSim.tsx], as constructed,
    10 px below its target after 16 ms. *)
Lemma pi_output_witness :
  let c := PID.new 1.5%R 0.05%R 0%R (-2)%R 2%R in
  let r := PID.update c 150%R 160%R 0.16%R in
  fst r = (1.5 * (150 - 160) + 0.05 * PID.integral (snd r))%R.
Proof.
  intros c.
  assert (Hki : (0 < PID.ki c)%R) by (cbn; lra).
  assert (Hdt : 0.16%R <> 0%R) by lra.
  assert (Hle : (PID.outputMin c <= PID.outputMax c)%R) by (cbn; lra).
  exact (pi_output_needs_no_clamp c 150%R 160%R 0.16%R Hki eq_refl Hdt Hle).
Defined.

(** X6. With a negative integral gain and [outputMin <= outputMax] the
    two anti-windup limits are in reverse order, and [update] stores the
    upper one whatever was accumulated: [kp * error + ki * integral] is
    exactly [outputMax], and without derivative gain (and a nonzero
    step) so is the output, for every error. *)
Theorem negative_ki_pins_output_to_max :
  forall (c : PID.PIDController R) (setpoint measured dt : R),
    (PID.ki c < 0)%R ->
    (PID.outputMin c <= PID.outputMax c)%R ->
    let r := PID.update c setpoint measured dt in
    let error := (setpoint - measured)%R in
    PID.integral (snd r) =
      ((PID.outputMax c - PID.kp c * error) / PID.ki c)%R /\
    (PID.kp c * error + PID.ki c * PID.integral (snd r))%R = PID.outputMax c /\
    (PID.kd c = 0%R -> dt <> 0%R -> fst r = PID.outputMax c).
Proof.
  intros c setpoint measured dt Hki Hle r error. subst r.
  assert (Hi : PID.integral (snd (PID.update c setpoint measured dt)) =
               ((PID.outputMax c - PID.kp c * error) / PID.ki c)%R).
  { rewrite PIDFacts.update_integral_R. fold error.
    pose proof (PIDFacts.limits_reversed (PID.outputMin c) (PID.outputMax c)
                  (PID.kp c * error)%R (PID.ki c) Hki Hle) as Hrev.
    unfold Rmin, Rmax.
    repeat match goal with
           | |- context [Rle_dec ?a ?b] => destruct (Rle_dec a b)
           end; lra. }
  assert (Hs : (PID.kp c * error + PID.ki c *
                  PID.integral (snd (PID.update c setpoint measured dt)))%R =
               PID.outputMax c).
  { rewrite Hi. field. lra. }
  split; [exact Hi | split; [exact Hs |]].
  intros Hkd Hdt. rewrite PIDFacts.update_output_R, Hkd. fold error.
  rewrite RealFacts.clamp_inside; lra.
Qed.

(** A controller with gains 1, -0.5, 0 and bounds -1, 1, at error 0. *)
Lemma negative_ki_witness :
  let c := PID.new 1%R (-0.5)%R 0%R (-1)%R 1%R in
  fst (PID.update c 0%R 0%R 0.16%R) = 1%R.
Proof.
  intros c.
  assert (Hki : (PID.ki c < 0)%R) by (cbn; lra).
  assert (Hle : (PID.outputMin c <= PID.outputMax c)%R) by (cbn; lra).
  assert (Hdt : 0.16%R <> 0%R) by lra.
  exact (proj2 (proj2 (negative_ki_pins_output_to_max c 0%R 0%R 0.16%R
                         Hki Hle)) eq_refl Hdt).
Defined.

(** ** More on the cart-pole *)

Module AngleFacts.
Import CartPole RealFacts CartPoleFacts.

Open Scope R_scope.

(** An integer strictly between -1 and 1 is 0. *)
Lemma small_integer (z : Z) : -1 < IZR z < 1 -> z = 0%Z.
Proof.
  intros [H1 H2]. apply lt_IZR in H1. apply lt_IZR in H2. lia.
Qed.

(** An angle of (-pi, pi] that differs from [a] by a multiple of 2 pi is
    the normalized [a]. *)
Lemma normalizeAngle_unique (a r : R) :
  - PI < r <= PI ->
  (exists k : Z, r = a + 2 * PI * IZR k) ->
  normalizeAngle a = r.
Proof.
  intros Hr [k Hk].
  pose proof (normalizeAngle_range a) as Hn.
  destruct (normalizeAngle_congruent a) as [k' Hk'].
  pose proof PI_RGT_0 as Hpi.
  assert (Hz : (k - k')%Z = 0%Z).
  { apply small_integer. rewrite minus_IZR.
    assert (Hd : r - normalizeAngle a = 2 * PI * (IZR k - IZR k')).
    { rewrite Hk, Hk'. ring. }
    split; apply Rmult_lt_reg_l with (r := 2 * PI); try lra. }
  assert (Hkk : k = k') by lia. subst k'.
  rewrite Hk, Hk'. reflexivity.
Qed.

End AngleFacts.

(** X7. The angle normalization of the cart-pole is periodic: angles
    that differ by a whole number of turns are normalized to the same
    value; and the value is the only angle of (-pi, pi] that differs
    from the argument by a whole number of turns. *)
Theorem normalizeAngle_periodic :
  forall (a : R) (k : Z),
    CartPole.normalizeAngle (a + 2 * PI * IZR k)%R = CartPole.normalizeAngle a /\
    (forall r : R,
       (- PI < r <= PI)%R ->
       (exists n : Z, r = (a + 2 * PI * IZR n)%R) ->
       r = CartPole.normalizeAngle a).
Proof.
  intros a k. split.
  - apply AngleFacts.normalizeAngle_unique.
    + apply CartPoleFacts.normalizeAngle_range.
    + destruct (CartPoleFacts.normalizeAngle_congruent a) as [k' Hk'].
      exists (k' - k)%Z. rewrite Hk', minus_IZR. ring.
  - intros r Hr Hn. symmetry.
    apply AngleFacts.normalizeAngle_unique; assumption.
Qed.

(** One turn and a half is half a turn. *)
Lemma normalizeAngle_periodic_witness :
  CartPole.normalizeAngle (3 * PI)%R = PI.
Proof.
  pose proof PI_RGT_0 as Hpi.
  assert (Hr : (- PI < PI <= PI)%R) by lra.
  assert (Hn : exists n : Z, PI = (3 * PI + 2 * PI * IZR n)%R).
  { exists (-1)%Z. simpl. lra. }
  symmetry.
  exact (proj2 (normalizeAngle_periodic (3 * PI)%R 0%Z) PI Hr Hn).
Defined.

Module DynamicsFacts.
Import CartPole RealFacts CartPoleFacts Accelerations.

Open Scope R_scope.

Lemma updatePhysics_R (s : CartPoleState R) (F : R) :
  updatePhysics s F =
  mkState (x s + dx s * 0.02)
          (normalizeAngle (theta s + dtheta s * 0.02))
          (dx s + ddxR (theta s) (dtheta s) F * 0.02)
          (dtheta s + ddthetaR (theta s) (dtheta s) F * 0.02)
          (score s + 1).
Proof.
  unfold updatePhysics.
  assert (Hdt : (dt : R) = 0.02) by (unfold dt; at_R; lra).
  rewrite !Hdt.
  pose proof (cos_sqr_le_1 (theta s)) as Hc.
  assert (Hth : forall a b : R, a = b -> normalizeAngle a = normalizeAngle b)
    by (intros a b ->; reflexivity).
  f_equal.
  - unfold ddxR, ddthetaR, gravity, totalMass, poleMass, cartMass, poleLength.
    at_R. set (c := cos (theta s)) in *. field. lra.
  - unfold ddthetaR, gravity, totalMass, poleMass, cartMass, poleLength.
    at_R. set (c := cos (theta s)) in *. field. lra.
  - at_R. lra.
Qed.

Lemma denominator_pos (th : R) : 0 < 0.5 * (1.1 - 0.1 * cos th * cos th).
Proof. pose proof (cos_sqr_le_1 th). nra. Qed.

Lemma ddthetaR_mirror (th w F : R) :
  ddthetaR (- th) (- w) (- F) = - ddthetaR th w F.
Proof.
  unfold ddthetaR. rewrite sin_neg, cos_neg.
  pose proof (denominator_pos th). field. lra.
Qed.

Lemma ddxR_mirror (th w F : R) : ddxR (- th) (- w) (- F) = - ddxR th w F.
Proof.
  unfold ddxR. rewrite ddthetaR_mirror, sin_neg, cos_neg.
  unfold Rdiv. ring.
Qed.

(** At rest and without force the angular acceleration is a positive
    multiple of the sine of the angle. *)
Lemma ddthetaR_rest (th : R) :
  ddthetaR th 0 0 = sin th * (10.791 / (0.5 * (1.1 - 0.1 * cos th * cos th))).
Proof.
  pose proof (denominator_pos th) as H. unfold ddthetaR. at_R. field. lra.
Qed.

End DynamicsFacts.

(** X8. The dynamics of the cart-pole are mirror symmetric: from the
    mirrored state (position, angle and both velocities negated) under
    the opposite force, [updatePhysics] returns the mirror image of what
    it returns from the state itself, with the same score, provided the
    new angle is not exactly pi (which is normalized to pi on both
    sides). *)
Theorem updatePhysics_mirror :
  forall (s : CartPole.CartPoleState R) (F : R),
    let s' := CartPole.updatePhysics s F in
    let m := CartPole.updatePhysics
               (CartPole.mkState (- CartPole.x s) (- CartPole.theta s)
                  (- CartPole.dx s) (- CartPole.dtheta s)
                  (CartPole.score s))%R
               (- F)%R in
    CartPole.theta s' <> PI ->
    m = (CartPole.mkState (- CartPole.x s') (- CartPole.theta s')
           (- CartPole.dx s') (- CartPole.dtheta s') (CartPole.score s'))%R.
Proof.
  intros s F s' m Hpi. subst s' m.
  rewrite !DynamicsFacts.updatePhysics_R in *.
  cbn [CartPole.x CartPole.theta CartPole.dx CartPole.dtheta CartPole.score]
    in *.
  rewrite DynamicsFacts.ddthetaR_mirror, DynamicsFacts.ddxR_mirror.
  pose proof (CartPoleFacts.normalizeAngle_range
                (CartPole.theta s + CartPole.dtheta s * 0.02)%R) as Hr.
  destruct (CartPoleFacts.normalizeAngle_congruent
              (CartPole.theta s + CartPole.dtheta s * 0.02)%R) as [k Hk].
  assert (Hn : CartPole.normalizeAngle
                 (- CartPole.theta s + - CartPole.dtheta s * 0.02)%R =
               (- CartPole.normalizeAngle
                    (CartPole.theta s + CartPole.dtheta s * 0.02))%R).
  { apply AngleFacts.normalizeAngle_unique.
    - lra.
    - exists (- k)%Z. rewrite Hk, opp_IZR. ring. }
  rewrite Hn. f_equal; lra.
Qed.

(** The first tick from the initial state and from its mirror image. *)
Lemma updatePhysics_mirror_witness :
  CartPole.updatePhysics
    (CartPole.mkState (Ropp 0) (Ropp 0.1) (Ropp 0) (Ropp 0) 0%R) (Ropp 0) =
  let s' := CartPole.updatePhysics (CartPole.mkState 0 0.1 0 0 0)%R 0%R in
  (CartPole.mkState (- CartPole.x s') (- CartPole.theta s')
     (- CartPole.dx s') (- CartPole.dtheta s') (CartPole.score s'))%R.
Proof.
  refine (updatePhysics_mirror (CartPole.mkState 0 0.1 0 0 0)%R 0%R _).
  rewrite DynamicsFacts.updatePhysics_R.
  cbn [CartPole.x CartPole.theta CartPole.dx CartPole.dtheta CartPole.score].
  pose proof PI2_1 as Hpi.
  rewrite CartPoleFacts.normalizeAngle_fixed; lra.
Defined.

(** X9. A pole at rest tips the way it leans: from a state with zero
    angular velocity and under no force, one tick leaves an angle of
    (-pi, pi] as it is and gives the angular velocity the sign of the
    angle (positive for a lean to the right, negative for a lean to the
    left, zero when upright). *)
Theorem pole_at_rest_falls_the_way_it_leans :
  forall s : CartPole.CartPoleState R,
    CartPole.dtheta s = 0%R ->
    (- PI < CartPole.theta s < PI)%R ->
    let s' := CartPole.updatePhysics s 0%R in
    CartPole.theta s' = CartPole.theta s /\
    ((0 < CartPole.theta s)%R -> (0 < CartPole.dtheta s')%R) /\
    ((CartPole.theta s < 0)%R -> (CartPole.dtheta s' < 0)%R) /\
    (CartPole.theta s = 0%R -> CartPole.dtheta s' = 0%R).
Proof.
  intros s Hw Hth s'. subst s'.
  rewrite DynamicsFacts.updatePhysics_R.
  cbn [CartPole.theta CartPole.dtheta]. rewrite Hw.
  rewrite DynamicsFacts.ddthetaR_rest.
  pose proof (DynamicsFacts.denominator_pos (CartPole.theta s)) as Hd.
  assert (Hk : (0 < 10.791 /
                    (0.5 * (1.1 - 0.1 * cos (CartPole.theta s) *
                                       cos (CartPole.theta s))))%R).
  { apply Rdiv_lt_0_compat; lra. }
  set (k := (10.791 / _)%R) in *.
  split; [| split; [| split]].
  - replace (CartPole.theta s + 0 * 0.02)%R with (CartPole.theta s) by lra.
    apply CartPoleFacts.normalizeAngle_fixed. lra.
  - intros H. assert (Hs : (0 < sin (CartPole.theta s))%R)
      by (apply sin_gt_0; lra).
    nra.
  - intros H. assert (Hs : (sin (CartPole.theta s) < 0)%R)
      by (apply sin_lt_0_var; lra).
    nra.
  - intros H. rewrite H, sin_0. lra.
Qed.

(** The initial state of the simulator leans 0.1 rad to the right. *)
Lemma pole_at_rest_witness :
  (0 < CartPole.dtheta
         (CartPole.updatePhysics (CartPole.mkState 0 0.1 0 0 0)%R 0%R))%R.
Proof.
  pose proof PI2_1 as Hpi.
  assert (Hth : (- PI < 0.1 < PI)%R) by lra.
  assert (H0 : (0 < 0.1)%R) by lra.
  exact (proj1 (proj2 (pole_at_rest_falls_the_way_it_leans
                         (CartPole.mkState 0 0.1 0 0 0)%R eq_refl Hth)) H0).
Defined.

Module RunFacts.
Import CartPole.

(** Firings compose. *)
Lemma run_app {num : Type} {N : Number num} {T : Trig num}
    (n m : nat) (force : num) (isAutoPilot : bool) (r : Run num) :
  run (n + m) force isAutoPilot r =
  run m force isAutoPilot (run n force isAutoPilot r).
Proof.
  revert r. induction n as [| n IH]; intros r; [reflexivity |].
  cbn [Nat.add run]. apply IH.
Qed.

Lemma run_stopped {num : Type} {N : Number num} {T : Trig num}
    (n : nat) (force : num) (isAutoPilot : bool) (r : Run num) :
  isRunning r = false -> run n force isAutoPilot r = r.
Proof.
  intros H. induction n as [| n IH]; [reflexivity |].
  cbn [run]. unfold interval. rewrite H. exact IH.
Qed.

(** A firing that leaves the run alive has taken the new state. *)
Lemma interval_alive {num : Type} {N : Number num} {T : Trig num}
    (force : num) (isAutoPilot : bool) (r : Run num) :
  isRunning (interval force isAutoPilot r) = true ->
  isRunning r = true /\
  state (interval force isAutoPilot r) =
  updatePhysics (state r) (fst (currentForce force isAutoPilot r)).
Proof.
  unfold interval. destruct (isRunning r) eqn:Hr.
  - unfold tick. destruct (currentForce force isAutoPilot r) as [f c].
    cbn [fst]. destruct (failed (updatePhysics (state r) f)); cbn.
    + discriminate.
    + intros _. split; reflexivity.
  - rewrite Hr. discriminate.
Qed.

(** Without the autopilot a firing leaves the controller alone. *)
Lemma interval_manual_controller {num : Type} {N : Number num} {T : Trig num}
    (force : num) (r : Run num) :
  pidController (interval force false r) = pidController r.
Proof.
  unfold interval, tick, currentForce. destruct (isRunning r); [| reflexivity].
  destruct (failed (updatePhysics (state r) force)); reflexivity.
Qed.

(** With the autopilot a firing does not read the manual force. *)
Lemma interval_autopilot_force {num : Type} {N : Number num} {T : Trig num}
    (force1 force2 : num) (r : Run num) :
  interval force1 true r = interval force2 true r.
Proof. reflexivity. Qed.

End RunFacts.

(** X10. While a cart-pole run is alive its score counts the firings of
    the interval: if the run is still running after n firings, it was
    running from the start and its score has grown by exactly n. *)
Theorem score_counts_firings :
  forall (n : nat) (force : R) (isAutoPilot : bool) (r : CartPole.Run R),
    CartPole.isRunning (CartPole.run n force isAutoPilot r) = true ->
    CartPole.isRunning r = true /\
    CartPole.score (CartPole.state (CartPole.run n force isAutoPilot r)) =
    (CartPole.score (CartPole.state r) + INR n)%R.
Proof.
  intros n force isAutoPilot. induction n as [| n IH]; intros r Hrun.
  - cbn in *. split; [exact Hrun | lra].
  - cbn [CartPole.run] in *.
    destruct (IH _ Hrun) as [Hi Hs].
    destruct (RunFacts.interval_alive force isAutoPilot r Hi) as [Hr Hst].
    split; [exact Hr |].
    rewrite Hs, Hst, DynamicsFacts.updatePhysics_R.
    cbn [CartPole.score]. rewrite S_INR. lra.
Qed.

(** X11. A halted cart-pole run is frozen: if the run is not running
    after n firings, any number of further firings changes nothing
    (state, controller and flag alike). *)
Theorem halted_run_is_frozen :
  forall (num : Type) (N : Number num) (T : Trig num)
         (n m : nat) (force : num) (isAutoPilot : bool) (r : CartPole.Run num),
    CartPole.isRunning (CartPole.run n force isAutoPilot r) = false ->
    CartPole.run (n + m) force isAutoPilot r =
    CartPole.run n force isAutoPilot r.
Proof.
  intros num N T n m force isAutoPilot r H.
  rewrite RunFacts.run_app. apply RunFacts.run_stopped. exact H.
Qed.

(** X12. The two modes of the cart-pole loop keep apart: without the
    autopilot no number of firings touches the controller (its integral
    and last error stay as they were), and with the autopilot the run
    does not depend on the manual force. *)
Theorem modes_keep_apart :
  forall (num : Type) (N : Number num) (T : Trig num)
         (n : nat) (force force' : num) (r : CartPole.Run num),
    CartPole.pidController (CartPole.run n force false r) =
      CartPole.pidController r /\
    CartPole.run n force true r = CartPole.run n force' true r.
Proof.
  intros num N T n force force'. induction n as [| n IH]; intros r.
  - split; reflexivity.
  - cbn [CartPole.run]. split.
    + rewrite (proj1 (IH _)). apply RunFacts.interval_manual_controller.
    + rewrite (RunFacts.interval_autopilot_force force force' r).
      apply (proj2 (IH _)).
Qed.

Module RunExamples.
Import CartPole RealFacts.

Open Scope R_scope.

(** The state after one tick from the initial state with no force is
    within the failure bounds. *)
Lemma initial_tick_not_failed :
  failed (updatePhysics (initialState (num := R)) 0) = false.
Proof.
  apply CartPoleLoop.failed_false.
  rewrite DynamicsFacts.updatePhysics_R.
  cbn [x theta dx dtheta initialState]. at_R.
  replace (0 * / 1 + 0 * / 1 * (2 * / 100)) with 0 by lra.
  replace (1 * / 10 + 0 * / 1 * (2 * / 100)) with (1 * / 10) by lra.
  pose proof PI2_1 as Hpi.
  rewrite CartPoleFacts.normalizeAngle_fixed by lra.
  rewrite Rabs_R0, Rabs_pos_eq by lra. lra.
Qed.

Lemma initial_run_alive :
  isRunning (run 1 0 false (mkRun initialState initialController true)) = true.
Proof.
  cbn [run]. unfold interval, tick, currentForce. cbn [isRunning state].
  rewrite initial_tick_not_failed. reflexivity.
Qed.

(** At x = 2.4 and moving right at 1, the next position 2.42 is out of
    bounds. *)
Lemma edge_run_halted :
  isRunning (run 1 0 false
               (mkRun (mkState 2.4 0 1 0 7) initialController true)) = false.
Proof.
  cbn [run]. unfold interval, tick, currentForce. cbn [isRunning state].
  assert (H : failed (updatePhysics (mkState 2.4 0 1 0 7) 0) = true).
  { apply CartPoleLoop.failed_true. left.
    rewrite DynamicsFacts.updatePhysics_R. cbn [x dx].
    rewrite Rabs_pos_eq; lra. }
  rewrite H. reflexivity.
Qed.

End RunExamples.

(** The first firing from the initial state. *)
Lemma score_counts_firings_witness :
  let r := CartPole.mkRun CartPole.initialState CartPole.initialController
                          true in
  CartPole.score (CartPole.state (CartPole.run 1 0%R false r)) =
  (CartPole.score (CartPole.state r) + INR 1)%R.
Proof.
  intros r.
  exact (proj2 (score_counts_firings 1 0%R false r
                  RunExamples.initial_run_alive)).
Defined.

(** A run that halts at its first firing is the same after six. *)
Lemma halted_run_witness :
  let r := CartPole.mkRun (CartPole.mkState 2.4 0 1 0 7)%R
                          CartPole.initialController true in
  CartPole.run (1 + 5) 0%R false r = CartPole.run 1 0%R false r.
Proof.
  intros r.
  exact (halted_run_is_frozen R RNumber RTrig 1 5 0%R false r
           RunExamples.edge_run_halted).
Defined.

Module ComponentFacts.
Import CartPole CartPoleUI RealFacts ComponentInvariant.

Open Scope R_scope.

Lemma lit_0_R : @lit R RNumber 0 = 0.
Proof. at_R. lra. Qed.

Lemma reset_state_not_failed :
  failed (mkState (num := R) (lit 0) (lit 0.1) (lit 0) (lit 0) (lit 0)) = false.
Proof.
  apply CartPoleLoop.failed_false. cbn [x theta]. at_R.
  pose proof PI2_1 as Hpi.
  replace (0 * / 1) with 0 by lra.
  rewrite Rabs_R0, Rabs_pos_eq by lra. lra.
Qed.

Lemma Inv_initial : Inv initialComponent.
Proof.
  split.
  - exact reset_state_not_failed.
  - right. left. cbn. exact lit_0_R.
Qed.

Lemma interval_not_failed (f : R) (a : bool) (r : Run R) :
  failed (state r) = false -> failed (state (interval f a r)) = false.
Proof.
  intros H. unfold interval. destruct (isRunning r); [| exact H].
  unfold tick. destruct (currentForce f a r) as [f' c].
  destruct (failed (updatePhysics (state r) f')) eqn:E; cbn [state]; assumption.
Qed.

Lemma Inv_handle (c : Component R) (e : Event R) : Inv c -> Inv (handle c e).
Proof.
  intros [Hs Hf]. destruct e; cbn [handle].
  - destruct (isAutoPilot c); [split; assumption |].
    unfold handleKeyDown.
    destruct (String.eqb key "ArrowLeft"), (String.eqb key "ArrowRight");
      split; cbn [simulation force]; try assumption;
      rewrite ?CartPolePID.maxForce_R;
      try (left; change (@nneg R RNumber maxForce) with (- (maxForce : R));
           rewrite CartPolePID.maxForce_R; lra); auto.
  - destruct (isAutoPilot c); [split; assumption |].
    split; cbn; [assumption | right; left; exact lit_0_R].
  - split; cbn [simulation force]; [| assumption].
    apply interval_not_failed. exact Hs.
  - split; cbn [onReset simulation force state]; [| assumption].
    exact reset_state_not_failed.
  - split; cbn; assumption.
  - split; cbn; assumption.
  - split; [| destruct type; cbn; assumption].
    destruct type; cbn; assumption.
Qed.

Lemma Inv_handleAll (es : list (Event R)) (c : Component R) :
  Inv c -> Inv (handleAll es c).
Proof.
  revert c. induction es as [| e es IH]; intros c H; [exact H |].
  unfold handleAll. cbn [fold_left]. apply IH, Inv_handle, H.
Qed.

(** The failure test, negated. *)
Lemma not_failed_bounds (s : CartPoleState R) :
  failed s = false -> Rabs (x s) <= 2.4 /\ Rabs (theta s) <= PI / 2.
Proof.
  intros H. apply CartPoleLoop.failed_false in H.
  split; apply Rnot_gt_le; intros G; apply H; [left | right]; exact G.
Qed.

End ComponentFacts.

(** X13. Whatever the sequence of events on the cart-pole component (key
    presses and releases, firings of the interval, clicks on reset,
    start/stop and autopilot, changes of a gain), from its initial
    state: the state it shows is within the failure bounds (|x| <= 2.4,
    |theta| <= pi/2), the manual force is -15, 0 or 15, and the force the
    next firing would apply, manual or computed by the controller, is at
    most 15 in magnitude. *)
Theorem component_stays_within_bounds :
  forall es : list (CartPoleUI.Event R),
    let c := CartPoleUI.handleAll es CartPoleUI.initialComponent in
    let s := CartPole.state (CartPoleUI.simulation c) in
    ((Rabs (CartPole.x s) <= 2.4)%R /\ (Rabs (CartPole.theta s) <= PI / 2)%R) /\
    (CartPoleUI.force c = (-15)%R \/ CartPoleUI.force c = 0%R \/
     CartPoleUI.force c = 15%R) /\
    (Rabs (fst (CartPole.currentForce (CartPoleUI.force c)
                  (CartPoleUI.isAutoPilot c) (CartPoleUI.simulation c)))
     <= 15)%R.
Proof.
  intros es c s.
  destruct (ComponentFacts.Inv_handleAll es _ ComponentFacts.Inv_initial)
    as [Hs Hf].
  fold c in Hs, Hf. split; [| split].
  - apply ComponentFacts.not_failed_bounds. exact Hs.
  - exact Hf.
  - unfold CartPole.currentForce. destruct (CartPoleUI.isAutoPilot c).
    + unfold CartPole.calculatePIDControl. cbn [fst].
      rewrite CartPolePID.maxForce_R.
      apply Rabs_le.
      apply (CartPolePID.output_bounded _).
    + cbn [fst]. apply Rabs_le. destruct Hf as [H | [H | H]]; rewrite H; lra.
Qed.

(** ** More on the drone *)

Module StoreFacts.
Import Types StateMonad Drone.

Section Generic.

Context {num : Type} {N : Number num} {T : Trig num}.

(** [update] writes neither gains nor bounds. *)
Lemma update_configuration (c : PID.PIDController num)
    (setpoint measured dt : num) :
  let c' := snd (PID.update c setpoint measured dt) in
  PID.kp c' = PID.kp c /\ PID.ki c' = PID.ki c /\ PID.kd c' = PID.kd c /\
  PID.outputMin c' = PID.outputMin c /\ PID.outputMax c' = PID.outputMax c.
Proof. cbn. repeat split. Qed.

(** What [calculateDisturbances] does to the store: it moves the wind
    clock and takes values of [Math.random], nothing else. *)
Lemma calculateDisturbances_store (cfg : DisturbanceConfig.t num)
    (deltaTime : num) (s : Store num) :
  let s' := snd (calculateDisturbances cfg deltaTime s) in
  lastTimeRef s' = lastTimeRef s /\
  attitudePIDRef s' = attitudePIDRef s /\
  horizontalPositionPIDRef s' = horizontalPositionPIDRef s /\
  verticalPositionPIDRef s' = verticalPositionPIDRef s /\
  random s' = random s /\
  drawn s' =
    (drawn s +
     (if WindDisturbance.enabled (DisturbanceConfig.wind cfg) then 1 else 0) +
     (if ThrustNoise.enabled (DisturbanceConfig.thrust cfg) then 2 else 0))%nat.
Proof.
  unfold calculateDisturbances. DroneFacts.run_monad.
  destruct (WindDisturbance.enabled (DisturbanceConfig.wind cfg));
    destruct (ThrustNoise.enabled (DisturbanceConfig.thrust cfg));
    cbn; repeat split; lia.
Qed.

(** What [commandThrust] does to the store: nothing when the PID system
    is disabled; otherwise it changes the integral and the last error of
    the controllers, and nothing else (after [reset] they are what they
    were after [reset] before). *)
Lemma commandThrust_store (st : ReactState num) (dt : num) (s : Store num) :
  let s' := snd (commandThrust st dt s) in
  lastTimeRef s' = lastTimeRef s /\
  windStateRef s' = windStateRef s /\
  random s' = random s /\
  drawn s' = drawn s /\
  (PIDConfig.enabled (pidConfig st) = false -> s' = s) /\
  PID.reset (verticalPositionPIDRef s') =
    PID.reset (verticalPositionPIDRef s) /\
  PID.reset (horizontalPositionPIDRef s') =
    PID.reset (horizontalPositionPIDRef s) /\
  PID.reset (attitudePIDRef s') = PID.reset (attitudePIDRef s).
Proof.
  unfold commandThrust.
  destruct (PIDConfig.enabled (pidConfig st)) eqn:E.
  - DroneFacts.run_monad.
    destruct s as [lt ws a h v rnd k].
    cbn [verticalPositionPIDRef horizontalPositionPIDRef attitudePIDRef
         lastTimeRef windStateRef random drawn].
    match goal with
    | |- context [PID.update v ?x ?y ?z] =>
        destruct (PID.update v x y z) as [vo v'] eqn:Ev
    end.
    apply (f_equal snd) in Ev. cbn [snd] in Ev.
    cbn [verticalPositionPIDRef horizontalPositionPIDRef attitudePIDRef
         lastTimeRef windStateRef random drawn].
    match goal with
    | |- context [PID.update h ?x ?y ?z] =>
        destruct (PID.update h x y z) as [ho h'] eqn:Eh
    end.
    apply (f_equal snd) in Eh. cbn [snd] in Eh.
    cbn [verticalPositionPIDRef horizontalPositionPIDRef attitudePIDRef
         lastTimeRef windStateRef random drawn].
    match goal with
    | |- context [PID.update a ?x ?y ?z] =>
        destruct (PID.update a x y z) as [ao a'] eqn:Ea
    end.
    apply (f_equal snd) in Ea. cbn [snd] in Ea.
    cbn [verticalPositionPIDRef horizontalPositionPIDRef attitudePIDRef
         lastTimeRef windStateRef random drawn snd].
    subst v' h' a'.
    repeat split; discriminate.
  - cbn. repeat split.
Qed.

End Generic.
End StoreFacts.

Module AnimateFacts.
Import Types StateMonad Drone DroneLoop.

Section Generic.

Context {num : Type} {N : Number num} {T : Trig num}.
Open Scope num_scope.

(** The wind state after [calculateDisturbances]. *)
Lemma calculateDisturbances_windStateRef (cfg : DisturbanceConfig.t num)
    (deltaTime : num) (s : Store num) :
  windStateRef (snd (calculateDisturbances cfg deltaTime s)) =
  if WindDisturbance.enabled (DisturbanceConfig.wind cfg)
  then mkWindState (time (windStateRef s) + deltaTime)
                   (currentGust (windStateRef s))
  else windStateRef s.
Proof.
  unfold calculateDisturbances. DroneFacts.run_monad.
  destruct (WindDisturbance.enabled (DisturbanceConfig.wind cfg));
    destruct (ThrustNoise.enabled (DisturbanceConfig.thrust cfg));
    reflexivity.
Qed.

(** The store after [updatePhysics] is the store after its controllers
    and its disturbances. *)
Lemma updatePhysics_snd (st : ReactState num) (deltaTime : num)
    (s : Store num) :
  snd (updatePhysics st deltaTime s) =
  snd (calculateDisturbances (disturbanceConfig st) deltaTime
         (snd (commandThrust st (deltaTime / #100) s))).
Proof.
  unfold updatePhysics, motion, bind, ret.
  destruct (commandThrust st (deltaTime / #100) s) as [thrusts s1].
  cbn [snd].
  destruct (calculateDisturbances (disturbanceConfig st) deltaTime s1)
    as [d s2].
  reflexivity.
Qed.

Lemma animate_snd (st : ReactState num) (currentTime : num) (s : Store num) :
  snd (animate st currentTime s) =
  snd (updatePhysics st (currentTime - lastTimeRef s)
         (snd (setLastTime currentTime s))).
Proof.
  unfold animate, bind, ret, get, setLastTime, modify. cbn [snd].
  destruct (updatePhysics st (currentTime - lastTimeRef s) _) as [p s'].
  reflexivity.
Qed.

Lemma animate_fst (st : ReactState num) (currentTime : num) (s : Store num) :
  leftThrust (fst (animate st currentTime s)) = leftThrust st /\
  rightThrust (fst (animate st currentTime s)) = rightThrust st /\
  disturbanceConfig (fst (animate st currentTime s)) = disturbanceConfig st /\
  pidConfig (fst (animate st currentTime s)) = pidConfig st.
Proof.
  unfold animate, bind, ret, get, setLastTime, modify.
  destruct (updatePhysics st (currentTime - lastTimeRef s) _) as [p s'].
  cbn. repeat split.
Qed.

(** What one frame does to the store. *)
Lemma animate_store (st : ReactState num) (currentTime : num) (s : Store num) :
  let s' := snd (animate st currentTime s) in
  lastTimeRef s' = currentTime /\
  random s' = random s /\
  windStateRef s' =
    (if WindDisturbance.enabled (DisturbanceConfig.wind (disturbanceConfig st))
     then mkWindState (time (windStateRef s) + (currentTime - lastTimeRef s))
                      (currentGust (windStateRef s))
     else windStateRef s) /\
  PID.reset (attitudePIDRef s') = PID.reset (attitudePIDRef s) /\
  PID.reset (horizontalPositionPIDRef s') =
    PID.reset (horizontalPositionPIDRef s) /\
  PID.reset (verticalPositionPIDRef s') =
    PID.reset (verticalPositionPIDRef s) /\
  (PIDConfig.enabled (pidConfig st) = false ->
   attitudePIDRef s' = attitudePIDRef s /\
   horizontalPositionPIDRef s' = horizontalPositionPIDRef s /\
   verticalPositionPIDRef s' = verticalPositionPIDRef s).
Proof.
  cbv zeta. rewrite animate_snd, updatePhysics_snd.
  set (dT := currentTime - lastTimeRef s).
  set (s0 := snd (setLastTime currentTime s)).
  destruct (StoreFacts.commandThrust_store st (dT / #100) s0)
    as [C1 [C2 [C3 [C4 [C5 [C6 [C7 C8]]]]]]].
  destruct (StoreFacts.calculateDisturbances_store (disturbanceConfig st) dT
              (snd (commandThrust st (dT / #100) s0)))
    as [D1 [D2 [D3 [D4 [D5 D6]]]]].
  rewrite calculateDisturbances_windStateRef.
  rewrite D1, D2, D3, D4, D5, C1, C2, C3, C6, C7, C8.
  repeat split;
    match goal with
    | E : PIDConfig.enabled _ = false |- _ => rewrite (C5 E); reflexivity
    end.
Qed.

End Generic.
End AnimateFacts.

Module FramesFacts.
Import Types StateMonad Drone DroneLoop.

Lemma frames_cons {num : Type} {N : Number num} {T : Trig num}
    (t : num) (ts : list num) (st : ReactState num) (s : Store num) :
  frames (t :: ts) st s =
  frames ts (fst (animate st t s)) (snd (animate st t s)).
Proof.
  cbn [frames]. unfold bind. destruct (animate st t s) as [st' s'].
  reflexivity.
Qed.

(** Equal after [reset]: equal gains and bounds. *)
Lemma reset_eq_configuration {num : Type} {N : Number num}
    (c c' : PID.PIDController num) :
  PID.reset c' = PID.reset c ->
  PID.kp c' = PID.kp c /\ PID.ki c' = PID.ki c /\ PID.kd c' = PID.kd c /\
  PID.outputMin c' = PID.outputMin c /\ PID.outputMax c' = PID.outputMax c.
Proof.
  intros H.
  pose proof (f_equal PID.kp H) as H1. pose proof (f_equal PID.ki H) as H2.
  pose proof (f_equal PID.kd H) as H3.
  pose proof (f_equal PID.outputMin H) as H4.
  pose proof (f_equal PID.outputMax H) as H5.
  cbn in *. auto.
Qed.

Lemma frames_store {num : Type} {N : Number num} {T : Trig num}
    (times : list num) (st : ReactState num) (s : Store num) :
  let s' := snd (frames times st s) in
  random s' = random s /\
  PID.reset (attitudePIDRef s') = PID.reset (attitudePIDRef s) /\
  PID.reset (horizontalPositionPIDRef s') =
    PID.reset (horizontalPositionPIDRef s) /\
  PID.reset (verticalPositionPIDRef s') =
    PID.reset (verticalPositionPIDRef s) /\
  (PIDConfig.enabled (pidConfig st) = false ->
   attitudePIDRef s' = attitudePIDRef s /\
   horizontalPositionPIDRef s' = horizontalPositionPIDRef s /\
   verticalPositionPIDRef s' = verticalPositionPIDRef s).
Proof.
  revert st s. induction times as [| t ts IH]; intros st s.
  - cbn. repeat split.
  - cbv zeta. rewrite frames_cons.
    destruct (IH (fst (animate st t s)) (snd (animate st t s)))
      as [I1 [I2 [I3 [I4 I5]]]].
    destruct (AnimateFacts.animate_store st t s)
      as [_ [A2 [_ [A4 [A5 [A6 A7]]]]]].
    destruct (AnimateFacts.animate_fst st t s) as [_ [_ [_ A8]]].
    rewrite I1, I2, I3, I4, A2, A4, A5, A6.
    repeat split;
      match goal with
      | E : PIDConfig.enabled _ = false |- _ =>
          rewrite <- A8 in E; destruct (I5 E) as [J1 [J2 J3]];
          rewrite A8 in E; destruct (A7 E) as [K1 [K2 K3]];
          congruence
      end.
Qed.

End FramesFacts.

(** X14. Over any sequence of animation frames of [DorneSim.tsx] the
    gains and the output bounds of the three controllers stay as they
    are, and so does the sequence of values behind [Math.random]; and
    while the PID system is disabled the frames leave the controllers
    untouched, integral and last error included (for any arithmetic of
    the numbers). *)
Theorem frames_keep_controllers_configured :
  forall (num : Type) (N : Number num) (T : Trig num)
         (times : list num) (st : Drone.ReactState num) (s : Drone.Store num),
    let s' := snd (DroneLoop.frames times st s) in
    let same := fun c c' : PID.PIDController num =>
      PID.kp c' = PID.kp c /\ PID.ki c' = PID.ki c /\ PID.kd c' = PID.kd c /\
      PID.outputMin c' = PID.outputMin c /\
      PID.outputMax c' = PID.outputMax c in
    same (Drone.attitudePIDRef s) (Drone.attitudePIDRef s') /\
    same (Drone.horizontalPositionPIDRef s)
         (Drone.horizontalPositionPIDRef s') /\
    same (Drone.verticalPositionPIDRef s) (Drone.verticalPositionPIDRef s') /\
    Drone.random s' = Drone.random s /\
    (PIDConfig.enabled (Drone.pidConfig st) = false ->
     Drone.attitudePIDRef s' = Drone.attitudePIDRef s /\
     Drone.horizontalPositionPIDRef s' = Drone.horizontalPositionPIDRef s /\
     Drone.verticalPositionPIDRef s' = Drone.verticalPositionPIDRef s).
Proof.
  intros num N T times st s s' same.
  destruct (FramesFacts.frames_store times st s) as [H1 [H2 [H3 [H4 H5]]]].
  fold s' in H1, H2, H3, H4, H5. subst same. cbv beta.
  refine (conj _ (conj _ (conj _ (conj H1 H5)))).
  - apply FramesFacts.reset_eq_configuration. exact H2.
  - apply FramesFacts.reset_eq_configuration. exact H3.
  - apply FramesFacts.reset_eq_configuration. exact H4.
Qed.

(** The controllers after two frames under manual control. *)
Lemma frames_manual_witness :
  let manual := PIDConfig.make false
                  (PIDConfig.mkGains 8 0.5 0)%R
                  (PIDConfig.mkPositionGains
                     (PIDConfig.mkGains 1 0.05 0)%R
                     (PIDConfig.mkGains 1.5 0.05 0)%R) in
  let st := Drone.mkReactState
              (Types.mkPhysicsState (Types.mkPosition 100 150)%R
                                    (Types.mkPosition 0 0)%R 0%R 0%R)
              4.9%R 4.9%R Drone.DEFAULT_DISTURBANCE_CONFIG manual in
  let s := Drone.initialStore 0%R (fun _ => 0.5%R) in
  Drone.attitudePIDRef (snd (DroneLoop.frames [16; 32]%R st s)) =
  Drone.attitudePIDRef s.
Proof.
  intros manual st s.
  exact (proj1 (proj2 (proj2 (proj2 (proj2
    (frames_keep_controllers_configured R RNumber RTrig [16; 32]%R st s))))
    eq_refl)).
Defined.

Module ClockFacts.
Import Types StateMonad Drone DroneLoop.

Open Scope R_scope.

Lemma last_cons (t d : R) (ts : list R) : last (t :: ts) d = last ts t.
Proof.
  revert t d. induction ts as [| u us IH]; intros t d; [reflexivity |].
  change (last (t :: u :: us) d) with (last (u :: us) d).
  rewrite (IH u d), (IH u t). reflexivity.
Qed.

Lemma frames_clock (times : list R) (st : ReactState R) (s : Store R) :
  WindDisturbance.enabled (DisturbanceConfig.wind (disturbanceConfig st))
    = true ->
  let s' := snd (frames times st s) in
  lastTimeRef s' = last times (lastTimeRef s) /\
  time (windStateRef s') =
    time (windStateRef s) + (last times (lastTimeRef s) - lastTimeRef s).
Proof.
  revert st s. induction times as [| t ts IH]; intros st s Hw.
  - cbn. split; [reflexivity | lra].
  - cbv zeta. rewrite FramesFacts.frames_cons, last_cons.
    destruct (AnimateFacts.animate_store st t s) as [A1 [_ [A3 _]]].
    destruct (AnimateFacts.animate_fst st t s) as [_ [_ [A8 _]]].
    rewrite Hw in A3.
    assert (Hw' : WindDisturbance.enabled
                    (DisturbanceConfig.wind
                       (disturbanceConfig (fst (animate st t s)))) = true)
      by (rewrite A8; exact Hw).
    destruct (IH _ (snd (animate st t s)) Hw') as [I1 I2].
    rewrite I1, I2, A1, A3. cbn [time].
    split; [reflexivity |].
    RealFacts.at_R. lra.
Qed.

End ClockFacts.

(** X15. With the wind enabled, over any sequence of animation frames the
    wind clock advances by the time elapsed between the clock reading
    stored before the first frame and the reading of the last frame,
    whatever the readings in between; and [lastTimeRef] holds the last
    reading. *)
Theorem wind_clock_follows_the_clock :
  forall (times : list R) (st : Drone.ReactState R) (s : Drone.Store R),
    WindDisturbance.enabled
      (DisturbanceConfig.wind (Drone.disturbanceConfig st)) = true ->
    let s' := snd (DroneLoop.frames times st s) in
    let latest := last times (Drone.lastTimeRef s) in
    Drone.lastTimeRef s' = latest /\
    Drone.time (Drone.windStateRef s') =
      (Drone.time (Drone.windStateRef s) + (latest - Drone.lastTimeRef s))%R.
Proof.
  intros times st s Hw. exact (ClockFacts.frames_clock times st s Hw).
Qed.

(** Three frames, at 16, 33 and 50 ms after the component was mounted. *)
Lemma wind_clock_frames_witness :
  let s := Drone.initialStore 1000%R (fun _ => 0.5%R) in
  Drone.time (Drone.windStateRef
                (snd (DroneLoop.frames [1016; 1033; 1050]%R
                        Drone.initialState s))) =
  (Drone.time (Drone.windStateRef s) + (1050 - 1000))%R.
Proof.
  intros s.
  exact (proj2 (wind_clock_follows_the_clock [1016; 1033; 1050]%R
                  Drone.initialState s eq_refl)).
Defined.

Module ThrustFacts.
Import Types StateMonad Drone.

Open Scope R_scope.

Lemma output_in_bounds (c : PID.PIDController R) (setpoint measured dt : R) :
  PID.outputMin c <= PID.outputMax c ->
  PID.outputMin c <= fst (PID.update c setpoint measured dt)
    <= PID.outputMax c.
Proof.
  intros H. rewrite PIDFacts.update_output_R.
  apply RealFacts.clamp_range. exact H.
Qed.

(** The thrusts the cascade commands, from the outputs of the vertical
    and of the attitude controller. *)
Lemma commandThrust_enabled (st : ReactState R) (dt : R) (s : Store R) :
  PIDConfig.enabled (pidConfig st) = true ->
  exists v a : R,
    (PID.outputMin (verticalPositionPIDRef s) <=
       PID.outputMax (verticalPositionPIDRef s) ->
     PID.outputMin (verticalPositionPIDRef s) <= v <=
       PID.outputMax (verticalPositionPIDRef s)) /\
    (PID.outputMin (attitudePIDRef s) <= PID.outputMax (attitudePIDRef s) ->
     PID.outputMin (attitudePIDRef s) <= a <=
       PID.outputMax (attitudePIDRef s)) /\
    fst (commandThrust st dt s) =
      (Rmin (Rmax (4.9 + v + a) 0) 100, Rmin (Rmax (4.9 + v - a) 0) 100).
Proof.
  intros E. unfold commandThrust. rewrite E. DroneFacts.run_monad.
  destruct s as [lt ws a h v rnd k].
  cbn [verticalPositionPIDRef horizontalPositionPIDRef attitudePIDRef].
  match goal with
  | |- context [PID.update v ?x ?y ?z] =>
      pose proof (output_in_bounds v x y z) as Hv;
      destruct (PID.update v x y z) as [vo v']
  end.
  cbn [verticalPositionPIDRef horizontalPositionPIDRef attitudePIDRef
       fst snd] in *.
  match goal with
  | |- context [PID.update h ?x ?y ?z] =>
      destruct (PID.update h x y z) as [ho h']
  end.
  cbn [verticalPositionPIDRef horizontalPositionPIDRef attitudePIDRef
       fst snd] in *.
  match goal with
  | |- context [PID.update a ?x ?y ?z] =>
      pose proof (output_in_bounds a x y z) as Ha;
      destruct (PID.update a x y z) as [ao a']
  end.
  cbn [fst snd] in *.
  exists vo, ao. split; [exact Hv | split; [exact Ha |]].
  RealFacts.at_R. f_equal; f_equal; f_equal; lra.
Qed.

End ThrustFacts.



Module NoiseFacts.

Open Scope R_scope.

(** A value of [Math.random], centred and doubled, scales an amplitude
    to within that amplitude. *)
Lemma centred_draw (u m : R) :
  0 <= u < 1 -> 0 <= m -> - m <= (u - 0.5) * 2 * m <= m.
Proof. intros Hu Hm. split; nra. Qed.

Lemma gust_bounded (g phase : R) : Rabs (g * sin phase) <= Rabs g.
Proof.
  rewrite Rabs_mult.
  assert (H : Rabs (sin phase) <= 1).
  { apply Rabs_le. pose proof (SIN_bound phase). lra. }
  pose proof (Rabs_pos g). nra.
Qed.

Lemma abs_le_bounds (a b : R) : Rabs a <= b -> - b <= a <= b.
Proof.
  intros H. pose proof (Rle_abs a) as H1. pose proof (Rle_abs (- a)) as H2.
  rewrite Rabs_Ropp in H2. lra.
Qed.

End NoiseFacts.

(** X17. When [Math.random] returns values of [0, 1) and the turbulence
    intensity and the noise magnitude are not negative: with the wind
    enabled the wind force differs from the base speed by at most
    |gustMagnitude| + turbulenceIntensity; and both thrust noise factors
    lie between 1 - magnitude and 1 + magnitude, whether the thrust noise
    is enabled or not. *)
Theorem disturbances_are_bounded :
  forall (cfg : DisturbanceConfig.t R) (deltaTime : R) (s : Drone.Store R),
    let wind := DisturbanceConfig.wind cfg in
    let thrust := DisturbanceConfig.thrust cfg in
    (forall i : nat, (0 <= Drone.random s i < 1)%R) ->
    (0 <= WindDisturbance.turbulenceIntensity wind)%R ->
    (0 <= ThrustNoise.magnitude thrust)%R ->
    let d := fst (Drone.calculateDisturbances cfg deltaTime s) in
    (WindDisturbance.enabled wind = true ->
     (Rabs (Drone.windForce d - WindDisturbance.baseSpeed wind) <=
      Rabs (WindDisturbance.gustMagnitude wind) +
      WindDisturbance.turbulenceIntensity wind)%R) /\
    (1 - ThrustNoise.magnitude thrust <= Drone.left (Drone.thrustNoise d)
       <= 1 + ThrustNoise.magnitude thrust)%R /\
    (1 - ThrustNoise.magnitude thrust <= Drone.right (Drone.thrustNoise d)
       <= 1 + ThrustNoise.magnitude thrust)%R.
Proof.
  intros cfg deltaTime s wind thrust Hu Hti Hm d.
  split.
  - intros Hw.
    destruct (DroneFacts.calculateDisturbances_wind_on cfg deltaTime s Hw)
      as [_ Hf].
    subst d. rewrite Hf. fold wind.
    set (g := (WindDisturbance.gustMagnitude wind * sin _)%R).
    pose proof (NoiseFacts.centred_draw (Drone.random s (Drone.drawn s)) _
                  (Hu _) Hti) as Ht.
    pose proof (NoiseFacts.gust_bounded
                  (WindDisturbance.gustMagnitude wind)
                  (2 * PI * WindDisturbance.gustFrequency wind *
                   (Drone.time (Drone.windStateRef s) + deltaTime))%R) as Hg.
    fold g in Hg.
    apply Rabs_le. apply NoiseFacts.abs_le_bounds in Hg. lra.
  - destruct (ThrustNoise.enabled thrust) eqn:Et.
    + destruct (DroneFacts.calculateDisturbances_noise_on cfg deltaTime s Et)
        as [Hl Hr].
      subst d. rewrite Hl, Hr. fold thrust.
      pose proof (NoiseFacts.centred_draw _ _ (Hu
        (if WindDisturbance.enabled (DisturbanceConfig.wind cfg)
         then S (Drone.drawn s) else Drone.drawn s)) Hm).
      pose proof (NoiseFacts.centred_draw _ _ (Hu
        (S (if WindDisturbance.enabled (DisturbanceConfig.wind cfg)
            then S (Drone.drawn s) else Drone.drawn s))) Hm).
      split; lra.
    + destruct (DroneFacts.calculateDisturbances_noise_off cfg deltaTime s Et)
        as [Hl Hr].
      subst d. rewrite Hl, Hr. split; lra.
Qed.

(** The wind of the commented-out defaults (base speed 0.5, gusts of 1 at
    0.2, turbulence 0.1) with thrust noise 0.1. *)
Lemma disturbances_witness :
  let cfg := DisturbanceConfig.make
               (WindDisturbance.make true 0.5 0.2 1 0.1)%R
               (ThrustNoise.make true 0.1 10)%R in
  let s := Drone.initialStore 0%R (fun _ => 0.5%R) in
  let d := fst (Drone.calculateDisturbances cfg 16%R s) in
  (Rabs (Drone.windForce d - 0.5) <= Rabs 1 + 0.1)%R.
Proof.
  intros cfg s.
  assert (Hu : forall i : nat, (0 <= Drone.random s i < 1)%R)
    by (intros i; cbn; lra).
  assert (Hti : (0 <= WindDisturbance.turbulenceIntensity
                        (DisturbanceConfig.wind cfg))%R) by (cbn; lra).
  assert (Hm : (0 <= ThrustNoise.magnitude (DisturbanceConfig.thrust cfg))%R)
    by (cbn; lra).
  exact (proj1 (disturbances_are_bounded cfg 16%R s Hu Hti Hm) eq_refl).
Defined.

Module WallCases.
Import RealFacts Wall.

Open Scope R_scope.

(** A new position strictly between the bounds, or exactly on one. *)
Lemma axis_inside (p v lo hi : R) :
  lo < p < hi -> finalPosition p lo hi = p /\ finalVelocity p v lo hi = v.
Proof.
  intros H. assert (Hle : lo <= hi) by lra.
  exact (proj2 (proj2 (proj2 (WallFacts.axis p v lo hi Hle))) H).
Qed.

Lemma axis_on_bound (p v lo hi : R) :
  lo <= hi -> p = lo \/ p = hi ->
  finalPosition p lo hi = p /\ finalVelocity p v lo hi = 0.
Proof.
  intros Hle Hp.
  assert (Hf : finalPosition p lo hi = p).
  { unfold finalPosition. apply clamp_inside. destruct Hp; lra. }
  split; [exact Hf |]. unfold finalVelocity. rewrite Hf.
  destruct Hp as [-> | ->].
  - rewrite (proj2 (eqb_true lo lo) eq_refl). reflexivity.
  - rewrite (proj2 (eqb_true hi hi) eq_refl), orb_true_r. reflexivity.
Qed.

End WallCases.

(** X18. The walls of the drone, in both simulators: a new position
    strictly inside the bounds of an axis is set as it is, with its new
    velocity; a new position exactly on a bound is set as it is, but the
    velocity set on that axis is 0; and the rotation and the angular
    velocity are the integrated ones, whatever the position. *)
Theorem walls_inside_and_on_the_bound :
  forall (m : Drone.Motion R) (m0 : DroneSimu.Motion R),
    let axis := fun (lo hi new v final v' : R) =>
      ((lo < new < hi)%R -> final = new /\ v' = v) /\
      (new = lo \/ new = hi -> final = new /\ v' = 0%R) in
    let p := Drone.boundary m in
    let p0 := DroneSimu.boundary m0 in
    (axis 10%R 590%R (Drone.newPositionX m) (Drone.newVelocityX m)
          (Types.x (Types.position p)) (Types.x (Types.velocity p)) /\
     axis 10%R 290%R (Drone.newPositionY m) (Drone.newVelocityY m)
          (Types.y (Types.position p)) (Types.y (Types.velocity p)) /\
     Types.rotation p = Drone.newRotation m /\
     Types.angularVelocity p = Drone.newAngularVelocity m) /\
    (axis 10%R 590%R (DroneSimu.newPositionX m0) (DroneSimu.newVelocityX m0)
          (Types.x (Types.position p0)) (Types.x (Types.velocity p0)) /\
     axis 10%R 290%R (DroneSimu.newPositionY m0) (DroneSimu.newVelocityY m0)
          (Types.y (Types.position p0)) (Types.y (Types.velocity p0)) /\
     Types.rotation p0 = DroneSimu.newRotation m0 /\
     Types.angularVelocity p0 = DroneSimu.newAngularVelocity m0).
Proof.
  intros m m0 axis p p0. subst p p0 axis. cbv beta.
  rewrite DroneWalls.boundary_R, DroneWalls.simu_boundary_R.
  cbn [Types.x Types.y Types.position Types.velocity Types.rotation
       Types.angularVelocity].
  repeat match goal with
         | |- _ /\ _ => split
         end;
    try reflexivity;
    try (apply WallCases.axis_inside);
    try (apply WallCases.axis_on_bound; lra).
Qed.

(** A drone arriving exactly on the right wall at velocity 3, and one in
    the middle of the field. *)
Lemma walls_witness :
  (Types.x (Types.velocity
     (DroneSimu.boundary
        (DroneSimu.mkMotion 0 0 3 0 590 150)%R)) = 0%R) /\
  (Types.x (Types.velocity
     (DroneSimu.boundary
        (DroneSimu.mkMotion 0 0 3 0 300 150)%R)) = 3%R).
Proof.
  split.
  - refine (proj2 (proj2 (proj1 (proj2
      (walls_inside_and_on_the_bound
         (Drone.mkMotion 0 0 0 0 0 0)%R
         (DroneSimu.mkMotion 0 0 3 0 590 150)%R))) _)).
    right. reflexivity.
  - refine (proj2 (proj1 (proj1 (proj2
      (walls_inside_and_on_the_bound
         (Drone.mkMotion 0 0 0 0 0 0)%R
         (DroneSimu.mkMotion 0 0 3 0 300 150)%R))) _)).
    cbn. lra.
Defined.

Module SimuFacts.
Import Types RealFacts.

Open Scope R_scope.

(** The motion of the plain simulator at [R], constants evaluated. *)
Lemma motion_R (st : DroneSimu.ReactState R) (deltaTime : R) :
  let ps := DroneSimu.physicsState st in
  let l := DroneSimu.leftThrust st in
  let r := DroneSimu.rightThrust st in
  let dt := deltaTime / 100 in
  let w' := angularVelocity ps +
            ((r - l) * 0.4 - 0.5 * angularVelocity ps) / 0.1 * dt in
  let vy' := y (velocity ps) +
             ((l + r) * cos (rotation ps) - 9.8 -
              0.1 * y (velocity ps) * Rabs (y (velocity ps))) * dt in
  let vx' := x (velocity ps) +
             ((l + r) * sin (rotation ps) -
              0.1 * x (velocity ps) * Rabs (x (velocity ps))) * dt in
  DroneSimu.motion st deltaTime =
  DroneSimu.mkMotion w' (rotation ps + w' * dt) vx' vy'
                     (x (position ps) + vx' * dt)
                     (y (position ps) - vy' * dt).
Proof.
  cbv zeta. unfold DroneSimu.motion, DroneSimu.PHYSICS_PARAMS.
  cbn [DroneSimu.GRAVITY DroneSimu.MASS DroneSimu.MOMENT_OF_INERTIA
       DroneSimu.DRAG_COEFFICIENT DroneSimu.ANGULAR_DRAG_COEFFICIENT
       DroneSimu.THRUST_DISTANCE].
  at_R. f_equal; field.
Qed.

End SimuFacts.

(** X19. Hover equilibrium of the plain simulator: level and at rest
    strictly inside the walls, with both rotors at 4.9 (together the
    weight 9.8), a frame of any length sets the state it started
    from. *)
Theorem hover_is_an_equilibrium :
  forall px py deltaTime : R,
    (10 < px < 590)%R ->
    (10 < py < 290)%R ->
    let ps := (Types.mkPhysicsState (Types.mkPosition px py)
                 (Types.mkPosition 0 0) 0 0)%R in
    DroneSimu.updatePhysics (DroneSimu.mkReactState ps 4.9%R 4.9%R) deltaTime
    = ps.
Proof.
  intros px py deltaTime Hx Hy ps.
  unfold DroneSimu.updatePhysics.
  rewrite SimuFacts.motion_R, DroneWalls.simu_boundary_R.
  cbn [DroneSimu.physicsState DroneSimu.leftThrust DroneSimu.rightThrust
       DroneSimu.newPositionX DroneSimu.newPositionY DroneSimu.newVelocityX
       DroneSimu.newVelocityY DroneSimu.newRotation
       DroneSimu.newAngularVelocity].
  subst ps.
  cbn [Types.position Types.velocity Types.rotation Types.angularVelocity
       Types.x Types.y].
  rewrite sin_0, cos_0, Rabs_R0.
  assert (E3 : (0 + ((4.9 - 4.9) * 0.4 - 0.5 * 0) / 0.1 * (deltaTime / 100)
                = 0)%R) by lra.
  replace (0 + ((4.9 + 4.9) * 0 - 0.1 * 0 * 0) * (deltaTime / 100))%R
    with 0%R by lra.
  replace (0 + ((4.9 + 4.9) * 1 - 9.8 - 0.1 * 0 * 0) * (deltaTime / 100))%R
    with 0%R by lra.
  rewrite E3.
  replace (px + 0 * (deltaTime / 100))%R with px by lra.
  replace (py - 0 * (deltaTime / 100))%R with py by lra.
  replace (0 + 0 * (deltaTime / 100))%R with 0%R by lra.
  destruct (WallCases.axis_inside px 0 10 590 Hx) as [Px Vx].
  destruct (WallCases.axis_inside py 0 10 290 Hy) as [Py Vy].
  rewrite Px, Py, Vx, Vy. reflexivity.
Qed.

(** The initial state of the plain simulator, after a frame of 16 ms. *)
Lemma hover_witness :
  DroneSimu.updatePhysics
    (DroneSimu.mkReactState
       (Types.mkPhysicsState (Types.mkPosition 150 150)
          (Types.mkPosition 0 0) 0 0)%R 4.9%R 4.9%R) 16%R =
  (Types.mkPhysicsState (Types.mkPosition 150 150)
     (Types.mkPosition 0 0) 0 0)%R.
Proof.
  assert (Hx : (10 < 150 < 590)%R) by lra.
  assert (Hy : (10 < 150 < 290)%R) by lra.
  exact (hover_is_an_equilibrium 150%R 150%R 16%R Hx Hy).
Defined.

(** X20. How the plain simulator responds over a frame of positive
    length.  With no vertical velocity, a thrust whose vertical part
    (left + right) cos(rotation) is below the weight 9.8 makes the drone
    sink (its y, measured downwards, grows), and one above the weight
    makes it rise.  With no angular velocity, a stronger right rotor
    turns the drone one way and a stronger left rotor the other, and
    equal rotors leave the rotation as it is. *)
Theorem drone_response_directions :
  forall (st : DroneSimu.ReactState R) (deltaTime : R),
    (0 < deltaTime)%R ->
    let ps := DroneSimu.physicsState st in
    let l := DroneSimu.leftThrust st in
    let r := DroneSimu.rightThrust st in
    let m := DroneSimu.motion st deltaTime in
    (Types.y (Types.velocity ps) = 0%R ->
     (((l + r) * cos (Types.rotation ps) < 9.8)%R ->
      (DroneSimu.newVelocityY m < 0)%R /\
      (Types.y (Types.position ps) < DroneSimu.newPositionY m)%R) /\
     (((l + r) * cos (Types.rotation ps) > 9.8)%R ->
      (0 < DroneSimu.newVelocityY m)%R /\
      (DroneSimu.newPositionY m < Types.y (Types.position ps))%R)) /\
    (Types.angularVelocity ps = 0%R ->
     ((l < r)%R ->
      (0 < DroneSimu.newAngularVelocity m)%R /\
      (Types.rotation ps < DroneSimu.newRotation m)%R) /\
     ((r < l)%R ->
      (DroneSimu.newAngularVelocity m < 0)%R /\
      (DroneSimu.newRotation m < Types.rotation ps)%R) /\
     (l = r ->
      DroneSimu.newAngularVelocity m = 0%R /\
      DroneSimu.newRotation m = Types.rotation ps)).
Proof.
  intros st deltaTime Hdt ps l r m. subst m.
  rewrite SimuFacts.motion_R.
  cbn [DroneSimu.newVelocityY DroneSimu.newPositionY
       DroneSimu.newAngularVelocity DroneSimu.newRotation].
  fold ps l r.
  assert (Hd : (0 < deltaTime / 100)%R) by lra.
  set (dt := (deltaTime / 100)%R) in *.
  split.
  - intros Hv. rewrite Hv, Rabs_R0.
    set (a := ((l + r) * cos (Types.rotation ps))%R).
    replace (0 + (a - 9.8 - 0.1 * 0 * 0) * dt)%R with ((a - 9.8) * dt)%R
      by ring.
    set (k := (a - 9.8)%R).
    split; intros Ha.
    + assert (Hk : (k < 0)%R) by (unfold k; lra).
      assert (Hkd : (k * dt < 0)%R) by nra.
      split; nra.
    + assert (Hk : (0 < k)%R) by (unfold k; lra).
      assert (Hkd : (0 < k * dt)%R) by nra.
      split; nra.
  - intros Hw. rewrite Hw.
    assert (E : (0 + ((r - l) * 0.4 - 0.5 * 0) / 0.1 * dt =
                 4 * (r - l) * dt)%R) by (RealFacts.at_R; field).
    rewrite E.
    set (k := (r - l)%R).
    split; [| split]; intros Hlr.
    + assert (Hk : (0 < k)%R) by (unfold k; lra).
      assert (Hkd : (0 < k * dt)%R) by nra.
      split; nra.
    + assert (Hk : (k < 0)%R) by (unfold k; lra).
      assert (Hkd : (k * dt < 0)%R) by nra.
      split; nra.
    + assert (Hk : k = 0%R) by (unfold k; lra).
      rewrite Hk. split; lra.
Qed.

(** Both rotors at 4 (below the hover thrust 4.9), then the right rotor
    alone at 10, from the initial state over 16 ms. *)
Lemma drone_response_witness :
  let ps := (Types.mkPhysicsState (Types.mkPosition 150 150)
               (Types.mkPosition 0 0) 0 0)%R in
  (DroneSimu.newVelocityY
     (DroneSimu.motion (DroneSimu.mkReactState ps 4%R 4%R) 16%R) < 0)%R /\
  (0 < DroneSimu.newAngularVelocity
         (DroneSimu.motion (DroneSimu.mkReactState ps 0%R 10%R) 16%R))%R.
Proof.
  intros ps.
  assert (Hdt : (0 < 16)%R) by lra.
  split.
  - refine (proj1 (proj1 (proj1
      (drone_response_directions (DroneSimu.mkReactState ps 4%R 4%R) 16%R Hdt)
      eq_refl) _)).
    cbn. rewrite cos_0. lra.
  - refine (proj1 (proj1 (proj2
      (drone_response_directions (DroneSimu.mkReactState ps 0%R 10%R) 16%R
         Hdt) eq_refl) _)).
    cbn. lra.
Defined.

Module EffectFacts.
Import Types StateMonad Drone.

Section Generic.

Context {num : Type} {N : Number num} {T : Trig num}.

(** The store after the effect that resets the controllers. *)
Lemma resetControllers_store (cfg : PIDConfig.t num) (s : Store num) :
  snd (resetControllers cfg s) =
  if PIDConfig.enabled cfg then s
  else mkStore (lastTimeRef s) (windStateRef s)
         (PID.reset (attitudePIDRef s))
         (PID.reset (horizontalPositionPIDRef s))
         (PID.reset (verticalPositionPIDRef s))
         (random s) (drawn s).
Proof.
  unfold resetControllers. destruct (PIDConfig.enabled cfg); reflexivity.
Qed.

(** The store after the effect that pushes the gains. *)
Lemma updateGains_store (cfg : PIDConfig.t num) (s : Store num) :
  let a := PIDConfig.attitude cfg in
  let h := PIDConfig.horizontal (PIDConfig.position cfg) in
  let v := PIDConfig.vertical (PIDConfig.position cfg) in
  snd (updateGains cfg s) =
  mkStore (lastTimeRef s) (windStateRef s)
    (PID.setGains (attitudePIDRef s)
       (PIDConfig.kp a) (PIDConfig.ki a) (PIDConfig.kd a))
    (PID.setGains (horizontalPositionPIDRef s)
       (PIDConfig.kp h) (PIDConfig.ki h) (PIDConfig.kd h))
    (PID.setGains (verticalPositionPIDRef s)
       (PIDConfig.kp v) (PIDConfig.ki v) (PIDConfig.kd v))
    (random s) (drawn s).
Proof. reflexivity. Qed.

End Generic.
End EffectFacts.

Module ToggleFacts.
Import Types StateMonad Drone DroneLoop.

Section Generic.

Context {num : Type} {N : Number num} {T : Trig num}.
Open Scope num_scope.

(** The controllers after [commandThrust] under an enabled
    configuration: each has been updated once, the attitude controller
    towards the rotation the horizontal controller asks for. *)
Lemma commandThrust_updates (st : ReactState num) (dt : num) (s : Store num) :
  PIDConfig.enabled (pidConfig st) = true ->
  let ps := physicsState st in
  let s' := snd (commandThrust st dt s) in
  let v := PID.update (verticalPositionPIDRef s) #150 (y (position ps)) dt in
  let h := PID.update (horizontalPositionPIDRef s) #300 (x (position ps)) dt in
  let a := PID.update (attitudePIDRef s) (- fst h) (rotation ps) dt in
  verticalPositionPIDRef s' = snd v /\
  horizontalPositionPIDRef s' = snd h /\
  attitudePIDRef s' = snd a.
Proof.
  intros E. cbv zeta. unfold commandThrust. rewrite E.
  repeat split.
Qed.

(** The store in which the frame after the click runs, and the
    configuration of the frames after it. *)
Lemma togglePID_run (st : ReactState num) (currentTime : num)
    (s : Store num) :
  let pidConfig' :=
    PIDConfig.make (negb (PIDConfig.enabled (pidConfig st)))
      (PIDConfig.attitude (pidConfig st))
      (PIDConfig.position (pidConfig st)) in
  let s0 := snd (resetControllers pidConfig' (snd (updateGains pidConfig' s))) in
  snd (togglePID st currentTime s) = snd (animate st currentTime s0) /\
  pidConfig (fst (togglePID st currentTime s)) = pidConfig'.
Proof.
  cbv zeta. unfold togglePID, bind, ret.
  destruct (updateGains _ s) as [[] s1]. cbn [snd].
  destruct (resetControllers _ s1) as [[] s0]. cbn [snd].
  destruct (animate st currentTime s0) as [st' s']. split; reflexivity.
Qed.

End Generic.
End ToggleFacts.

(** X21. Switching the PID system of the drone off does not leave its
    controllers reset.  The click runs the effect that resets them, but
    the frame that is already requested still reads the configuration
    before the click (the animation effect does not depend on
    [pidConfig]) and updates the three controllers once more, from their
    reset state; the frames after it read the disabled configuration and
    leave the controllers as that frame left them.  However long the
    drone is then flown by hand, the vertical and the horizontal
    controller hold the position error at the click as their last
    error. *)
Theorem switching_off_keeps_one_more_update :
  forall (num : Type) (N : Number num) (T : Trig num)
         (st : Drone.ReactState num) (currentTime : num) (times : list num)
         (s : Drone.Store num),
    PIDConfig.enabled (Drone.pidConfig st) = true ->
    let ps := Drone.physicsState st in
    let cfg := Drone.pidConfig st in
    let dt := ndiv (nsub currentTime (Drone.lastTimeRef s)) (lit 100) in
    let fresh := fun (g : PIDConfig.Gains num) (c : PID.PIDController num) =>
      PID.reset (PID.setGains c (PIDConfig.kp g) (PIDConfig.ki g)
                   (PIDConfig.kd g)) in
    let v := PID.update
               (fresh (PIDConfig.vertical (PIDConfig.position cfg))
                      (Drone.verticalPositionPIDRef s))
               (lit 150) (Types.y (Types.position ps)) dt in
    let h := PID.update
               (fresh (PIDConfig.horizontal (PIDConfig.position cfg))
                      (Drone.horizontalPositionPIDRef s))
               (lit 300) (Types.x (Types.position ps)) dt in
    let a := PID.update
               (fresh (PIDConfig.attitude cfg) (Drone.attitudePIDRef s))
               (nneg (fst h)) (Types.rotation ps) dt in
    let st1 := fst (DroneLoop.togglePID st currentTime s) in
    let s1 := snd (DroneLoop.togglePID st currentTime s) in
    let s2 := snd (DroneLoop.frames times st1 s1) in
    PIDConfig.enabled (Drone.pidConfig st1) = false /\
    (Drone.verticalPositionPIDRef s2 = snd v /\
     Drone.horizontalPositionPIDRef s2 = snd h /\
     Drone.attitudePIDRef s2 = snd a) /\
    (PID.prevError (Drone.verticalPositionPIDRef s2) =
       nsub (lit 150) (Types.y (Types.position ps)) /\
     PID.prevError (Drone.horizontalPositionPIDRef s2) =
       nsub (lit 300) (Types.x (Types.position ps))).
Proof.
  intros num N T st currentTime times s E ps cfg dt fresh v h a st1 s1 s2.
  destruct (ToggleFacts.togglePID_run st currentTime s) as [Hs Hc].
  fold s1 in Hs. fold st1 in Hc. rewrite E in Hs, Hc. cbn [negb] in Hs, Hc.
  assert (Hoff : PIDConfig.enabled (Drone.pidConfig st1) = false).
  { rewrite Hc. reflexivity. }
  destruct (FramesFacts.frames_store times st1 s1) as [_ [_ [_ [_ H]]]].
  destruct (H Hoff) as [Ha [Hh Hv]]. fold s2 in Ha, Hh, Hv.
  assert (Hall : Drone.verticalPositionPIDRef s2 = snd v /\
                 Drone.horizontalPositionPIDRef s2 = snd h /\
                 Drone.attitudePIDRef s2 = snd a).
  { rewrite Ha, Hh, Hv, Hs.
    rewrite AnimateFacts.animate_snd, AnimateFacts.updatePhysics_snd.
    match goal with
    | |- context [Drone.calculateDisturbances ?c ?d ?s0] =>
        destruct (StoreFacts.calculateDisturbances_store c d s0)
          as [_ [D2 [D3 [D4 _]]]]
    end.
    rewrite D2, D3, D4.
    match goal with
    | |- context [Drone.commandThrust st ?d ?s0] =>
        destruct (ToggleFacts.commandThrust_updates st d s0 E)
          as [C1 [C2 C3]]
    end.
    rewrite C1, C2, C3. repeat split. }
  refine (conj Hoff (conj Hall _)).
  destruct Hall as [H1 [H2 _]]. rewrite H1, H2. split; reflexivity.
Qed.

(** The component at start, switched off after 16 ms and flown by hand
    for two more frames: the horizontal controller still holds the
    error 300 - 100 of the frame after the click. *)
Lemma switching_off_witness :
  let st := Drone.initialState (num := R) in
  let s := Drone.initialStore 0%R (fun _ => 0.5%R) in
  let r := DroneLoop.togglePID st 16%R s in
  let s2 := snd (DroneLoop.frames [32; 48]%R (fst r) (snd r)) in
  PIDConfig.enabled (Drone.pidConfig st) = true /\
  PID.prevError (Drone.horizontalPositionPIDRef s2) = 200%R.
Proof.
  intros st s r s2. split; [reflexivity |].
  pose proof (proj2 (proj2 (proj2
    (switching_off_keeps_one_more_update R RNumber RTrig st 16%R
       [32; 48]%R s eq_refl)))) as H.
  cbv zeta in H. fold r in H. fold s2 in H. rewrite H.
  cbn. RealFacts.at_R. lra.
Defined.

(** X22. Tuning the drone's gains is live: the effect that pushes the
    configured gains into the three controllers leaves their integrals,
    last errors and output bounds as they are, and the gains it sets are
    still in place after any sequence of frames. *)
Theorem gains_are_tuned_live :
  forall (num : Type) (N : Number num) (T : Trig num)
         (cfg : PIDConfig.t num) (st : Drone.ReactState num)
         (times : list num) (s : Drone.Store num),
    let s1 := snd (Drone.updateGains cfg s) in
    let s2 := snd (DroneLoop.frames times st s1) in
    let kept := fun c c' : PID.PIDController num =>
      PID.integral c' = PID.integral c /\
      PID.prevError c' = PID.prevError c /\
      PID.outputMin c' = PID.outputMin c /\
      PID.outputMax c' = PID.outputMax c in
    let tuned := fun (g : PIDConfig.Gains num) (c : PID.PIDController num) =>
      PID.kp c = PIDConfig.kp g /\ PID.ki c = PIDConfig.ki g /\
      PID.kd c = PIDConfig.kd g in
    (kept (Drone.attitudePIDRef s) (Drone.attitudePIDRef s1) /\
     kept (Drone.horizontalPositionPIDRef s)
          (Drone.horizontalPositionPIDRef s1) /\
     kept (Drone.verticalPositionPIDRef s)
          (Drone.verticalPositionPIDRef s1)) /\
    (tuned (PIDConfig.attitude cfg) (Drone.attitudePIDRef s2) /\
     tuned (PIDConfig.horizontal (PIDConfig.position cfg))
           (Drone.horizontalPositionPIDRef s2) /\
     tuned (PIDConfig.vertical (PIDConfig.position cfg))
           (Drone.verticalPositionPIDRef s2)).
Proof.
  intros num N T cfg st times s s1 s2 kept tuned.
  subst kept tuned. cbv beta. split.
  - subst s1. rewrite EffectFacts.updateGains_store. cbn. repeat split.
  - destruct (FramesFacts.frames_store times st s1) as [_ [H2 [H3 [H4 _]]]].
    fold s2 in H2, H3, H4.
    apply FramesFacts.reset_eq_configuration in H2, H3, H4.
    destruct H2 as [A1 [A2 [A3 _]]]. destruct H3 as [B1 [B2 [B3 _]]].
    destruct H4 as [C1 [C2 [C3 _]]].
    rewrite A1, A2, A3, B1, B2, B3, C1, C2, C3.
    subst s1. rewrite EffectFacts.updateGains_store. cbn. repeat split.
Qed.

(** X23. How the cart-pole responds to the applied force within one
    tick: the force changes neither the new position nor the new angle
    (they advance with the velocities before the update); a larger force
    gives a larger new cart velocity; while the pole is above the
    horizontal (cos(theta) > 0) a larger force gives a smaller new
    angular velocity; and the pole-force term, added and subtracted,
    has no effect on the cart's acceleration. *)
Theorem cartpole_force_response :
  forall (s : CartPole.CartPoleState R) (F1 F2 : R),
    (F1 < F2)%R ->
    let s1 := CartPole.updatePhysics s F1 in
    let s2 := CartPole.updatePhysics s F2 in
    CartPole.x s1 = CartPole.x s2 /\
    CartPole.theta s1 = CartPole.theta s2 /\
    (CartPole.dx s1 < CartPole.dx s2)%R /\
    ((0 < cos (CartPole.theta s))%R ->
     (CartPole.dtheta s2 < CartPole.dtheta s1)%R) /\
    CartPole.dx s1 =
      (CartPole.dx s +
       (F1 + 0.05 * ((CartPole.dtheta s1 - CartPole.dtheta s) / 0.02) *
               cos (CartPole.theta s)) / 1.1 * 0.02)%R.
Proof.
  intros s F1 F2 HF s1 s2. subst s1 s2.
  rewrite !DynamicsFacts.updatePhysics_R.
  cbn [CartPole.x CartPole.theta CartPole.dx CartPole.dtheta].
  pose proof (CartPoleFacts.cos_sqr_le_1 (CartPole.theta s)) as Hc.
  pose proof (DynamicsFacts.denominator_pos (CartPole.theta s)) as Hd.
  unfold Accelerations.ddxR, Accelerations.ddthetaR.
  set (c := cos (CartPole.theta s)) in *.
  set (sn := sin (CartPole.theta s)) in *.
  set (w := CartPole.dtheta s) in *.
  remember (0.5 * (1.1 - 0.1 * c * c))%R as den eqn:Eden.
  assert (Hinv : (0 < / den)%R) by (apply Rinv_0_lt_compat; exact Hd).
  assert (Hcc : (0 <= c * c)%R) by nra.
  assert (Hone : (0.05 * c * c * / den < 1)%R).
  { apply Rmult_lt_reg_r with (r := den); [exact Hd |].
    rewrite Rmult_assoc, Rinv_l by lra. rewrite Eden. lra. }
  refine (conj eq_refl (conj eq_refl (conj _ (conj _ _)))).
  - unfold Rdiv.
    assert (E : forall F : R,
      ((F + 0.05 * w * w * sn +
        0.05 * ((9.81 * sn * 1.1 - (F + 0.05 * w * w * sn) * c) * / den) * c -
        0.05 * w * w * sn) * / 1.1 =
       (F * (1 - 0.05 * c * c * / den) +
        0.05 * (9.81 * sn * 1.1 - 0.05 * w * w * sn * c) * / den * c)
       * / 1.1)%R) by (intros F; ring).
    rewrite !E.
    assert (Hk : (0 < 1 - 0.05 * c * c * / den)%R) by lra.
    set (k := (1 - 0.05 * c * c * / den)%R) in *.
    assert (HkF : (F1 * k < F2 * k)%R) by nra.
    lra.
  - intros Hcos. unfold Rdiv.
    assert (E : forall F : R,
      ((9.81 * sn * 1.1 - (F + 0.05 * w * w * sn) * c) * / den =
       (9.81 * sn * 1.1 - 0.05 * w * w * sn * c) * / den - F * (c * / den))%R)
      by (intros F; ring).
    rewrite !E.
    assert (Hk : (0 < c * / den)%R) by nra.
    set (k := (c * / den)%R) in *.
    assert (HkF : (F1 * k < F2 * k)%R) by nra.
    lra.
  - field. lra.
Qed.

(** The initial state under no force and under the full force 15. *)
Lemma cartpole_force_witness :
  (CartPole.dx (CartPole.updatePhysics CartPole.initialState 0%R) <
   CartPole.dx (CartPole.updatePhysics CartPole.initialState 15%R))%R.
Proof.
  assert (HF : (0 < 15)%R) by lra.
  exact (proj1 (proj2 (proj2
    (cartpole_force_response CartPole.initialState 0%R 15%R HF)))).
Defined.

Module CascadeFacts.
Import Types StateMonad Drone.

Open Scope R_scope.

(** A controller without accumulated integral and without derivative
    gain answers with the sign of the error. *)
Lemma fresh_pi_sign (c : PID.PIDController R) (setpoint measured dt : R) :
  0 < PID.kp c -> 0 < PID.ki c -> PID.kd c = 0 -> PID.integral c = 0 ->
  PID.outputMin c < 0 < PID.outputMax c ->
  0 < dt ->
  let a := fst (PID.update c setpoint measured dt) in
  (measured < setpoint -> 0 < a) /\ (setpoint < measured -> a < 0).
Proof.
  intros Hkp Hki Hkd Hi Hb Hdt a. subst a.
  rewrite PIDFacts.update_output_R, PIDFacts.update_integral_R, Hkd, Hi.
  set (e := setpoint - measured).
  set (lo := (PID.outputMin c - PID.kp c * e) / PID.ki c).
  set (hi := (PID.outputMax c - PID.kp c * e) / PID.ki c).
  assert (Elo : PID.ki c * lo = PID.outputMin c - PID.kp c * e)
    by (unfold lo; field; lra).
  assert (Ehi : PID.ki c * hi = PID.outputMax c - PID.kp c * e)
    by (unfold hi; field; lra).
  assert (Hlh : lo <= hi).
  { unfold lo, hi, Rdiv. apply Rmult_le_compat_r; [| lra].
    left. apply Rinv_0_lt_compat. exact Hki. }
  pose proof (RealFacts.clamp_range (0 + e * dt) lo hi Hlh) as [Hl Hh].
  set (i2 := Rmin (Rmax (0 + e * dt) lo) hi) in *.
  assert (Hs : PID.outputMin c <= PID.kp c * e + PID.ki c * i2
                 <= PID.outputMax c) by nra.
  rewrite RealFacts.clamp_inside by lra.
  replace (PID.kp c * e + PID.ki c * i2 +
           0 * ((e - PID.prevError c) / dt))
    with (PID.kp c * e + PID.ki c * i2) by lra.
  split; intros He.
  - assert (Hpos : 0 < e) by (unfold e; lra).
    assert (Hed : 0 < e * dt) by nra.
    assert (Hkpe : 0 < PID.kp c * e) by nra.
    assert (Hcase : i2 = hi \/ 0 < i2).
    { subst i2. unfold Rmin, Rmax.
      destruct (Rle_dec (0 + e * dt) lo); destruct (Rle_dec _ hi);
        try (left; reflexivity); right; lra. }
    destruct Hcase as [H | H].
    + rewrite H, Ehi. lra.
    + assert (0 < PID.ki c * i2) by nra. lra.
  - assert (Hneg : e < 0) by (unfold e; lra).
    assert (Hed : e * dt < 0) by nra.
    assert (Hkpe : PID.kp c * e < 0) by nra.
    assert (Hcase : i2 = lo \/ i2 < 0).
    { subst i2. unfold Rmin, Rmax.
      destruct (Rle_dec (0 + e * dt) lo); destruct (Rle_dec _ hi);
        try (left; reflexivity); right; lra. }
    destruct Hcase as [H | H].
    + rewrite H, Elo. lra.
    + assert (PID.ki c * i2 < 0) by nra. lra.
Qed.

(** The cascade, with the setpoint it gives the attitude controller. *)
Lemma commandThrust_cascade (st : ReactState R) (dt : R) (s : Store R) :
  PIDConfig.enabled (pidConfig st) = true ->
  let ps := physicsState st in
  let target :=
    - fst (PID.update (horizontalPositionPIDRef s) 300 (x (position ps)) dt) in
  let a := PID.update (attitudePIDRef s) target (rotation ps) dt in
  let v := fst (PID.update (verticalPositionPIDRef s) 150
                  (y (position ps)) dt) in
  fst (commandThrust st dt s) =
    (Rmin (Rmax (4.9 + v + fst a) 0) 100,
     Rmin (Rmax (4.9 + v - fst a) 0) 100) /\
  attitudePIDRef (snd (commandThrust st dt s)) = snd a.
Proof.
  intros E. cbv zeta. unfold commandThrust. rewrite E.
  DroneFacts.run_monad.
  destruct s as [lt ws a h v rnd k].
  cbn [verticalPositionPIDRef horizontalPositionPIDRef attitudePIDRef].
  replace (@lit R RNumber 150) with 150 by (RealFacts.at_R; lra).
  replace (@lit R RNumber 300) with 300 by (RealFacts.at_R; lra).
  destruct (PID.update v 150 (y (position (physicsState st))) dt)
    as [vo v'].
  cbn [verticalPositionPIDRef horizontalPositionPIDRef attitudePIDRef
       fst snd].
  destruct (PID.update h 300 (x (position (physicsState st))) dt)
    as [ho h'].
  cbn [verticalPositionPIDRef horizontalPositionPIDRef attitudePIDRef
       fst snd].
  change (@nneg R RNumber ho) with (- ho).
  destruct (PID.update a (- ho) (rotation (physicsState st)) dt) as [ao a'].
  cbn [verticalPositionPIDRef horizontalPositionPIDRef attitudePIDRef
       fst snd].
  split; [| reflexivity].
  RealFacts.at_R. f_equal; f_equal; f_equal; lra.
Qed.

End CascadeFacts.

Module TurnFacts.
Import Types StateMonad Drone.

Open Scope R_scope.

(** Without thrust noise both factors are 1. *)
Lemma quiet_factors (cfg : DisturbanceConfig.t R) (deltaTime : R)
    (s : Store R) :
  ThrustNoise.enabled (DisturbanceConfig.thrust cfg) = false \/
  ThrustNoise.magnitude (DisturbanceConfig.thrust cfg) = 0 ->
  let d := fst (calculateDisturbances cfg deltaTime s) in
  left (thrustNoise d) = 1 /\ right (thrustNoise d) = 1.
Proof.
  intros H. cbv zeta.
  destruct (ThrustNoise.enabled (DisturbanceConfig.thrust cfg)) eqn:E.
  - destruct H as [H | H]; [discriminate |].
    destruct (DroneFacts.calculateDisturbances_noise_on cfg deltaTime s E)
      as [Hl Hr].
    rewrite Hl, Hr, H. split; lra.
  - exact (DroneFacts.calculateDisturbances_noise_off cfg deltaTime s E).
Qed.

(** The new angular velocity and rotation, from rest, for quiet rotors. *)
Lemma integrate_turn (ps : PhysicsState R) (l r : R)
    (d : Disturbances R) (dt : R) :
  angularVelocity ps = 0 ->
  left (thrustNoise d) = 1 -> right (thrustNoise d) = 1 ->
  let m := integrate DEFAULT_PHYSICS_PARAMS ps l r d dt in
  newAngularVelocity m = 4 * (r - l) * dt /\
  newRotation m = rotation ps + 4 * (r - l) * dt * dt.
Proof.
  intros Hw Hl Hr. cbv zeta. unfold integrate, DEFAULT_PHYSICS_PARAMS.
  cbn [newAngularVelocity newRotation LEFT_THRUST_EFFICIENCY
       RIGHT_THRUST_EFFICIENCY THRUST_DISTANCE CENTER_OF_MASS_OFFSET
       ANGULAR_DRAG_COEFFICIENT MOMENT_OF_INERTIA].
  rewrite Hw, Hl, Hr. RealFacts.at_R. split; field.
Qed.

(** The attitude error of a frame, as the attitude controller stores
    it. *)
Lemma attitude_error_stored (st : ReactState R) (deltaTime : R)
    (s : Store R) :
  PIDConfig.enabled (pidConfig st) = true ->
  PID.prevError (attitudePIDRef (snd (updatePhysics st deltaTime s))) =
  - fst (PID.update (horizontalPositionPIDRef s) 300
           (x (position (physicsState st))) (deltaTime / 100)) -
  rotation (physicsState st).
Proof.
  intros E.
  destruct (CascadeFacts.commandThrust_cascade st (deltaTime / 100) s E)
    as [_ Hc].
  cbv zeta in Hc.
  rewrite FrameFacts.updatePhysics_store.
  destruct (StoreFacts.calculateDisturbances_store
              (disturbanceConfig st) deltaTime
              (snd (commandThrust st (deltaTime / 100) s))) as [_ [D _]].
  rewrite D, Hc. reflexivity.
Qed.

End TurnFacts.

(** X24. The attitude loop of the drone turns it away from the target
    rotation.  In a frame of positive length with the PID system
    enabled, no thrust noise, zero angular velocity and an attitude
    controller without accumulated integral (gains kp, ki > 0, kd = 0,
    bounds -1 and 1; vertical bounds -2 and 2): if the attitude error
    (target rotation minus rotation, which the controller stores as its
    last error) is positive, the left thrust exceeds the right and the
    new rotation is below the old one; if it is negative, the new
    rotation is above the old one. *)
Theorem attitude_loop_turns_away_from_target :
  forall (st : Drone.ReactState R) (deltaTime : R) (s : Drone.Store R),
    (0 < deltaTime)%R ->
    PIDConfig.enabled (Drone.pidConfig st) = true ->
    (ThrustNoise.enabled (DisturbanceConfig.thrust (Drone.disturbanceConfig st))
       = false \/
     ThrustNoise.magnitude (DisturbanceConfig.thrust (Drone.disturbanceConfig st))
       = 0%R) ->
    Types.angularVelocity (Drone.physicsState st) = 0%R ->
    (0 < PID.kp (Drone.attitudePIDRef s))%R ->
    (0 < PID.ki (Drone.attitudePIDRef s))%R ->
    PID.kd (Drone.attitudePIDRef s) = 0%R ->
    PID.integral (Drone.attitudePIDRef s) = 0%R ->
    PID.outputMin (Drone.attitudePIDRef s) = (-1)%R ->
    PID.outputMax (Drone.attitudePIDRef s) = 1%R ->
    PID.outputMin (Drone.verticalPositionPIDRef s) = (-2)%R ->
    PID.outputMax (Drone.verticalPositionPIDRef s) = 2%R ->
    PID.ki (Drone.horizontalPositionPIDRef s) <> 0%R ->
    PID.ki (Drone.verticalPositionPIDRef s) <> 0%R ->
    let thrusts := fst (Drone.commandThrust st (deltaTime / 100)%R s) in
    let m := fst (Drone.motion st deltaTime s) in
    let s' := snd (Drone.updatePhysics st deltaTime s) in
    let error := PID.prevError (Drone.attitudePIDRef s') in
    let rotation := Types.rotation (Drone.physicsState st) in
    ((0 < error)%R ->
     (snd thrusts < fst thrusts)%R /\ (Drone.newRotation m < rotation)%R) /\
    ((error < 0)%R ->
     (fst thrusts < snd thrusts)%R /\ (rotation < Drone.newRotation m)%R).
Proof.
  intros st deltaTime s HdT E Hq Hw Hkp Hki Hkd Hi Ha1 Ha2 Hv1 Hv2 _ _
         thrusts m s' error rotation.
  assert (Hdt : (0 < deltaTime / 100)%R) by lra.
  set (dt := (deltaTime / 100)%R) in *.
  destruct (CascadeFacts.commandThrust_cascade st dt s E) as [Ht Hc].
  cbv zeta in Ht, Hc.
  set (target := (- fst (PID.update (Drone.horizontalPositionPIDRef s) 300
                           (Types.x (Types.position (Drone.physicsState st)))
                           dt))%R) in *.
  set (v := fst (PID.update (Drone.verticalPositionPIDRef s) 150%R
                   (Types.y (Types.position (Drone.physicsState st))) dt))
    in *.
  set (a := fst (PID.update (Drone.attitudePIDRef s) target rotation dt)) in *.
  (* the attitude error, as stored *)
  assert (He : error = (target - rotation)%R).
  { subst error s'. apply TurnFacts.attitude_error_stored. exact E. }
  (* the outputs are within their bounds *)
  assert (Hv : (-2 <= v <= 2)%R).
  { rewrite <- Hv1, <- Hv2. apply ThrustFacts.output_in_bounds.
    rewrite Hv1, Hv2. lra. }
  assert (Ha : (-1 <= a <= 1)%R).
  { rewrite <- Ha1, <- Ha2. apply ThrustFacts.output_in_bounds.
    rewrite Ha1, Ha2. lra. }
  assert (Hb : (PID.outputMin (Drone.attitudePIDRef s) < 0 <
                PID.outputMax (Drone.attitudePIDRef s))%R)
    by (rewrite Ha1, Ha2; lra).
  destruct (CascadeFacts.fresh_pi_sign (Drone.attitudePIDRef s) target
              rotation dt Hkp Hki Hkd Hi Hb Hdt) as [Hpos Hneg].
  fold a in Hpos, Hneg.
  (* the thrusts, not clamped *)
  assert (Hl : fst thrusts = (4.9 + v + a)%R).
  { subst thrusts. rewrite Ht. cbn [fst].
    apply RealFacts.clamp_inside. lra. }
  assert (Hr : snd thrusts = (4.9 + v - a)%R).
  { subst thrusts. rewrite Ht. cbn [snd].
    apply RealFacts.clamp_inside. lra. }
  (* the turn *)
  assert (Hm : Drone.newRotation m =
               (rotation + 4 * (snd thrusts - fst thrusts) * dt * dt)%R).
  { subst m. rewrite DroneMotion.motion_integrate. fold dt.
    destruct (TurnFacts.quiet_factors (Drone.disturbanceConfig st) deltaTime
                (snd (Drone.commandThrust st dt s)) Hq) as [Q1 Q2].
    exact (proj2 (TurnFacts.integrate_turn _ _ _ _ dt Hw Q1 Q2)). }
  rewrite Hm, Hl, Hr, He.
  assert (Hdd : (0 < dt * dt)%R) by nra.
  split; intros Herr.
  - assert (H0 : (0 < a)%R) by (apply Hpos; lra).
    split; [lra |]. nra.
  - assert (H0 : (a < 0)%R) by (apply Hneg; lra).
    split; [lra |]. nra.
Qed.

(** The first frame of the component, 16 ms after it was mounted: the
    drone is left of its target, the target rotation is negative, and the
    rotation grows. *)
Lemma attitude_loop_witness :
  let s := Drone.initialStore 0%R (fun _ => 0.5%R) in
  (Types.rotation (Drone.physicsState Drone.initialState) <
   Drone.newRotation (fst (Drone.motion Drone.initialState 16%R s)))%R.
Proof.
  intros s.
  assert (HdT : (0 < 16)%R) by lra.
  assert (Hq : ThrustNoise.enabled
                 (DisturbanceConfig.thrust
                    (Drone.disturbanceConfig Drone.initialState)) = false \/
               ThrustNoise.magnitude
                 (DisturbanceConfig.thrust
                    (Drone.disturbanceConfig Drone.initialState)) = 0%R).
  { right. cbn. RealFacts.at_R. lra. }
  assert (Hw : Types.angularVelocity (Drone.physicsState Drone.initialState)
               = 0%R) by (cbn; RealFacts.at_R; lra).
  assert (Hkp : (0 < PID.kp (Drone.attitudePIDRef s))%R)
    by (cbn; RealFacts.at_R; lra).
  assert (Hki : (0 < PID.ki (Drone.attitudePIDRef s))%R)
    by (cbn; RealFacts.at_R; lra).
  assert (Hkd : PID.kd (Drone.attitudePIDRef s) = 0%R)
    by (cbn; RealFacts.at_R; lra).
  assert (Hi : PID.integral (Drone.attitudePIDRef s) = 0%R)
    by (cbn; RealFacts.at_R; lra).
  assert (Ha1 : PID.outputMin (Drone.attitudePIDRef s) = (-1)%R)
    by (cbn; RealFacts.at_R; lra).
  assert (Ha2 : PID.outputMax (Drone.attitudePIDRef s) = 1%R)
    by (cbn; RealFacts.at_R; lra).
  assert (Hv1 : PID.outputMin (Drone.verticalPositionPIDRef s) = (-2)%R)
    by (cbn; RealFacts.at_R; lra).
  assert (Hv2 : PID.outputMax (Drone.verticalPositionPIDRef s) = 2%R)
    by (cbn; RealFacts.at_R; lra).
  assert (Kh : PID.ki (Drone.horizontalPositionPIDRef s) <> 0%R)
    by (cbn; RealFacts.at_R; lra).
  assert (Kv : PID.ki (Drone.verticalPositionPIDRef s) <> 0%R)
    by (cbn; RealFacts.at_R; lra).
  refine (proj2 (proj2 (attitude_loop_turns_away_from_target
     Drone.initialState 16%R s HdT eq_refl Hq Hw Hkp Hki Hkd Hi Ha1 Ha2
     Hv1 Hv2 Kh Kv) _)).
  rewrite (TurnFacts.attitude_error_stored Drone.initialState 16%R s eq_refl).
  assert (Hh : (0 < fst (PID.update (Drone.horizontalPositionPIDRef s) 300
                          (Types.x (Types.position
                             (Drone.physicsState Drone.initialState)))
                          (16 / 100)))%R).
  { pose proof PI_RGT_0 as Hpi.
    apply (CascadeFacts.fresh_pi_sign (Drone.horizontalPositionPIDRef s)).
    - cbn; RealFacts.at_R; lra.
    - cbn; RealFacts.at_R; lra.
    - cbn; RealFacts.at_R; lra.
    - cbn; RealFacts.at_R; lra.
    - cbn; RealFacts.at_R; lra.
    - lra.
    - cbn; RealFacts.at_R; lra. }
  replace (Types.rotation (Drone.physicsState Drone.initialState))
    with 0%R by (cbn; RealFacts.at_R; lra).
  lra.
Defined.

Module RestartFacts.
Import CartPole CartPoleUI.

(** Without the autopilot, a firing that halts the run changes only the
    flag. *)
Lemma interval_manual_halt {num : Type} {N : Number num} {T : Trig num}
    (force : num) (r : Run num) :
  isRunning r = true ->
  isRunning (interval force false r) = false ->
  interval force false r = mkRun (state r) (pidController r) false /\
  failed (updatePhysics (state r) force) = true.
Proof.
  intros Hr. unfold interval. rewrite Hr. unfold tick, currentForce.
  destruct (failed (updatePhysics (state r) force)) eqn:E; cbn [isRunning].
  - intros _. split; reflexivity.
  - rewrite Hr. discriminate.
Qed.

Lemma key_events_ignored {num : Type} {N : Number num} {T : Trig num}
    (es : list (Event num)) (c : Component num) :
  isAutoPilot c = true ->
  (forall e, In e es -> e = KeyUp \/ exists key, e = KeyDown key) ->
  handleAll es c = c.
Proof.
  intros Ha. induction es as [| e es IH]; intros Hes; [reflexivity |].
  unfold handleAll. cbn [fold_left].
  assert (He : handle c e = c).
  { destruct (Hes e (or_introl eq_refl)) as [-> | [key ->]];
      cbn [handle]; rewrite Ha; reflexivity. }
  rewrite He. apply IH. intros e' Hin. apply Hes. right. exact Hin.
Qed.

End RestartFacts.

(** X25. Pressing start after a failure, without reset, fails again:
    when a firing has halted a running cart-pole simulation under manual
    control, clicking the start/stop button and letting the interval
    fire once more leaves the component exactly as the failure left it
    (same state and score, halted). *)
Theorem restart_without_reset_fails_again :
  forall (num : Type) (N : Number num) (T : Trig num)
         (c : CartPoleUI.Component num),
    CartPoleUI.isAutoPilot c = false ->
    CartPole.isRunning (CartPoleUI.simulation c) = true ->
    let halted := CartPoleUI.handle c CartPoleUI.Interval in
    CartPole.isRunning (CartPoleUI.simulation halted) = false ->
    CartPoleUI.handleAll [CartPoleUI.ClickStartStop; CartPoleUI.Interval]
      halted = halted.
Proof.
  intros num N T c Ha Hr halted Hh. subst halted.
  destruct c as [r f a]. cbn [CartPoleUI.isAutoPilot CartPoleUI.simulation] in *.
  subst a. cbn [CartPoleUI.handle CartPoleUI.simulation CartPoleUI.force
                CartPoleUI.isAutoPilot] in *.
  destruct (RestartFacts.interval_manual_halt f r Hr Hh) as [Hi Hf].
  rewrite Hi. unfold CartPoleUI.handleAll. cbn [fold_left CartPoleUI.handle].
  unfold CartPoleUI.onToggleRunning.
  cbn [CartPoleUI.simulation CartPoleUI.force CartPoleUI.isAutoPilot
       CartPole.state CartPole.pidController CartPole.isRunning negb].
  unfold CartPole.interval. cbn [CartPole.isRunning].
  unfold CartPole.tick, CartPole.currentForce.
  cbn [CartPole.state CartPole.pidController].
  rewrite Hf. reflexivity.
Qed.

(** The cart at x = 2.4 moving right at 1 under no force. *)
Lemma restart_witness :
  let c := CartPoleUI.mkComponent
             (CartPole.mkRun (CartPole.mkState 2.4 0 1 0 7)%R
                             CartPole.initialController true)
             0%R false in
  let halted := CartPoleUI.handle c CartPoleUI.Interval in
  CartPoleUI.handleAll [CartPoleUI.ClickStartStop; CartPoleUI.Interval]
    halted = halted.
Proof.
  intros c.
  exact (restart_without_reset_fails_again R RNumber RTrig c eq_refl eq_refl
           RunExamples.edge_run_halted).
Defined.

(** X26. While the autopilot of the cart-pole is on, key presses and key
    releases do nothing (the listeners are detached): the component is
    unchanged by any sequence of them, so a force that a held key had
    set before the autopilot was switched on is still there when it is
    switched off, whether or not the key was released meanwhile. *)
Theorem keys_do_nothing_under_autopilot :
  forall (num : Type) (N : Number num) (T : Trig num)
         (es : list (CartPoleUI.Event num)) (c : CartPoleUI.Component num),
    CartPoleUI.isAutoPilot c = true ->
    (forall e, In e es ->
       e = CartPoleUI.KeyUp \/ exists key, e = CartPoleUI.KeyDown key) ->
    CartPoleUI.handleAll es c = c /\
    CartPoleUI.force
      (CartPoleUI.handleAll (es ++ [CartPoleUI.ClickAutoPilot]) c) =
    CartPoleUI.force c.
Proof.
  intros num N T es c Ha Hes.
  pose proof (RestartFacts.key_events_ignored es c Ha Hes) as H.
  split; [exact H |].
  unfold CartPoleUI.handleAll in *. rewrite fold_left_app, H. reflexivity.
Qed.

(** The right arrow held while the autopilot is switched on, released
    under the autopilot. *)
Lemma keys_witness :
  let c := CartPoleUI.handleAll
             [CartPoleUI.KeyDown "ArrowRight"; CartPoleUI.ClickAutoPilot]
             (CartPoleUI.initialComponent (num := R)) in
  CartPoleUI.force
    (CartPoleUI.handleAll [CartPoleUI.KeyUp; CartPoleUI.ClickAutoPilot] c) =
  CartPole.maxForce.
Proof.
  intros c.
  assert (Ha : CartPoleUI.isAutoPilot c = true) by reflexivity.
  assert (Hes : forall e, In e [CartPoleUI.KeyUp (num := R)] ->
                  e = CartPoleUI.KeyUp \/
                  exists key, e = CartPoleUI.KeyDown key).
  { intros e [He | []]. left. symmetry. exact He. }
  exact (proj2 (keys_do_nothing_under_autopilot R RNumber RTrig
                  [CartPoleUI.KeyUp] c Ha Hes)).
Defined.

Module AgreeFacts.
Import Types StateMonad.

Open Scope R_scope.

(** The motion of [DorneSim.tsx] under manual control and without
    disturbances, field by field, is the motion of the plain simulator. *)
Lemma motion_agrees (st : Drone.ReactState R) (deltaTime : R)
    (s : Drone.Store R) :
  PIDConfig.enabled (Drone.pidConfig st) = false ->
  WindDisturbance.enabled
    (DisturbanceConfig.wind (Drone.disturbanceConfig st)) = false ->
  ThrustNoise.enabled
    (DisturbanceConfig.thrust (Drone.disturbanceConfig st)) = false ->
  let m := fst (Drone.motion st deltaTime s) in
  let m0 := DroneSimu.motion
              (DroneSimu.mkReactState (Drone.physicsState st)
                 (Drone.leftThrust st) (Drone.rightThrust st)) deltaTime in
  Drone.newAngularVelocity m = DroneSimu.newAngularVelocity m0 /\
  Drone.newRotation m = DroneSimu.newRotation m0 /\
  Drone.newVelocityX m = DroneSimu.newVelocityX m0 /\
  Drone.newVelocityY m = DroneSimu.newVelocityY m0 /\
  Drone.newPositionX m = DroneSimu.newPositionX m0 /\
  Drone.newPositionY m = DroneSimu.newPositionY m0.
Proof.
  intros Ep Ew Et. cbv zeta.
  unfold Drone.motion, Drone.commandThrust, Drone.calculateDisturbances.
  rewrite Ep, Ew, Et. DroneFacts.run_monad. cbn [fst snd].
  rewrite SimuFacts.motion_R.
  unfold Drone.integrate, Drone.DEFAULT_PHYSICS_PARAMS.
  cbn [Drone.newAngularVelocity Drone.newRotation Drone.newVelocityX
       Drone.newVelocityY Drone.newPositionX Drone.newPositionY
       DroneSimu.newAngularVelocity DroneSimu.newRotation
       DroneSimu.newVelocityX DroneSimu.newVelocityY DroneSimu.newPositionX
       DroneSimu.newPositionY DroneSimu.physicsState DroneSimu.leftThrust
       DroneSimu.rightThrust Drone.windForce Drone.thrustNoise Drone.left
       Drone.right GRAVITY MASS MOMENT_OF_INERTIA DRAG_COEFFICIENT
       ANGULAR_DRAG_COEFFICIENT THRUST_DISTANCE CENTER_OF_MASS_OFFSET
       LEFT_THRUST_EFFICIENCY RIGHT_THRUST_EFFICIENCY].
  RealFacts.at_R. repeat split; field.
Qed.

End AgreeFacts.

(** X27. The two drone simulators agree: with the PID system, the wind
    and the thrust noise switched off, a frame of [DorneSim.tsx] sets
    exactly the state that the plain simulator of [DisturbanceConfig.ts]
    sets from the same state and thrusts, and it leaves its store (the
    controllers, the wind clock, the random sequence) untouched. *)
Theorem simulators_agree_without_control_and_disturbance :
  forall (st : Drone.ReactState R) (deltaTime : R) (s : Drone.Store R),
    PIDConfig.enabled (Drone.pidConfig st) = false ->
    WindDisturbance.enabled
      (DisturbanceConfig.wind (Drone.disturbanceConfig st)) = false ->
    ThrustNoise.enabled
      (DisturbanceConfig.thrust (Drone.disturbanceConfig st)) = false ->
    Drone.updatePhysics st deltaTime s =
    (DroneSimu.updatePhysics
       (DroneSimu.mkReactState (Drone.physicsState st)
          (Drone.leftThrust st) (Drone.rightThrust st)) deltaTime,
     s).
Proof.
  intros st deltaTime s Ep Ew Et.
  assert (Hs : snd (Drone.updatePhysics st deltaTime s) = s).
  { rewrite FrameFacts.updatePhysics_store.
    unfold Drone.commandThrust, Drone.calculateDisturbances.
    rewrite Ep, Ew, Et. destruct s. reflexivity. }
  assert (Hp : fst (Drone.updatePhysics st deltaTime s) =
               DroneSimu.updatePhysics
                 (DroneSimu.mkReactState (Drone.physicsState st)
                    (Drone.leftThrust st) (Drone.rightThrust st)) deltaTime).
  { rewrite DroneWalls.updatePhysics_boundary. unfold DroneSimu.updatePhysics.
    rewrite DroneWalls.boundary_R, DroneWalls.simu_boundary_R.
    destruct (AgreeFacts.motion_agrees st deltaTime s Ep Ew Et)
      as [H1 [H2 [H3 [H4 [H5 H6]]]]].
    rewrite H1, H2, H3, H4, H5, H6. reflexivity. }
  destruct (Drone.updatePhysics st deltaTime s) as [p s'].
  cbn [fst snd] in Hs, Hp. subst. reflexivity.
Qed.

(** The initial state of [DorneSim.tsx] with everything switched off. *)
Lemma simulators_agree_witness :
  let off := DisturbanceConfig.make
               (WindDisturbance.make false 0 0 0 0)%R
               (ThrustNoise.make false 0 10)%R in
  let manual := PIDConfig.make false
                  (PIDConfig.mkGains 8 0.5 0)%R
                  (PIDConfig.mkPositionGains
                     (PIDConfig.mkGains 1 0.05 0)%R
                     (PIDConfig.mkGains 1.5 0.05 0)%R) in
  let ps := (Types.mkPhysicsState (Types.mkPosition 100 150)
               (Types.mkPosition 0 0) 0 0)%R in
  let s := Drone.initialStore 0%R (fun _ => 0.5%R) in
  Drone.updatePhysics (Drone.mkReactState ps 4.9%R 4.9%R off manual) 16%R s =
  (DroneSimu.updatePhysics (DroneSimu.mkReactState ps 4.9%R 4.9%R) 16%R, s).
Proof.
  intros off manual ps s.
  exact (simulators_agree_without_control_and_disturbance
           (Drone.mkReactState ps 4.9%R 4.9%R off manual) 16%R s
           eq_refl eq_refl eq_refl).
Defined.
